(** * PyDaymet: the FAO-56 potential evapotranspiration engines

    A shallow embedding of [pydaymet/core.py]: the requirement checker
    [_check_requirements], the point engine [Daymet.pet_bycoords] and the
    grid engine [Daymet.pet_bygrid], then the constructor of [Daymet] and
    its functions on dates and years, followed by the properties of the
    specification that are settled on it and by further properties of the
    code.

    The arithmetic of the engines is kept behind the interface [Numeric]:
    the source only uses literals, the four operations, powers and a few
    functions of the math library, applied elementwise.  Two instances are
    given: IEEE binary64 (the [float64] of NumPy and pandas) and an
    idealised one over the reals extended with an undefined value. *)

From Stdlib Require Import ZArith QArith Reals Lra Floats String Ascii.
From Stdlib Require Import DecimalString DecimalZ DecimalPos.
From stdpp Require Import base option list strings gmap.

Set Default Proof Using "Type".
Local Open Scope string_scope.

(** ** Numbers *)

(** What the engines need from a number type.  [lit] reads a Python
    literal (given as the exact rational it denotes), [powi] is [**] with an
    integer exponent, [powf] is [**] with a float exponent, [isnan] is
    [np.isnan]. *)
Class Numeric (F : Type) : Type := {
  lit : Q -> F;
  add : F -> F -> F;
  sub : F -> F -> F;
  mul : F -> F -> F;
  div : F -> F -> F;
  neg : F -> F;
  powi : F -> Z -> F;
  powf : F -> F -> F;
  exp : F -> F;
  sqrt : F -> F;
  cos : F -> F;
  sin : F -> F;
  tan : F -> F;
  arccos : F -> F;
  pi : F;
  nan : F;
  isnan : F -> bool
}.

Declare Scope num_scope.
Delimit Scope num_scope with num.
Notation "x + y" := (add x y) : num_scope.
Notation "x - y" := (sub x y) : num_scope.
Notation "x * y" := (mul x y) : num_scope.
Notation "x / y" := (div x y) : num_scope.
Notation "- x" := (neg x) : num_scope.
Notation "x ** n" := (powi x n) (at level 30, right associativity) : num_scope.
Notation "x **. y" := (powf x y) (at level 30, right associativity) : num_scope.
Notation "# q" := (lit q%Q) (at level 9, q at level 9, format "# q") : num_scope.

(** *** IEEE binary64 *)

(** Primitive floats have the four operations and the square root of
    IEEE 754, correctly rounded, but no transcendental function: those come
    from the platform's math library and are a parameter of the instance. *)
Record Libm : Type := {
  m_exp : float -> float;
  m_cos : float -> float;
  m_sin : float -> float;
  m_tan : float -> float;
  m_arccos : float -> float;
  m_pow : float -> float -> float;
  m_pi : float
}.

(** A literal [n/d] with [n] and [d] below [2^53] is the float nearest to
    it: both are represented exactly and the division rounds once. *)
Definition float_of_Z (z : Z) : float :=
  match z with
  | Z0 => PrimFloat.zero
  | Zpos p => PrimFloat.of_uint63 (Uint63.of_pos p)
  | Zneg p => PrimFloat.opp (PrimFloat.of_uint63 (Uint63.of_pos p))
  end.

Definition float_lit (q : Q) : float :=
  PrimFloat.div (float_of_Z (Qnum q)) (float_of_Z (Zpos (Qden q))).

Definition binary64 (m : Libm) : Numeric float := {|
  lit := float_lit;
  add := PrimFloat.add;
  sub := PrimFloat.sub;
  mul := PrimFloat.mul;
  div := PrimFloat.div;
  neg := PrimFloat.opp;
  powi := fun x n => m_pow m x (float_of_Z n);
  powf := m_pow m;
  exp := m_exp m;
  sqrt := PrimFloat.sqrt;
  cos := m_cos m;
  sin := m_sin m;
  tan := m_tan m;
  arccos := m_arccos m;
  pi := m_pi m;
  nan := PrimFloat.nan;
  isnan := PrimFloat.is_nan
|}.

(** A math library that is not there: every call is undefined.  It serves
    where the value under study only goes through the four operations. *)
Definition libm_absent : Libm := {|
  m_exp := fun _ => PrimFloat.nan;
  m_cos := fun _ => PrimFloat.nan;
  m_sin := fun _ => PrimFloat.nan;
  m_tan := fun _ => PrimFloat.nan;
  m_arccos := fun _ => PrimFloat.nan;
  m_pow := fun _ _ => PrimFloat.nan;
  m_pi := PrimFloat.div (float_of_Z 884279719003555) (float_of_Z 281474976710656)
|}.

(** *** Exact arithmetic *)

(** The reals with one undefined value, [None], that every operation
    propagates: arithmetic without rounding. *)
Definition Rnan : Type := option R.

Definition lift1 (f : R -> R) (x : Rnan) : Rnan :=
  match x with Some a => Some (f a) | None => None end.

Definition lift2 (f : R -> R -> R) (x y : Rnan) : Rnan :=
  match x, y with Some a, Some b => Some (f a b) | _, _ => None end.

#[export] Instance exact : Numeric Rnan := {|
  lit := fun q => Some (Q2R q);
  add := lift2 Rplus;
  sub := lift2 Rminus;
  mul := lift2 Rmult;
  div := lift2 Rdiv;
  neg := lift1 Ropp;
  powi := fun x n => lift1 (fun a => powerRZ a n) x;
  powf := lift2 Rpower;
  exp := lift1 Rtrigo_def.exp;
  sqrt := lift1 R_sqrt.sqrt;
  cos := lift1 Rtrigo_def.cos;
  sin := lift1 Rtrigo_def.sin;
  tan := lift1 Rtrigo1.tan;
  arccos := lift1 Ratan.acos;
  pi := Some PI;
  nan := None;
  isnan := fun x => match x with None => true | Some _ => false end
|}.

(** ** Exceptions *)

(** Modelled from the spec: the exception classes of [pydaymet.exceptions]
    that [core.py] imports, by the arguments they are raised with; the
    interpreter's own exceptions and the failure of a collaborator are kept
    apart from them. *)
Inductive exn : Type :=
  | MissingItems (missing : list string)
  | InvalidInputType (arg : string) (valid_type : string)
  | KeyError (key : string)
  | IndexError
  | AttributeError (name : string)
  | TypeError
  | MergeError (name : string)
  | ServiceError (msg : string).

Definition result (A : Type) : Type := exn + A.

(** ** The requirement checker *)

(** The Python value passed as [reqs]: something that can be iterated over
    names, or something that cannot. *)
Inductive pyobj : Type :=
  | PyIter (items : list string)
  | PyInt (n : Z)
  | PyNone.

Definition isinstance_Iterable (o : pyobj) : bool :=
  match o with PyIter _ => true | _ => false end.

(** [r in cols] *)
Definition contains (cols : list string) (r : string) : bool :=
  bool_decide (r ∈ cols).

(** What iterating over [reqs] yields. *)
Definition iterate (o : pyobj) : list string :=
  match o with PyIter items => items | _ => [] end.

(** [_check_requirements(reqs, cols)] *)
Definition _check_requirements (reqs : pyobj) (cols : list string) : result unit :=
  if negb (isinstance_Iterable reqs) then
    inl (InvalidInputType "reqs" "iterable")
  else
    let missing := List.filter (fun r => negb (contains cols r)) (iterate reqs) in
    match missing with
    | [] => inr tt
    | _ :: _ => inl (MissingItems missing)
    end.

(** ** Time stamps *)

(** A calendar day, the label of a row or of a time step. *)
Record Timestamp : Type := { year : Z; month : Z; day : Z }.

(** The leap-year test, as [years_tolist] writes it. *)
Definition is_leap_year (y : Z) : bool :=
  ((y mod 4 =? 0) && (negb (y mod 100 =? 0) || (y mod 400 =? 0)))%Z.

Definition days_before_month (leap : bool) (m : Z) : Z :=
  let l := if leap then 1%Z else 0%Z in
  match m with
  | 1 => 0 | 2 => 31 | 3 => 59 + l | 4 => 90 + l | 5 => 120 + l
  | 6 => 151 + l | 7 => 181 + l | 8 => 212 + l | 9 => 243 + l
  | 10 => 273 + l | 11 => 304 + l | _ => 334 + l
  end%Z.

(** pandas' [dayofyear]: the ordinal of the day within its year. *)
Definition dayofyear (ts : Timestamp) : Z :=
  (days_before_month (is_leap_year (year ts)) (month ts) + day ts)%Z.

(** ** Containers keyed by name *)

(** Columns of a table and variables of a dataset are kept in insertion
    order, as pandas and xarray keep them: assigning to an existing name
    replaces its value in place, assigning to a new name appends it. *)
Section AList.
Context {V : Type}.

Fixpoint al_get (k : string) (l : list (string * V)) : option V :=
  match l with
  | [] => None
  | (k', v) :: l' => if String.eqb k k' then Some v else al_get k l'
  end.

Fixpoint al_set (k : string) (v : V) (l : list (string * V)) : list (string * V) :=
  match l with
  | [] => [(k, v)]
  | (k', v') :: l' =>
      if String.eqb k k' then (k, v) :: l' else (k', v') :: al_set k v l'
  end.

Fixpoint al_del (k : string) (l : list (string * V)) : list (string * V) :=
  match l with
  | [] => []
  | (k', v') :: l' =>
      if String.eqb k k' then al_del k l' else (k', v') :: al_del k l'
  end.

Definition al_keys (l : list (string * V)) : list string := map fst l.
End AList.

(** ** Objects, references and exceptions *)

(** The engines receive a reference to a container, assign to it in place
    and hand back a reference.  A computation threads the store of
    containers and stops at the first exception, leaving the store as the
    statements before it made it. *)
Definition loc : Type := nat.

Section Store.
Context {O : Type}.

Definition M (A : Type) : Type := gmap loc O -> result A * gmap loc O.

Definition ret {A} (a : A) : M A := fun h => (inr a, h).

Definition bind {A B} (m : M A) (k : A -> M B) : M B :=
  fun h =>
    match m h with
    | (inl e, h') => (inl e, h')
    | (inr a, h') => k a h'
    end.

Definition raise {A} (e : exn) : M A := fun h => (inl e, h).

(** The outcome of a call that does not touch the store. *)
Definition lift {A} (r : result A) : M A := fun h => (r, h).

(** The object a reference names.  A reference held by a caller always
    names one; the other case only makes the function total. *)
Definition deref (l : loc) : M O :=
  fun h => match h !! l with
           | Some o => (inr o, h)
           | None => (inl TypeError, h)
           end.

Definition assign (l : loc) (o : O) : M unit :=
  fun h => (inr tt, <[l := o]> h).

(** A new object gets a reference no object has. *)
Definition alloc (o : O) : M loc :=
  fun h => let l := fresh (dom h) in (inr l, <[l := o]> h).
End Store.

Arguments M : clear implicits.

Declare Scope store_scope.
Delimit Scope store_scope with store.
Notation "x <- c1 ;; c2" := (bind c1 (fun x => c2))
  (at level 100, c1 at next level, right associativity) : store_scope.
Notation "c1 ;;; c2" := (bind c1 (fun _ => c2))
  (at level 100, right associativity) : store_scope.

(** ** The point engine *)

Section Engines.
Context {F : Type} {num : Numeric F}.
Local Open Scope num_scope.
Local Open Scope store_scope.

(** A column: its values by row position.  Arithmetic on columns of one
    table is row by row. *)
Definition Series : Type := nat -> F.

(** A [pandas.DataFrame]: the time index and the named columns. *)
Record DataFrame : Type := {
  df_index : list Timestamp;
  df_columns : list (string * Series)
}.

(** [py3dep.elevation_bycoords(coords, crs)]: the elevations of a list of
    points, or the exception the service raised. *)
Variable elevation_bycoords : list (F * F) -> string -> result (list F).

(** [clm_df.columns] *)
Definition columns (clm_df : loc) : M DataFrame (list string) :=
  df <- deref clm_df ;;
  ret (al_keys (df_columns df)).

(** [clm_df[name]] *)
Definition getitem (clm_df : loc) (name : string) : M DataFrame Series :=
  df <- deref clm_df ;;
  match al_get name (df_columns df) with
  | Some s => ret s
  | None => raise (KeyError name)
  end.

(** [clm_df[name] = s] *)
Definition setitem (clm_df : loc) (name : string) (s : Series) : M DataFrame unit :=
  df <- deref clm_df ;;
  assign clm_df
    {| df_index := df_index df; df_columns := al_set name s (df_columns df) |}.

(** [clm_df.drop(columns=name)]: a new table, the receiver is left as it
    is. *)
Definition drop (clm_df : loc) (name : string) : M DataFrame loc :=
  df <- deref clm_df ;;
  if contains (al_keys (df_columns df)) name then
    alloc {| df_index := df_index df; df_columns := al_del name (df_columns df) |}
  else raise (KeyError name).

(** [clm_df.index.dayofyear], by row position. *)
Definition index_dayofyear (clm_df : loc) : M DataFrame (nat -> Z) :=
  df <- deref clm_df ;;
  ret (fun i => match df_index df !! i with
                | Some ts => dayofyear ts
                | None => 0%Z
                end).

(** [xs[0]] *)
Definition item0 {A} (xs : list A) : result A :=
  match xs with
  | x :: _ => inr x
  | [] => inl IndexError
  end.

(** The unit labels of [pet_bycoords], official and alternative. *)
Definition units (name : string) : string * string :=
  if String.eqb name "srad" then ("W/m2", "W/m^2") else ("degrees C", "deg c").

(** [pair[alt_unit]]: [False] is index 0, [True] is index 1. *)
Definition pick (pair : string * string) (alt_unit : bool) : string :=
  if alt_unit then pair.2 else pair.1.

Definition va_pa : string := "vp (Pa)".
Definition tmin_c (alt_unit : bool) : string := "tmin (" ++ pick (units "tmin") alt_unit ++ ")".
Definition tmax_c (alt_unit : bool) : string := "tmax (" ++ pick (units "tmax") alt_unit ++ ")".
Definition srad_wm2 (alt_unit : bool) : string := "srad (" ++ pick (units "srad") alt_unit ++ ")".
Definition dayl_s : string := "dayl (s)".
Definition tmean_c : string := "tmean (deg c)".
Definition pet_mmday : string := "pet (mm/day)".

(** [Daymet.pet_bycoords(clm_df, coords, crs, alt_unit)].  The listing of
    the columns that the source prints first is not modelled. *)
Definition pet_bycoords (clm_df : loc) (coords : F * F) (crs : string)
    (alt_unit : bool) : M DataFrame loc :=
  let reqs := [tmin_c alt_unit; tmax_c alt_unit; va_pa; srad_wm2 alt_unit; dayl_s] in
  cols <- columns clm_df ;;
  lift (_check_requirements (PyIter reqs) cols) ;;;
  tmax <- getitem clm_df (tmax_c alt_unit) ;;
  tmin <- getitem clm_df (tmin_c alt_unit) ;;
  setitem clm_df tmean_c (fun i => #0.5 * (tmax i + tmin i)) ;;;
  tmean <- getitem clm_df tmean_c ;;
  let delta_v := fun i =>
    #4098 * (#0.6108 * exp (#17.27 * tmean i / (tmean i + #237.3)))
    / ((tmean i + #237.3) ** 2) in
  elevs <- lift (elevation_bycoords [coords] crs) ;;
  elevation <- lift (item0 elevs) ;;
  let pa := #101.3 * ((#293.0 - #0.0065 * elevation) / #293.0) **. #5.26 in
  let gamma := pa * #0.665e-3 in
  let rho_s := #0.0 in
  vp <- getitem clm_df va_pa ;;
  setitem clm_df va_pa (fun i => vp i * #1e-3) ;;;
  tmax <- getitem clm_df (tmax_c alt_unit) ;;
  tmin <- getitem clm_df (tmin_c alt_unit) ;;
  vp <- getitem clm_df va_pa ;;
  let e_max := fun i => #0.6108 * exp (#17.27 * tmax i / (tmax i + #237.3)) in
  let e_min := fun i => #0.6108 * exp (#17.27 * tmin i / (tmin i + #237.3)) in
  let e_s := fun i => (e_max i + e_min i) * #0.5 in
  let e_def := fun i => e_s i - vp i in
  let u_2m := #2.0 in
  jday <- index_dayofyear clm_df ;;
  srad <- getitem clm_df (srad_wm2 alt_unit) ;;
  dayl <- getitem clm_df dayl_s ;;
  let r_surf := fun i => srad i * dayl i * #1e-6 in
  let alb := #0.23 in
  let jp := fun i => #2.0 * pi * lit (inject_Z (jday i)) / #365.0 in
  let d_r := fun i => #1.0 + #0.033 * cos (jp i) in
  let delta_r := fun i => #0.409 * sin (jp i - #1.39) in
  let phi := coords.2 * pi / #180.0 in
  let w_s := fun i => arccos (- tan phi * tan (delta_r i)) in
  let r_aero := fun i =>
    #24.0 * #60.0 / pi * #0.082 * d_r i
    * (w_s i * sin phi * sin (delta_r i) + cos phi * cos (delta_r i) * sin (w_s i)) in
  let rad_s := fun i => (#0.75 + #2e-5 * elevation) * r_aero i in
  let rad_ns := fun i => (#1.0 - alb) * r_surf i in
  let rad_nl := fun i =>
    #4.903e-9
    * (((tmax i + #273.16) ** 4 + (tmin i + #273.16) ** 4) * #0.5)
    * (#0.34 - #0.14 * sqrt (vp i))
    * ((#1.35 * r_surf i / rad_s i) - #0.35) in
  let rad_n := fun i => rad_ns i - rad_nl i in
  tmean <- getitem clm_df tmean_c ;;
  setitem clm_df pet_mmday (fun i =>
    (#0.408 * delta_v i * (rad_n i - rho_s)
     + gamma * #900.0 / (tmean i + #273.0) * u_2m * e_def i)
    / (delta_v i + gamma * (#1 + #0.34 * u_2m))) ;;;
  vp <- getitem clm_df va_pa ;;
  setitem clm_df va_pa (fun i => vp i * #1.0e3) ;;;
  drop clm_df tmean_c.

(** ** The grid engine *)

(** The values of an [xarray] array by (time, y, x) position.  An array
    that lacks a dimension is constant along it, which is how xarray
    broadcasts by dimension name. *)
Definition Field : Type := nat -> nat -> nat -> F.

Record DataArray : Type := {
  da_values : Field;
  da_attrs : list (string * string)
}.

(** The labels of the time axis: time stamps, or numbers while the engine
    has the day of the year in their place. *)
Inductive TimeAxis : Type :=
  | Dates (ts : list Timestamp)
  | Numbers (vs : list F).

(** A container-level attribute. *)
Inductive attr : Type :=
  | AttrNums (vs : list F)
  | AttrStr (s : string).

(** An [xarray.Dataset]: coordinates, data variables in insertion order,
    attributes. *)
Record Dataset : Type := {
  ds_time : TimeAxis;
  ds_y : list F;
  ds_x : list F;
  ds_vars : list (string * DataArray);
  ds_attrs : list (string * attr)
}.

(** [py3dep.elevation_bygrid(x, y, crs, res)]: an array named
    ["elevation"] aligned to the (y, x) coordinates it was given, by
    (y, x) position, or the exception the service raised. *)
Variable elevation_bygrid :
  list F -> list F -> attr -> F -> result (nat -> nat -> F).

Definition time_length (ax : TimeAxis) : nat :=
  match ax with Dates ts => length ts | Numbers vs => length vs end.

Definition with_vars (ds : Dataset) (vars : list (string * DataArray)) : Dataset :=
  {| ds_time := ds_time ds; ds_y := ds_y ds; ds_x := ds_x ds;
     ds_vars := vars; ds_attrs := ds_attrs ds |}.

(** The result of an arithmetic expression: values without attributes. *)
Definition computed (v : Field) : DataArray :=
  {| da_values := v; da_attrs := [] |}.

(** [list(clm_ds.keys())] *)
Definition keys (clm_ds : loc) : M Dataset (list string) :=
  ds <- deref clm_ds ;;
  ret (al_keys (ds_vars ds)).

(** [clm_ds[name]], for a data variable *)
Definition ds_getitem (clm_ds : loc) (name : string) : M Dataset Field :=
  ds <- deref clm_ds ;;
  match al_get name (ds_vars ds) with
  | Some da => ret (da_values da)
  | None => raise (KeyError name)
  end.

(** [clm_ds[name] = v], for a data variable *)
Definition ds_setitem (clm_ds : loc) (name : string) (v : Field) : M Dataset unit :=
  ds <- deref clm_ds ;;
  assign clm_ds (with_vars ds (al_set name (computed v) (ds_vars ds))).

(** [clm_ds[name] *= c]: the values are scaled in place, the attributes
    of the variable stay. *)
Definition ds_imul (clm_ds : loc) (name : string) (c : F) : M Dataset unit :=
  ds <- deref clm_ds ;;
  match al_get name (ds_vars ds) with
  | Some da =>
      assign clm_ds (with_vars ds (al_set name
        {| da_values := fun t y x => da_values da t y x * c;
           da_attrs := da_attrs da |} (ds_vars ds)))
  | None => raise (KeyError name)
  end.

(** [clm_ds[name].attrs[k] = v] *)
Definition ds_set_var_attr (clm_ds : loc) (name k v : string) : M Dataset unit :=
  ds <- deref clm_ds ;;
  match al_get name (ds_vars ds) with
  | Some da =>
      assign clm_ds (with_vars ds (al_set name
        {| da_values := da_values da;
           da_attrs := al_set k v (da_attrs da) |} (ds_vars ds)))
  | None => raise (KeyError name)
  end.

(** [clm_ds.name], for a container-level attribute *)
Definition ds_getattr (clm_ds : loc) (name : string) : M Dataset attr :=
  ds <- deref clm_ds ;;
  match al_get name (ds_attrs ds) with
  | Some a => ret a
  | None => raise (AttributeError name)
  end.

(** [clm_ds.isel(time=0)[name]]: the first time slice of a variable, an
    array over (y, x). *)
Definition isel_time0 (clm_ds : loc) (name : string) : M Dataset Field :=
  ds <- deref clm_ds ;;
  if Nat.eqb (time_length (ds_time ds)) 0 then raise IndexError
  else match al_get name (ds_vars ds) with
       | Some da => ret (fun _ y x => da_values da 0%nat y x)
       | None => raise (KeyError name)
       end.

(** [clm_ds["time"]] read as a coordinate and [clm_ds["time"] = ax] *)
Definition ds_gettime (clm_ds : loc) : M Dataset TimeAxis :=
  ds <- deref clm_ds ;;
  ret (ds_time ds).

Definition ds_settime (clm_ds : loc) (ax : TimeAxis) : M Dataset unit :=
  ds <- deref clm_ds ;;
  assign clm_ds
    {| ds_time := ax; ds_y := ds_y ds; ds_x := ds_x ds;
       ds_vars := ds_vars ds; ds_attrs := ds_attrs ds |}.

(** [pd.to_datetime(clm_ds.time.values).dayofyear.astype(dtype)].  The
    time axis of a Climate Field Set holds time stamps; the engine is not
    modelled on an axis of numbers. *)
Definition time_dayofyear (clm_ds : loc) : M Dataset (list F) :=
  ds <- deref clm_ds ;;
  match ds_time ds with
  | Dates ts => ret (map (fun d => lit (inject_Z (dayofyear d))) ts)
  | Numbers _ => raise TypeError
  end.

(** [clm_ds["time"]] used in arithmetic: an array over time. *)
Definition time_values (clm_ds : loc) : M Dataset Field :=
  ds <- deref clm_ds ;;
  match ds_time ds with
  | Numbers vs => ret (fun t _ _ => match vs !! t with Some v => v | None => nan end)
  | Dates _ => raise TypeError
  end.

(** [xr.merge([clm_ds, elev])] followed by [clm_ds.attrs = attrs]: a new
    dataset with the array of the service as the variable ["elevation"].

    Two things xarray does are outside this model, which keeps the values
    of a variable and not the array that holds them.  A dataset that
    already has a variable ["elevation"] is refused here, where xarray
    merges it if the two agree wherever both are defined: the properties
    below are stated for datasets without such a variable
    ([ready_fresh]).  And the new dataset shares its arrays with the one
    passed, so that the scaling of ["vp"] in place after the merge also
    reaches the dataset passed: what is said below of the dataset passed
    holds up to the merge, and what is said of the dataset returned is not
    affected. *)
Definition merge_elevation (clm_ds : loc) (elev : nat -> nat -> F)
    (attrs : list (string * attr)) : M Dataset loc :=
  ds <- deref clm_ds ;;
  if contains (al_keys (ds_vars ds)) "elevation" then raise (MergeError "elevation")
  else alloc
    {| ds_time := ds_time ds; ds_y := ds_y ds; ds_x := ds_x ds;
       ds_vars := al_set "elevation" (computed (fun _ y x => elev y x)) (ds_vars ds);
       ds_attrs := attrs |}.

(** [clm_ds.drop_vars(names)]: a new dataset. *)
Definition ds_drop_vars (clm_ds : loc) (names : list string) : M Dataset loc :=
  ds <- deref clm_ds ;;
  match List.filter (fun n => negb (contains (al_keys (ds_vars ds)) n)) names with
  | [] => alloc (with_vars ds (fold_left (fun vars n => al_del n vars) names (ds_vars ds)))
  | n :: _ => raise (KeyError n)
  end.

(** [res[0] * 1.0e3]: on a sequence of numbers the first of them scaled,
    or the index error of an empty sequence; on a string the index error
    of the empty string, or the type error of a character multiplied by a
    float. *)
Definition resolution (res : attr) : result F :=
  match res with
  | AttrNums vs =>
      match item0 vs with
      | inr r => inr (r * #1.0e3)
      | inl e => inl e
      end
  | AttrStr EmptyString => inl IndexError
  | AttrStr (String _ _) => inl TypeError
  end.

(** [Daymet.pet_bygrid(clm_ds)] *)
Definition pet_bygrid (clm_ds : loc) : M Dataset loc :=
  keys_ <- keys clm_ds ;;
  let reqs := ["tmin"; "tmax"; "lat"; "lon"; "vp"; "srad"; "dayl"] in
  lift (_check_requirements (PyIter reqs) keys_) ;;;
  dates <- ds_gettime clm_ds ;;
  tmax <- ds_getitem clm_ds "tmax" ;;
  tmin <- ds_getitem clm_ds "tmin" ;;
  ds_setitem clm_ds "tmean" (fun t y x => #0.5 * (tmax t y x + tmin t y x)) ;;;
  tmean <- ds_getitem clm_ds "tmean" ;;
  ds_setitem clm_ds "delta_r" (fun t y x =>
    #4098 * (#0.6108 * exp (#17.27 * tmean t y x / (tmean t y x + #237.3)))
    / ((tmean t y x + #237.3) ** 2)) ;;;
  res_attr <- ds_getattr clm_ds "res" ;;
  res <- lift (resolution res_attr) ;;
  ds <- deref clm_ds ;;
  crs <- ds_getattr clm_ds "crs" ;;
  elev <- lift (elevation_bygrid (ds_x ds) (ds_y ds) crs res) ;;
  let attrs := ds_attrs ds in
  clm_ds <- merge_elevation clm_ds elev attrs ;;
  elevation <- ds_getitem clm_ds "elevation" ;;
  key0 <- lift (item0 keys_) ;;
  ref0 <- isel_time0 clm_ds key0 ;;
  ds_setitem clm_ds "elevation" (fun t y x =>
    if negb (isnan (ref0 t y x)) then elevation t y x else nan) ;;;
  elevation <- ds_getitem clm_ds "elevation" ;;
  let pa := fun t y x =>
    #101.3 * ((#293.0 - #0.0065 * elevation t y x) / #293.0) **. #5.26 in
  ds_setitem clm_ds "gamma" (fun t y x => pa t y x * #0.665e-3) ;;;
  let rho_s := #0.0 in
  ds_imul clm_ds "vp" #1e-3 ;;;
  tmax <- ds_getitem clm_ds "tmax" ;;
  tmin <- ds_getitem clm_ds "tmin" ;;
  vp <- ds_getitem clm_ds "vp" ;;
  let e_max := fun t y x =>
    #0.6108 * exp (#17.27 * tmax t y x / (tmax t y x + #237.3)) in
  let e_min := fun t y x =>
    #0.6108 * exp (#17.27 * tmin t y x / (tmin t y x + #237.3)) in
  let e_s := fun t y x => (e_max t y x + e_min t y x) * #0.5 in
  ds_setitem clm_ds "e_def" (fun t y x => e_s t y x - vp t y x) ;;;
  let u_2m := #2.0 in
  lat <- isel_time0 clm_ds "lat" ;;
  doy <- time_dayofyear clm_ds ;;
  ds_settime clm_ds (Numbers doy) ;;;
  srad <- ds_getitem clm_ds "srad" ;;
  dayl <- ds_getitem clm_ds "dayl" ;;
  let r_surf := fun t y x => srad t y x * dayl t y x * #1e-6 in
  let alb := #0.23 in
  time <- time_values clm_ds ;;
  let jp := fun t y x => #2.0 * pi * time t y x / #365.0 in
  let d_r := fun t y x => #1.0 + #0.033 * cos (jp t y x) in
  let delta_r := fun t y x => #0.409 * sin (jp t y x - #1.39) in
  let phi := fun t y x => lat t y x * pi / #180.0 in
  let w_s := fun t y x => arccos (- tan (phi t y x) * tan (delta_r t y x)) in
  let r_aero := fun t y x =>
    #24.0 * #60.0 / pi * #0.082 * d_r t y x
    * (w_s t y x * sin (phi t y x) * sin (delta_r t y x)
       + cos (phi t y x) * cos (delta_r t y x) * sin (w_s t y x)) in
  elevation <- ds_getitem clm_ds "elevation" ;;
  let rad_s := fun t y x => (#0.75 + #2e-5 * elevation t y x) * r_aero t y x in
  let rad_ns := fun t y x => (#1.0 - alb) * r_surf t y x in
  tmax <- ds_getitem clm_ds "tmax" ;;
  tmin <- ds_getitem clm_ds "tmin" ;;
  vp <- ds_getitem clm_ds "vp" ;;
  let rad_nl := fun t y x =>
    #4.903e-9
    * (((tmax t y x + #273.16) ** 4 + (tmin t y x + #273.16) ** 4) * #0.5)
    * (#0.34 - #0.14 * sqrt (vp t y x))
    * ((#1.35 * r_surf t y x / rad_s t y x) - #0.35) in
  ds_setitem clm_ds "rad_n" (fun t y x => rad_ns t y x - rad_nl t y x) ;;;
  delta_v <- ds_getitem clm_ds "delta_r" ;;
  rad_n <- ds_getitem clm_ds "rad_n" ;;
  gamma <- ds_getitem clm_ds "gamma" ;;
  tmean <- ds_getitem clm_ds "tmean" ;;
  e_def <- ds_getitem clm_ds "e_def" ;;
  ds_setitem clm_ds "pet" (fun t y x =>
    (#0.408 * delta_v t y x * (rad_n t y x - rho_s)
     + gamma t y x * #900.0 / (tmean t y x + #273.0) * u_2m * e_def t y x)
    / (delta_v t y x + gamma t y x * (#1 + #0.34 * u_2m))) ;;;
  ds_set_var_attr clm_ds "pet" "units" "mm/day" ;;;
  ds_settime clm_ds dates ;;;
  ds_imul clm_ds "vp" #1.0e3 ;;;
  ds_drop_vars clm_ds ["delta_r"; "gamma"; "e_def"; "rad_n"; "tmean"].

End Engines.

Arguments DataFrame : clear implicits.
Arguments DataArray : clear implicits.
Arguments Dataset : clear implicits.
Arguments TimeAxis : clear implicits.
Arguments attr : clear implicits.
Arguments Series : clear implicits.
Arguments Field : clear implicits.

(** ** The computation for one value *)

(** Both engines evaluate the same chain of expressions at every row, or at
    every (time, y, x) cell.  [Row] names the links of that chain after the
    variables of the source, as functions of the input values at the row:
    [tmax], [tmin], [vp] (in pascals), [srad], [dayl], the day of the year,
    the latitude in degrees and the elevation.  The engines are related to
    it below. *)
Module Row.
Section Row.
Context {F : Type} {num : Numeric F}.
Local Open Scope num_scope.

Definition tmean (tmax tmin : F) : F := #0.5 * (tmax + tmin).

Definition delta_v (tmean : F) : F :=
  #4098 * (#0.6108 * exp (#17.27 * tmean / (tmean + #237.3)))
  / ((tmean + #237.3) ** 2).

Definition pa (elevation : F) : F :=
  #101.3 * ((#293.0 - #0.0065 * elevation) / #293.0) **. #5.26.

Definition gamma (elevation : F) : F := pa elevation * #0.665e-3.

Definition vp_kpa (vp : F) : F := vp * #1e-3.

Definition e_sat (t : F) : F := #0.6108 * exp (#17.27 * t / (t + #237.3)).

Definition e_def (tmax tmin vp : F) : F :=
  (e_sat tmax + e_sat tmin) * #0.5 - vp_kpa vp.

Definition r_surf (srad dayl : F) : F := srad * dayl * #1e-6.

Definition jp (jday : F) : F := #2.0 * pi * jday / #365.0.

Definition d_r (jday : F) : F := #1.0 + #0.033 * cos (jp jday).

Definition delta_r (jday : F) : F := #0.409 * sin (jp jday - #1.39).

Definition phi (lat : F) : F := lat * pi / #180.0.

Definition w_s (lat jday : F) : F :=
  arccos (- tan (phi lat) * tan (delta_r jday)).

Definition r_aero (lat jday : F) : F :=
  #24.0 * #60.0 / pi * #0.082 * d_r jday
  * (w_s lat jday * sin (phi lat) * sin (delta_r jday)
     + cos (phi lat) * cos (delta_r jday) * sin (w_s lat jday)).

Definition rad_s (lat jday elevation : F) : F :=
  (#0.75 + #2e-5 * elevation) * r_aero lat jday.

Definition rad_ns (srad dayl : F) : F := (#1.0 - #0.23) * r_surf srad dayl.

Definition rad_nl (tmax tmin vp srad dayl lat jday elevation : F) : F :=
  #4.903e-9
  * (((tmax + #273.16) ** 4 + (tmin + #273.16) ** 4) * #0.5)
  * (#0.34 - #0.14 * sqrt (vp_kpa vp))
  * ((#1.35 * r_surf srad dayl / rad_s lat jday elevation) - #0.35).

Definition rad_n (tmax tmin vp srad dayl lat jday elevation : F) : F :=
  rad_ns srad dayl - rad_nl tmax tmin vp srad dayl lat jday elevation.

(** The last expression, for a given net radiation. *)
Definition pet_from (rad_n tmax tmin vp elevation : F) : F :=
  (#0.408 * delta_v (tmean tmax tmin) * (rad_n - #0.0)
   + gamma elevation * #900.0 / (tmean tmax tmin + #273.0) * #2.0
     * e_def tmax tmin vp)
  / (delta_v (tmean tmax tmin) + gamma elevation * (#1 + #0.34 * #2.0)).

Definition pet (tmax tmin vp srad dayl lat jday elevation : F) : F :=
  pet_from (rad_n tmax tmin vp srad dayl lat jday elevation)
    tmax tmin vp elevation.

(** The vapour pressure a call leaves behind: scaled to kilopascals and
    back. *)
Definition vp_restored (vp : F) : F := vp_kpa vp * #1.0e3.
End Row.
End Row.

(** ** The formula as the specification writes it *)

(** The FAO-56 Penman-Monteith terms in the words of the specification:
    mean temperature, slope of the saturation vapour pressure curve,
    psychrometric constant, the net long-wave term for a given ratio of
    surface to clear-sky radiation, and the final combination with the wind
    speed fixed at 2.0 and the soil heat flux at 0. *)
Module FAO56.
Section FAO56.
Context {F : Type} {num : Numeric F}.
Local Open Scope num_scope.

Definition Tmean (tmax tmin : F) : F := (tmax + tmin) / #2.

Definition Delta (Tmean : F) : F :=
  #4098 * (#0.6108 * exp (#17.27 * Tmean / (Tmean + #237.3)))
  / (Tmean + #237.3) ** 2.

Definition gamma (elevation : F) : F :=
  #0.665e-3 * (#101.3 * ((#293 - #0.0065 * elevation) / #293) **. #5.26).

Definition windSpeed : F := #2.0.

Definition soilHeatFlux : F := #0.

Definition PET (Delta gamma Tmean netRadiation vaporPressureDeficit : F) : F :=
  (#0.408 * Delta * (netRadiation - soilHeatFlux)
   + gamma * #900 / (Tmean + #273) * windSpeed * vaporPressureDeficit)
  / (Delta + gamma * (#1 + #0.34 * windSpeed)).

Definition mean (a b : F) : F := (a + b) / #2.

Definition netLongwave (tmax tmin vp_kPa ratio : F) : F :=
  #4.903e-9
  * mean ((tmax + #273.16) ** 4) ((tmin + #273.16) ** 4)
  * (#0.34 - #0.14 * sqrt vp_kPa)
  * (#1.35 * ratio - #0.35).

(** The same term with the factor 1.35 applied to the surface radiation
    before the division by the clear-sky radiation. *)
Definition netLongwaveOf (tmax tmin vp_kPa surface clearSky : F) : F :=
  #4.903e-9
  * mean ((tmax + #273.16) ** 4) ((tmin + #273.16) ** 4)
  * (#0.34 - #0.14 * sqrt vp_kPa)
  * (#1.35 * surface / clearSky - #0.35).
End FAO56.
End FAO56.

(** ** What a call leaves behind *)

(** The table the caller passed, as a successful call of [pet_bycoords]
    leaves it, and the table the call returns, written with [Row]. *)
Section Outcome.
Context {F : Type} {num : Numeric F}.

(** The values of a column, by name. *)
Definition col (df : DataFrame F) (name : string) : Series F :=
  default (fun _ => nan) (al_get name (df_columns df)).

Definition jday (df : DataFrame F) (i : nat) : F :=
  lit (inject_Z (match df_index df !! i with
                 | Some ts => dayofyear ts
                 | None => 0%Z
                 end)).

Definition pet_column (df : DataFrame F) (coords : F * F) (alt_unit : bool)
    (elevation : F) : Series F :=
  fun i =>
    Row.pet (col df (tmax_c alt_unit) i) (col df (tmin_c alt_unit) i)
      (col df va_pa i) (col df (srad_wm2 alt_unit) i) (col df dayl_s i)
      coords.2 (jday df i) elevation.

Definition caller_table (df : DataFrame F) (coords : F * F) (alt_unit : bool)
    (elevation : F) : DataFrame F :=
  {| df_index := df_index df;
     df_columns :=
       al_set va_pa (fun i => Row.vp_restored (col df va_pa i))
         (al_set pet_mmday (pet_column df coords alt_unit elevation)
            (al_set va_pa (fun i => Row.vp_kpa (col df va_pa i))
               (al_set tmean_c
                  (fun i => Row.tmean (col df (tmax_c alt_unit) i)
                              (col df (tmin_c alt_unit) i))
                  (df_columns df)))) |}.

Definition returned_table (df : DataFrame F) (coords : F * F) (alt_unit : bool)
    (elevation : F) : DataFrame F :=
  {| df_index := df_index df;
     df_columns :=
       al_del tmean_c (df_columns (caller_table df coords alt_unit elevation)) |}.
End Outcome.

(** The dataset the caller passed and the datasets a successful call of
    [pet_bygrid] builds, written with [Row]: [ds] is the dataset passed,
    [key0] its first variable and [elev] the array of the elevation
    service. *)
Section GridOutcome.
Context {F : Type} {num : Numeric F}.
Local Open Scope num_scope.

(** The values and the attributes of a variable, by name. *)
Definition var_in (vars : list (string * DataArray F)) (name : string) : Field F :=
  default (fun _ _ _ => nan) (da_values <$> al_get name vars).

Definition var (ds : Dataset F) (name : string) : Field F :=
  var_in (ds_vars ds) name.

Definition var_attrs (ds : Dataset F) (name : string) : list (string * string) :=
  default [] (da_attrs <$> al_get name (ds_vars ds)).

(** The day of the year of a time step, as a number. *)
Definition doy_list (ds : Dataset F) : list F :=
  match ds_time ds with
  | Dates ts => map (fun d => lit (inject_Z (dayofyear d))) ts
  | Numbers _ => []
  end.

Definition doy (ds : Dataset F) (t : nat) : F :=
  match doy_list ds !! t with
  | Some v => v
  | None => nan
  end.

Definition tmean_field (ds : Dataset F) : Field F :=
  fun t y x => Row.tmean (var ds "tmax" t y x) (var ds "tmin" t y x).

(** The variables of the caller's dataset when the engine merges the
    elevation: the engine assigns to it up to there. *)
Definition caller_vars (ds : Dataset F) : list (string * DataArray F) :=
  al_set "delta_r" (computed (fun t y x => Row.delta_v (tmean_field ds t y x)))
    (al_set "tmean" (computed (tmean_field ds)) (ds_vars ds)).

Definition caller_dataset (ds : Dataset F) : Dataset F :=
  with_vars ds (caller_vars ds).

(** The first time slice of the first variable, as the engine reads it
    when it masks the elevation. *)
Definition reference (ds : Dataset F) (key0 : string) : Field F :=
  fun _ y x => var_in (caller_vars ds) key0 0%nat y x.

Definition masked_elevation (ds : Dataset F) (key0 : string)
    (elev : nat -> nat -> F) : Field F :=
  fun t y x => if negb (isnan (reference ds key0 t y x)) then elev y x else nan.

Definition pet_field (ds : Dataset F) (key0 : string) (elev : nat -> nat -> F) : Field F :=
  fun t y x =>
    Row.pet (var ds "tmax" t y x) (var ds "tmin" t y x) (var ds "vp" t y x)
      (var ds "srad" t y x) (var ds "dayl" t y x) (var ds "lat" 0%nat y x)
      (doy ds t) (masked_elevation ds key0 elev t y x).

(** The variables of the merged dataset when the engine is done with it,
    assignment after assignment. *)
Definition final_vars (ds : Dataset F) (key0 : string) (elev : nat -> nat -> F)
    : list (string * DataArray F) :=
  let e := masked_elevation ds key0 elev in
  al_set "vp"
    {| da_values := fun t y x => Row.vp_restored (var ds "vp" t y x);
       da_attrs := var_attrs ds "vp" |}
  (al_set "pet"
    {| da_values := pet_field ds key0 elev;
       da_attrs := al_set "units" "mm/day" [] |}
  (al_set "pet" (computed (pet_field ds key0 elev))
  (al_set "rad_n" (computed (fun t y x =>
      Row.rad_n (var ds "tmax" t y x) (var ds "tmin" t y x) (var ds "vp" t y x)
        (var ds "srad" t y x) (var ds "dayl" t y x) (var ds "lat" 0%nat y x)
        (doy ds t) (e t y x)))
  (al_set "e_def" (computed (fun t y x =>
      Row.e_def (var ds "tmax" t y x) (var ds "tmin" t y x) (var ds "vp" t y x)))
  (al_set "vp"
    {| da_values := fun t y x => Row.vp_kpa (var ds "vp" t y x);
       da_attrs := var_attrs ds "vp" |}
  (al_set "gamma" (computed (fun t y x => Row.gamma (e t y x)))
  (al_set "elevation" (computed e)
  (al_set "elevation" (computed (fun _ y x => elev y x))
    (caller_vars ds))))))))).

Definition drop_list : list string := ["delta_r"; "gamma"; "e_def"; "rad_n"; "tmean"].

Definition merged_dataset (ds : Dataset F) (key0 : string) (elev : nat -> nat -> F)
    : Dataset F :=
  with_vars ds (final_vars ds key0 elev).

Definition returned_dataset (ds : Dataset F) (key0 : string) (elev : nat -> nat -> F)
    : Dataset F :=
  with_vars ds
    (fold_left (fun vars n => al_del n vars) drop_list (final_vars ds key0 elev)).
End GridOutcome.

(** ** Laws of the arithmetic *)

(** Identities of the arithmetic, true of IEEE 754 and of exact arithmetic
    alike: multiplication commutes, halving is the same operation written
    as a product or as a quotient, and a literal is read by its value
    ([293.0] and [293] are one number). *)
Class NumericLaws (F : Type) {num : Numeric F} : Prop := {
  mul_comm : forall a b : F, mul a b = mul b a;
  mul_half : forall a : F, mul (lit 0.5) a = div a (lit 2);
  lit_Qeq : forall p q : Q, Qeq p q -> lit p = lit q
}.

(** An identity of exact arithmetic only: a product may be divided before
    or after it is formed.  Rounding breaks it. *)
Class ExactDivision (F : Type) {num : Numeric F} : Prop :=
  mul_div_assoc : forall a b c : F, div (mul a b) c = mul a (div b c).

(** An undefined operand makes the result undefined. *)
Class NanLaws (F : Type) {num : Numeric F} : Prop := {
  isnan_nan : isnan nan = true;
  add_nan_l : forall a b : F, isnan a = true -> isnan (add a b) = true;
  add_nan_r : forall a b : F, isnan b = true -> isnan (add a b) = true;
  sub_nan_r : forall a b : F, isnan b = true -> isnan (sub a b) = true;
  mul_nan_l : forall a b : F, isnan a = true -> isnan (mul a b) = true;
  mul_nan_r : forall a b : F, isnan b = true -> isnan (mul a b) = true;
  div_nan_l : forall a b : F, isnan a = true -> isnan (div a b) = true;
  powf_nan_l : forall a : F, isnan a = true -> isnan (powf a (lit 5.26)) = true
}.

(** ** The conditions of a call *)

Section Conditions.
Context {F : Type} {num : Numeric F}.

(** The precondition of the engine on a table: the requirement check
    passes on its columns. *)
Definition point_ready (df : DataFrame F) (alt_unit : bool) : Prop :=
  _check_requirements
    (PyIter [tmin_c alt_unit; tmax_c alt_unit; va_pa; srad_wm2 alt_unit; dayl_s])
    (al_keys (df_columns df)) = inr tt.

(** The table passed, as the engine has it when it asks for the
    elevation: the mean temperature is already there. *)
Definition table_at_lookup (df : DataFrame F) (alt_unit : bool) : DataFrame F :=
  {| df_index := df_index df;
     df_columns :=
       al_set tmean_c
         (fun i => Row.tmean (col df (tmax_c alt_unit) i) (col df (tmin_c alt_unit) i))
         (df_columns df) |}.

(** The conditions under which the engine is studied: the dataset has
    the required variables and no variable named ["elevation"], a time
    axis of time stamps that is not empty, the attributes [res] and
    [crs]; the elevation service answers [elev]. *)
Record grid_ready
    (elevation_bygrid : list F -> list F -> attr F -> F -> result (nat -> nat -> F))
    (ds : Dataset F) (key0 : string) (elev : nat -> nat -> F) : Prop := {
  ready_reqs :
    _check_requirements
      (PyIter ["tmin"; "tmax"; "lat"; "lon"; "vp"; "srad"; "dayl"])
      (al_keys (ds_vars ds)) = inr tt;
  ready_key0 : item0 (al_keys (ds_vars ds)) = inr key0;
  ready_time : exists ts, ds_time ds = Dates ts /\ ts <> [];
  ready_service :
    exists res_attr res crs,
      al_get "res" (ds_attrs ds) = Some res_attr
      /\ resolution res_attr = inr res
      /\ al_get "crs" (ds_attrs ds) = Some crs
      /\ elevation_bygrid (ds_x ds) (ds_y ds) crs res = inr elev;
  ready_fresh : "elevation" ∉ al_keys (ds_vars ds)
}.

(** A table and a cell of a grid that carry the same input: values, time
    stamps, latitude and elevation. *)
Definition same_inputs (df : DataFrame F) (alt_unit : bool) (coords : F * F)
    (elevation : F) (ds : Dataset F) (elev : nat -> nat -> F) (y x : nat) : Prop :=
  (forall t, col df (tmax_c alt_unit) t = var ds "tmax" t y x)
  /\ (forall t, col df (tmin_c alt_unit) t = var ds "tmin" t y x)
  /\ (forall t, col df va_pa t = var ds "vp" t y x)
  /\ (forall t, col df (srad_wm2 alt_unit) t = var ds "srad" t y x)
  /\ (forall t, col df dayl_s t = var ds "dayl" t y x)
  /\ ds_time ds = Dates (df_index df)
  /\ coords.2 = var ds "lat" 0%nat y x
  /\ elevation = elev y x.

End Conditions.

(** The names the engine gives to what it computes on the way. *)
Definition working_names : list string :=
  ["tmean"; "delta_r"; "gamma"; "e_def"; "rad_n"; "pet"].


(** ** Sample inputs *)

(** Two days of July at 40 degrees north and 200 m: as a table, as a grid
    of one cell, and the same with the minimum temperature missing on the
    first day. *)
Module Sample.
Definition july1 : Timestamp := {| year := 2000; month := 7; day := 1 |}.
Definition july2 : Timestamp := {| year := 2000; month := 7; day := 2 |}.

Definition constant (v : Q) : Series Rnan := fun _ => lit v.

(** Undefined on the first day. *)
Definition gap (v : Q) : Series Rnan :=
  fun i => if Nat.eqb i 0 then nan else lit v.

Definition table_of (tmin : Series Rnan) : DataFrame Rnan :=
  {| df_index := [july1; july2];
     df_columns :=
       [("tmin (degrees C)", tmin); ("tmax (degrees C)", constant 30);
        ("vp (Pa)", constant 1500); ("srad (W/m2)", constant 250);
        ("dayl (s)", constant 50000)] |}.

Definition table : DataFrame Rnan := table_of (constant 15).
Definition table_gap : DataFrame Rnan := table_of (gap 15).

Definition coords : Rnan * Rnan := (lit (-100), lit 40).

Definition point_service (points : list (Rnan * Rnan)) (crs : string)
    : result (list Rnan) :=
  inr (map (fun _ => lit 200) points).

Definition point_service_down (points : list (Rnan * Rnan)) (crs : string)
    : result (list Rnan) :=
  inl (ServiceError "no elevation").

Definition field (s : Series Rnan) : DataArray Rnan :=
  computed (fun t _ _ => s t).

Definition dataset_of (tmin : Series Rnan) : Dataset Rnan :=
  {| ds_time := Dates [july1; july2];
     ds_y := [lit 0];
     ds_x := [lit 0];
     ds_vars :=
       [("tmin", field tmin); ("tmax", field (constant 30));
        ("lat", field (constant 40)); ("lon", field (constant (-100)));
        ("vp", field (constant 1500)); ("srad", field (constant 250));
        ("dayl", field (constant 50000))];
     ds_attrs := [("res", AttrNums [lit 1]); ("crs", AttrStr "epsg:4326")] |}.

Definition dataset : Dataset Rnan := dataset_of (constant 15).
Definition dataset_gap : Dataset Rnan := dataset_of (gap 15).

Definition elev : nat -> nat -> Rnan := fun _ _ => lit 200.

Definition grid_service (x y : list Rnan) (crs : attr Rnan) (res : Rnan)
    : result (nat -> nat -> Rnan) :=
  inr elev.

Definition grid_service_down (x y : list Rnan) (crs : attr Rnan) (res : Rnan)
    : result (nat -> nat -> Rnan) :=
  inl (ServiceError "no elevation").

(** A table of binary64 numbers with a vapour pressure of 346 Pa. *)
Definition table64 : @DataFrame float :=
  {| df_index := [july1];
     df_columns :=
       [("tmin (degrees C)", fun _ => float_lit 15);
        ("tmax (degrees C)", fun _ => float_lit 30);
        ("vp (Pa)", fun _ => float_lit 346);
        ("srad (W/m2)", fun _ => float_lit 250);
        ("dayl (s)", fun _ => float_lit 50000)] |}.

Definition point_service64 (points : list (float * float)) (crs : string)
    : result (list float) :=
  inr (map (fun _ => float_lit 200) points).

(** April 27, 2000, an overcast day: a table of binary64 numbers with a
    surface radiation of 120 W/m2, about a fifth of the clear-sky
    radiation at 40 degrees north and 200 m. *)
Definition april27 : Timestamp := {| year := 2000; month := 4; day := 27 |}.

Definition table_april64 : @DataFrame float :=
  {| df_index := [april27];
     df_columns :=
       [("tmin (degrees C)", fun _ => float_lit 15);
        ("tmax (degrees C)", fun _ => float_lit 30);
        ("vp (Pa)", fun _ => float_lit 1500);
        ("srad (W/m2)", fun _ => float_lit 120);
        ("dayl (s)", fun _ => float_lit 50000)] |}.

Definition coords64 : float * float := (float_lit (-100), float_lit 40).

(** A function given by a table of (argument, value) rows, undefined
    elsewhere. *)
Definition tabulated (table : list (float * float)) (x : float) : float :=
  match List.find (fun row => PrimFloat.eqb (fst row) x) table with
  | Some row => snd row
  | None => PrimFloat.nan
  end.

Definition tabulated2 (table : list ((float * float) * float)) (x y : float) : float :=
  match List.find (fun row => PrimFloat.eqb (fst (fst row)) x
                              && PrimFloat.eqb (snd (fst row)) y) table with
  | Some row => snd row
  | None => PrimFloat.nan
  end.

(** The math library at the arguments that the row of [table_april64]
    reaches at (-100, 40) and 200 m: each value is the float nearest
    to the exact one, which is what the C library returns at these
    arguments. *)
Definition libm_april : Libm := {|
  m_exp := tabulated
      [(0x1.7ee436648211bp+0, 0x1.1d96b823d9955p+2);
       (0x1.f0329161f9addp+0, 0x1.bc9749bbb0454p+2);
       (0x1.06d9575cd783dp+0, 0x1.655fdc58cf7acp+1)]%float;
  m_cos := tabulated
      [(0x1.0400dd015a31ep+1, (-0x1.c70b12b80fbf0p-2));
       (0x1.657184ae74487p-1, 0x1.8836fa2cf5039p-1);
       (0x1.f5164e3dcfdafp-3, 0x1.f0c047273a47cp-1)]%float;
  m_sin := tabulated
      [(0x1.48555f8a877fep-1, 0x1.3249b8e69093ap-1);
       (0x1.657184ae74487p-1, 0x1.491b7523c161cp-1);
       (0x1.f5164e3dcfdafp-3, 0x1.f01a40cee6c9bp-3);
       (0x1.c8280a6172f14p+0, 0x1.f4a34e4e4e6a6p-1)]%float;
  m_tan := tabulated
      [(0x1.657184ae74487p-1, 0x1.ad9e7783fbf1dp-1);
       (0x1.f5164e3dcfdafp-3, 0x1.ff54e0f2aee22p-3)]%float;
  m_arccos := tabulated
      [((-0x1.ad0ee108cc8a0p-3), 0x1.c8280a6172f14p+0)]%float;
  m_pow := tabulated2
      [((0x1.03ccccccccccdp+8, 0x1.0000000000000p+1), 0x1.07a80a3d70a3ep+16);
       ((0x1.fdba73ae38448p-1, 0x1.50a3d70a3d70ap+2), 0x1.f429d39061429p-1);
       ((0x1.2f28f5c28f5c3p+8, 0x1.0000000000000p+2), 0x1.f77691ad1b7f4p+32);
       ((0x1.2028f5c28f5c3p+8, 0x1.0000000000000p+2), 0x1.9af97976ff660p+32)]%float;
  m_pi := m_pi libm_absent
|}.
End Sample.


(** ** The other functions of [core.py] *)

(** *** Exceptions and values *)

(** Modelled from the spec: the exceptions of [pydaymet.exceptions] that
    the other functions of the module raise, next to those above: the
    invalid-argument error raised with an example, the invalid-value error
    and the invalid-range error; and the [ValueError] of [int]. *)
Inductive raised : Type :=
  | Raised (e : exn)
  | InvalidInputType3 (arg : string) (valid_type : string) (example : string)
  | InvalidInputValue (inp : string) (valid_inputs : list string)
  | InvalidInputRange (msg : string)
  | ValueError (literal : string).

(** A Python value that may be passed as [dates] or [years]. *)
Inductive pyval : Type :=
  | VInt (n : Z)
  | VStr (s : string)
  | VTuple (items : list pyval)
  | VList (items : list pyval)
  | VNone.

(** [Daymet.check_input_validity(inp, valid_list)] *)
Definition check_input_validity (inp : string) (valid_list : list string)
    : raised + string :=
  if negb (contains valid_list inp) then inl (InvalidInputValue inp valid_list)
  else inr inp.

(** [isinstance(dates, (tuple, list, int))] and [isinstance(dates, tuple)] *)
Definition is_tuple_list_int (v : pyval) : bool :=
  match v with VTuple _ | VList _ | VInt _ => true | _ => false end.

Definition is_tuple (v : pyval) : bool :=
  match v with VTuple _ => true | _ => false end.

(** [len(dates)], for a value that has a length *)
Definition len (v : pyval) : nat :=
  match v with
  | VTuple items | VList items => length items
  | VStr s => String.length s
  | _ => 0
  end.

(** [Daymet.check_dates(dates)] *)
Definition check_dates (dates : pyval) : raised + unit :=
  if negb (is_tuple_list_int dates) then
    inl (InvalidInputType3 "dates" "tuple, list, or int"
           "(start, end), year, or [years, ...]")
  else if is_tuple dates && negb (Nat.eqb (len dates) 2) then
    inl (Raised (InvalidInputType "dates"
           "Start and end should be passed as a tuple of length 2."))
  else inr tt.

(** *** Dates *)

(** A time stamp at a given hour of a day. *)
Record DateTime : Type := { dt_day : Timestamp; dt_hour : Z }.

(** [ts + pd.DateOffset(hour=12)], for a time stamp at midnight *)
Definition noon (ts : Timestamp) : DateTime := {| dt_day := ts; dt_hour := 12 |}.

(** [a < b] on time stamps, as days *)
Definition ts_ltb (a b : Timestamp) : bool :=
  ((year a <? year b)
   || ((year a =? year b)
       && ((month a <? month b) || ((month a =? month b) && (day a <? day b)))))%Z.

(** [str(n)] and [int(s)] on the strings [str] produces: decimal digits
    after an optional minus sign.  The other spellings [int] accepts
    (blanks around, a plus sign, underscores) are read as invalid here. *)
Definition str (n : Z) : string := NilZero.string_of_int (Z.to_int n).

Definition int (s : string) : raised + Z :=
  match NilZero.int_of_string s with
  | Some d => inr (Z.of_int d)
  | None => inl (ValueError s)
  end.

(** Zero-padded fields of [strftime]: [%m] and [%d], and [%Y]. *)
Definition pad (width : nat) (s : string) : string :=
  (String.concat EmptyString (repeat "0" (width - String.length s)) ++ s)%string.

(** [ts.strftime("%Y-%m-%d")] *)
Definition strftime (ts : Timestamp) : string :=
  (pad 4 (str (year ts)) ++ "-" ++ pad 2 (str (month ts)) ++ "-"
   ++ pad 2 (str (day ts)))%string.

(** [s.split(sep)], for a separator of one character *)
Fixpoint str_split (sep : ascii) (s : string) : list string :=
  match s with
  | EmptyString => [EmptyString]
  | String c s' =>
      if Ascii.eqb c sep then EmptyString :: str_split sep s'
      else match str_split sep s' with
           | x :: xs => String c x :: xs
           | [] => [String c EmptyString]
           end
  end.

(** No comma in a string: what [str] prints has none. *)
Fixpoint comma_free (s : string) : bool :=
  match s with
  | EmptyString => true
  | String c s' => negb (Ascii.eqb c ",") && comma_free s'
  end.

(** The day the range of the database starts, and the days the loop of
    [years_tolist] names. *)
Definition jan_1_1980 : Timestamp := {| year := 1980; month := 1; day := 1 |}.

Definition january_1 (y : Z) : Timestamp := {| year := y; month := 1; day := 1 |}.

Definition december (d y : Z) : Timestamp := {| year := y; month := 12; day := d |}.

(** The period of a year: from January 1 to the 365th day, at noon. *)
Definition period (y : Z) : DateTime * DateTime :=
  (noon (january_1 y), noon (december (if is_leap_year y then 30 else 31) y)).

Section Dates.
(** [pd.to_datetime(v)]: the day a value denotes, or the exception pandas
    raises.  The functions below compare the result with a day and print
    it as a day, or read strings that name a day only. *)
Variable to_datetime : pyval -> raised + Timestamp.

(** [Daymet.dates_todict(dates)] *)
Definition dates_todict (dates : pyval) : raised + list (string * string) :=
  if negb (is_tuple dates) || negb (Nat.eqb (len dates) 2) then
    inl (InvalidInputType3 "dates" "tuple" "(start, end)")
  else
    match dates with
    | VTuple [d0; d1] =>
        match to_datetime d0 with
        | inl e => inl e
        | inr start =>
            match to_datetime d1 with
            | inl e => inl e
            | inr end_ =>
                match to_datetime (VStr "1980-01-01") with
                | inl e => inl e
                | inr first =>
                    if ts_ltb start first then
                      inl (InvalidInputRange "Daymet database ranges from 1980 to 2019.")
                    else inr [("start", strftime start); ("end", strftime end_)]
                end
            end
        end
    | _ => inl (InvalidInputType3 "dates" "tuple" "(start, end)")
    end.

(** [Daymet.years_todict(years)]: [years] is an [int] or a list of them. *)
Definition years_todict (years : Z + list Z) : list (string * string) :=
  let years := match years with inl y => [y] | inr ys => ys end in
  [("years", String.concat "," (map str years))].

(** The loop of [years_tolist] over the names of the years. *)
Fixpoint years_loop (names : list string) : raised + list (DateTime * DateTime) :=
  match names with
  | [] => inr []
  | year :: names' =>
      match to_datetime (VStr (year ++ "0101")) with
      | inl e => inl e
      | inr s =>
          match int year with
          | inl e => inl e
          | inr y =>
              let last :=
                if is_leap_year y then to_datetime (VStr (year ++ "1230"))
                else to_datetime (VStr (year ++ "1231")) in
              match last with
              | inl e => inl e
              | inr e =>
                  match years_loop names' with
                  | inl err => inl err
                  | inr periods => inr ((noon s, noon e) :: periods)
                  end
              end
          end
      end
  end.

(** [Daymet.years_tolist(years)] *)
Definition years_tolist (years : Z + list Z) : raised + list (DateTime * DateTime) :=
  let date_dict := years_todict years in
  match al_get "years" date_dict with
  | Some names => years_loop (str_split "," names)
  | None => inl (Raised (KeyError "years"))
  end.

(** pandas reads the three names of days of a year that the loop may ask
    for as these days. *)
Definition reads_year (y : Z) : Prop :=
  to_datetime (VStr (str y ++ "0101")) = inr (january_1 y)
  /\ to_datetime (VStr (str y ++ "1230")) = inr (december 30 y)
  /\ to_datetime (VStr (str y ++ "1231")) = inr (december 31 y).
End Dates.

(** *** The constructor *)

(** The argument [variables]: omitted, one name, or several. *)
Inductive variables_arg : Type :=
  | NoVariables
  | OneVariable (name : string)
  | Variables (names : list string).

Definition valid_regions : list string := ["na"; "hi"; "pr"].

Definition time_codes : list (string * Z) :=
  [("daily", 1840%Z); ("monthly", 1855%Z); ("annual", 1852%Z)].

(** The columns [Abbr] and [Units] of [vars_table]. *)
Definition Abbr : list string := ["dayl"; "prcp"; "srad"; "swe"; "tmax"; "tmin"; "vp"].

Definition Units : list string :=
  ["s/day"; "mm/day"; "W/m2"; "kg/m2"; "degrees C"; "degrees C"; "Pa"].

Definition valid_variables : list string := Abbr.

Definition pet_reqs : list string := ["tmin"; "tmax"; "vp"; "srad"; "dayl"].

(** What the constructor sets from its arguments; [valid_regions],
    [time_codes], [units] and [valid_variables] are the same for every
    object. *)
Record Daymet : Type := {
  region : string;
  time_scale : string;
  variables : list string
}.

Definition daymet_units : list (string * string) := zip Abbr Units.

(** [set(a).issubset(set(b))] *)
Definition issubset (a b : list string) : bool := forallb (contains b) a.

(** [[variables] if isinstance(variables, str) else variables] *)
Definition names_of (vars : variables_arg) : list string :=
  match vars with
  | NoVariables => []
  | OneVariable name => [name]
  | Variables names => names
  end.

(** [Daymet.__init__(variables, pet, time_scale, region)].  The list made
    of the union of two sets comes in an order Python does not fix; the
    model fixes one, and the properties below do not depend on it. *)
Definition Daymet_init (vars : variables_arg) (pet : bool) (time_scale_ region_ : string)
    : raised + Daymet :=
  match check_input_validity region_ valid_regions with
  | inl e => inl e
  | inr r =>
      match check_input_validity time_scale_ (al_keys time_codes) with
      | inl e => inl e
      | inr ts =>
          match vars with
          | NoVariables =>
              inr {| region := r; time_scale := ts; variables := valid_variables |}
          | _ =>
              let vs := names_of vars in
              if negb (issubset vs valid_variables) then
                inl (InvalidInputValue "variables" valid_variables)
              else if pet then
                if negb (String.eqb time_scale_ "daily") then
                  inl (InvalidInputRange
                         "PET can only be computed at daily scale i.e., time_scale must be daily.")
                else
                  inr {| region := r; time_scale := ts;
                         variables :=
                           elements (list_to_set pet_reqs ∪ list_to_set vs : gset string) |}
              else inr {| region := r; time_scale := ts; variables := vs |}
          end
      end
  end.

(** ** What the checker reports, and inputs at the edges *)

(** [[r for r in reqs if r not in cols]] *)
Definition missing_from (reqs cols : list string) : list string :=
  List.filter (fun r => negb (contains cols r)) reqs.

Module Edge.
(** A reader of the two spellings of a day that the module passes to
    pandas, [YYYY-MM-DD] and [YYYYMMDD]; it refuses everything else. *)
Definition read_day (y m d : string) : raised + Timestamp :=
  match int y, int m, int d with
  | inr y, inr m, inr d => inr {| year := y; month := m; day := d |}
  | inl e, _, _ | _, inl e, _ | _, _, inl e => inl e
  end.

Definition to_datetime (v : pyval) : raised + Timestamp :=
  match v with
  | VStr s =>
      if Nat.eqb (String.length s) 8 then
        read_day (substring 0 4 s) (substring 4 2 s) (substring 6 2 s)
      else if Nat.eqb (String.length s) 10 then
        read_day (substring 0 4 s) (substring 5 2 s) (substring 8 2 s)
      else inl (ValueError s)
  | _ => inl (ValueError EmptyString)
  end.

(** An elevation service that answers with no value. *)
Definition point_service_empty (points : list (Rnan * Rnan)) (crs : string)
    : result (list Rnan) :=
  inr [].

(** A table without the maximum temperature, the radiation and the day
    length. *)
Definition table_short : DataFrame Rnan :=
  {| df_index := [Sample.july1; Sample.july2];
     df_columns :=
       [("tmin (degrees C)", Sample.constant 15); ("vp (Pa)", Sample.constant 1500)] |}.

(** A dataset without the latitude and the longitude. *)
Definition dataset_short : Dataset Rnan :=
  {| ds_time := Dates [Sample.july1; Sample.july2];
     ds_y := [lit 0];
     ds_x := [lit 0];
     ds_vars :=
       [("tmin", Sample.field (Sample.constant 15));
        ("tmax", Sample.field (Sample.constant 30));
        ("vp", Sample.field (Sample.constant 1500));
        ("srad", Sample.field (Sample.constant 250));
        ("dayl", Sample.field (Sample.constant 50000))];
     ds_attrs := [("res", AttrNums [lit 1]); ("crs", AttrStr "epsg:4326")] |}.

(** The sample dataset with other attributes, and with no time step. *)
Definition dataset_with (attrs : list (string * attr Rnan)) : Dataset Rnan :=
  {| ds_time := ds_time Sample.dataset;
     ds_y := ds_y Sample.dataset;
     ds_x := ds_x Sample.dataset;
     ds_vars := ds_vars Sample.dataset;
     ds_attrs := attrs |}.

(** The sample dataset with a first variable named ["tmean"] that is
    undefined everywhere. *)
Definition dataset_tmean_first : Dataset Rnan :=
  {| ds_time := ds_time Sample.dataset;
     ds_y := ds_y Sample.dataset;
     ds_x := ds_x Sample.dataset;
     ds_vars := ("tmean", Sample.field (fun _ => nan)) :: ds_vars Sample.dataset;
     ds_attrs := ds_attrs Sample.dataset |}.

Definition dataset_no_time : Dataset Rnan :=
  {| ds_time := Dates [];
     ds_y := ds_y Sample.dataset;
     ds_x := ds_x Sample.dataset;
     ds_vars := ds_vars Sample.dataset;
     ds_attrs := ds_attrs Sample.dataset |}.
End Edge.



(** * Properties *)

(** ** Containers keyed by name *)

Section AListFacts.
Context {V : Type}.
Implicit Types (k : string) (v : V) (l : list (string * V)).

Lemma al_get_set_eq k v l : al_get k (al_set k v l) = Some v.
Proof.
  induction l as [|[k' v'] l IH]; simpl.
  - by rewrite String.eqb_refl.
  - destruct (String.eqb k k') eqn:E; simpl; rewrite ?String.eqb_refl, ?E; done.
Qed.

Lemma al_get_set_ne k k' v l : k <> k' -> al_get k (al_set k' v l) = al_get k l.
Proof.
  intros Hne. apply String.eqb_neq in Hne.
  induction l as [|[k2 v2] l IH]; simpl.
  - by rewrite Hne.
  - destruct (String.eqb k' k2) eqn:E; simpl.
    + apply String.eqb_eq in E; subst k2. by rewrite Hne.
    + by rewrite IH.
Qed.

Lemma al_get_del_ne k k' l : k <> k' -> al_get k (al_del k' l) = al_get k l.
Proof.
  intros Hne. apply String.eqb_neq in Hne.
  induction l as [|[k2 v2] l IH]; simpl; [done|].
  destruct (String.eqb k' k2) eqn:E; simpl.
  - apply String.eqb_eq in E; subst k2. by rewrite Hne.
  - by rewrite IH.
Qed.

Lemma al_keys_del k l : forall k', k' ∈ al_keys (al_del k l) <-> k' <> k /\ k' ∈ al_keys l.
Proof.
  intros k'. unfold al_keys.
  induction l as [|[k2 v2] l IH]; simpl.
  - split; [intros H; inversion H | intros [_ H]; inversion H].
  - destruct (String.eqb k k2) eqn:E; simpl.
    + apply String.eqb_eq in E; subst k2. rewrite IH, elem_of_cons. naive_solver.
    + apply String.eqb_neq in E. rewrite !elem_of_cons, IH. naive_solver.
Qed.

Lemma al_get_keys k l : k ∈ al_keys l <-> is_Some (al_get k l).
Proof.
  unfold al_keys. induction l as [|[k2 v2] l IH]; simpl.
  - split; [intros H; inversion H | intros [? ?]; discriminate].
  - rewrite elem_of_cons, IH. destruct (String.eqb k k2) eqn:E.
    + apply String.eqb_eq in E. split; eauto.
    + apply String.eqb_neq in E. naive_solver.
Qed.

Lemma al_keys_set_in k v l : k ∈ al_keys l -> al_keys (al_set k v l) = al_keys l.
Proof.
  unfold al_keys. induction l as [|[k2 v2] l IH]; simpl.
  - intros H; inversion H.
  - rewrite elem_of_cons. destruct (String.eqb k k2) eqn:E; simpl.
    + apply String.eqb_eq in E. by subst.
    + apply String.eqb_neq in E. intros [?|?]; [done|]. by rewrite IH.
Qed.

Lemma al_keys_set_notin k v l :
  k ∉ al_keys l -> al_keys (al_set k v l) = (al_keys l ++ [k])%list.
Proof.
  unfold al_keys. induction l as [|[k2 v2] l IH]; simpl; [done|].
  rewrite not_elem_of_cons. intros [Hne Hnin].
  apply String.eqb_neq in Hne. rewrite Hne. simpl. by rewrite IH.
Qed.

Lemma al_del_keys_notin k l : k ∉ al_keys l -> al_del k l = l.
Proof.
  unfold al_keys. induction l as [|[k2 v2] l IH]; simpl; [done|].
  rewrite not_elem_of_cons. intros [Hne Hnin].
  apply String.eqb_neq in Hne. rewrite Hne. by rewrite IH.
Qed.

Lemma al_keys_del_app k l1 l2 :
  al_keys (al_del k (l1 ++ l2)%list)
  = (al_keys (al_del k l1) ++ al_keys (al_del k l2))%list.
Proof.
  unfold al_keys. induction l1 as [|[k2 v2] l1 IH]; simpl; [done|].
  destruct (String.eqb k k2); simpl; by rewrite IH.
Qed.

Lemma al_keys_set k v l :
  al_keys (al_set k v l) = if contains (al_keys l) k then al_keys l else (al_keys l ++ [k])%list.
Proof.
  unfold contains. case_bool_decide.
  - by apply al_keys_set_in.
  - by apply al_keys_set_notin.
Qed.

(** Deleting a name only depends on the names. *)
Lemma al_keys_del_filter k l :
  al_keys (al_del k l) = List.filter (fun k' => negb (String.eqb k k')) (al_keys l).
Proof.
  unfold al_keys. induction l as [|[k2 v2] l IH]; simpl; [done|].
  destruct (String.eqb k k2); simpl; by rewrite IH.
Qed.
Lemma al_keys_set_mono k k' v l : k ∈ al_keys l -> k ∈ al_keys (al_set k' v l).
Proof.
  intros Hin. rewrite al_keys_set. destruct (contains _ _); [done|].
  apply elem_of_app. by left.
Qed.

Lemma al_keys_set_same k v l : k ∈ al_keys (al_set k v l).
Proof. apply al_get_keys. rewrite al_get_set_eq. eauto. Qed.
End AListFacts.

(** ** The requirement checker *)

Lemma contains_true cols r : contains cols r = true <-> r ∈ cols.
Proof. unfold contains. by rewrite bool_decide_eq_true. Qed.

Lemma contains_false cols r : contains cols r = false <-> r ∉ cols.
Proof. unfold contains. by rewrite bool_decide_eq_false. Qed.

Lemma elem_of_missing cols items r :
  r ∈ List.filter (fun r => negb (contains cols r)) items <-> r ∈ items /\ r ∉ cols.
Proof.
  rewrite !list_elem_of_In, List.filter_In, negb_true_iff, contains_false.
  by rewrite list_elem_of_In.
Qed.

Lemma check_requirements_ok items cols :
  _check_requirements (PyIter items) cols = inr tt <-> (forall r, r ∈ items -> r ∈ cols).
Proof.
  unfold _check_requirements; simpl.
  destruct (List.filter _ items) as [|m ms] eqn:E.
  - split; [intros _ r Hr | done].
    destruct (decide (r ∈ cols)) as [|Hn]; [done|].
    assert (r ∈ List.filter (fun r => negb (contains cols r)) items) as Hin
      by (by apply elem_of_missing).
    rewrite E in Hin. inversion Hin.
  - split; [done|]. intros Hall.
    assert (m ∈ List.filter (fun r => negb (contains cols r)) items) as Hin
      by (rewrite E; left).
    apply elem_of_missing in Hin as [Hm Hn]. by specialize (Hall _ Hm).
Qed.

(** C4.  On an iterable [reqs], the checker returns nothing exactly when
    every required name is present; otherwise it raises the missing-items
    error, whose list holds exactly the required names that are absent, in
    the order they were required.  On a [reqs] that is not iterable it
    raises the invalid-argument error, which is no missing-items error. *)
Theorem check_requirements_spec (reqs : pyobj) (cols : list string) :
  match reqs with
  | PyIter items =>
      ((forall r, r ∈ items -> r ∈ cols) ->
         _check_requirements reqs cols = inr tt)
      /\ (~ (forall r, r ∈ items -> r ∈ cols) ->
          exists missing,
            _check_requirements reqs cols = inl (MissingItems missing)
            /\ missing <> []
            /\ missing = List.filter (fun r => negb (contains cols r)) items
            /\ forall r, r ∈ missing <-> r ∈ items /\ r ∉ cols)
  | _ =>
      _check_requirements reqs cols = inl (InvalidInputType "reqs" "iterable")
      /\ forall missing, _check_requirements reqs cols <> inl (MissingItems missing)
  end.
Proof.
  destruct reqs as [items| |]; [|by split..].
  split; [by apply check_requirements_ok|].
  intros Hnot. exists (List.filter (fun r => negb (contains cols r)) items).
  assert (_check_requirements (PyIter items) cols <> inr tt) as Hne
    by (by rewrite check_requirements_ok).
  unfold _check_requirements in *; simpl in *.
  destruct (List.filter _ items) as [|m ms] eqn:E; [done|].
  split; [done|]. split; [done|]. split; [done|].
  intros r. rewrite <- E. apply elem_of_missing.
Qed.

(** A table that lacks day length and has the other four columns. *)
Lemma check_requirements_spec_witness :
  _check_requirements (PyIter ["tmin"; "dayl"]) ["tmin"; "tmax"]
  = inl (MissingItems ["dayl"]).
Proof.
  destruct (check_requirements_spec (PyIter ["tmin"; "dayl"]) ["tmin"; "tmax"])
    as [_ Hmiss].
  destruct Hmiss as (missing & Hrun & _ & Hlist & _).
  - intros Hall. specialize (Hall "dayl").
    assert ("dayl" ∈ ["tmin"; "tmax"]) as Hin by (apply Hall; set_solver).
    set_solver.
  - rewrite Hrun, Hlist. reflexivity.
Defined.

(** ** Running a computation on the store *)

Section StoreFacts.
Context {O : Type}.

Lemma bind_inr {A B} (m : M O A) (k : A -> M O B) h a h' :
  m h = (inr a, h') -> bind m k h = k a h'.
Proof. unfold bind. by intros ->. Qed.

Lemma bind_inl {A B} (m : M O A) (k : A -> M O B) h e h' :
  m h = (inl e, h') -> bind m k h = (inl e, h').
Proof. unfold bind. by intros ->. Qed.

Lemma deref_Some l (o : O) h : h !! l = Some o -> deref l h = (inr o, h).
Proof. unfold deref. by intros ->. Qed.

Lemma fresh_insert l (o o' : O) (h : gmap loc O) :
  h !! l = Some o -> fresh (dom (<[l := o']> h)) = fresh (dom h).
Proof. intros Hl. by rewrite dom_insert_lookup_L. Qed.

Lemma fresh_ne l (o : O) (h : gmap loc O) : h !! l = Some o -> fresh (dom h) <> l.
Proof.
  intros Hl Heq. apply (is_fresh (dom h)). rewrite Heq.
  apply elem_of_dom. eauto.
Qed.
End StoreFacts.

(** ** The point engine, statement by statement *)

Section PointFacts.
Context {F : Type} {num : Numeric F}.
Implicit Types (h : gmap loc (DataFrame F)) (df : DataFrame F).

Lemma run_columns h l df :
  h !! l = Some df -> columns l h = (inr (al_keys (df_columns df)), h).
Proof. intros Hl. unfold columns. by rewrite (bind_inr _ _ _ _ _ (deref_Some _ _ _ Hl)). Qed.

Lemma run_getitem h l df name s :
  h !! l = Some df -> al_get name (df_columns df) = Some s ->
  getitem l name h = (inr s, h).
Proof.
  intros Hl Hs. unfold getitem.
  rewrite (bind_inr _ _ _ _ _ (deref_Some _ _ _ Hl)). by rewrite Hs.
Qed.

Lemma run_getitem_missing h l df name :
  h !! l = Some df -> al_get name (df_columns df) = None ->
  getitem l name h = (inl (KeyError name), h).
Proof.
  intros Hl Hs. unfold getitem.
  rewrite (bind_inr _ _ _ _ _ (deref_Some _ _ _ Hl)). by rewrite Hs.
Qed.

Lemma run_setitem h l df name s :
  h !! l = Some df ->
  setitem l name s h
  = (inr tt, <[l := {| df_index := df_index df;
                       df_columns := al_set name s (df_columns df) |}]> h).
Proof.
  intros Hl. unfold setitem.
  by rewrite (bind_inr _ _ _ _ _ (deref_Some _ _ _ Hl)).
Qed.

Lemma run_index_dayofyear h l df :
  h !! l = Some df ->
  index_dayofyear l h
  = (inr (fun i => match df_index df !! i with
                   | Some ts => dayofyear ts
                   | None => 0%Z
                   end), h).
Proof.
  intros Hl. unfold index_dayofyear.
  by rewrite (bind_inr _ _ _ _ _ (deref_Some _ _ _ Hl)).
Qed.

Lemma run_drop h l df name :
  h !! l = Some df -> name ∈ al_keys (df_columns df) ->
  drop l name h
  = (inr (fresh (dom h)),
     <[fresh (dom h) := {| df_index := df_index df;
                           df_columns := al_del name (df_columns df) |}]> h).
Proof.
  intros Hl Hin. unfold drop.
  rewrite (bind_inr _ _ _ _ _ (deref_Some _ _ _ Hl)).
  apply contains_true in Hin. by rewrite Hin.
Qed.

(** The names the engine requires are five different names, none of them
    the name of a column it adds. *)
Lemma required_columns h l df alt_unit :
  h !! l = Some df ->
  _check_requirements
    (PyIter [tmin_c alt_unit; tmax_c alt_unit; va_pa; srad_wm2 alt_unit; dayl_s])
    (al_keys (df_columns df)) = inr tt ->
  exists tmin tmax vp srad dayl,
    al_get (tmin_c alt_unit) (df_columns df) = Some tmin
    /\ al_get (tmax_c alt_unit) (df_columns df) = Some tmax
    /\ al_get va_pa (df_columns df) = Some vp
    /\ al_get (srad_wm2 alt_unit) (df_columns df) = Some srad
    /\ al_get dayl_s (df_columns df) = Some dayl.
Proof.
  intros _ Hreq. rewrite check_requirements_ok in Hreq.
  assert (forall r, r ∈ [tmin_c alt_unit; tmax_c alt_unit; va_pa; srad_wm2 alt_unit; dayl_s] ->
          exists s, al_get r (df_columns df) = Some s) as Hget.
  { intros r Hr. apply Hreq, al_get_keys in Hr. destruct Hr as [s Hs]. eauto. }
  destruct (Hget (tmin_c alt_unit)) as [tmin ?]; [set_solver|].
  destruct (Hget (tmax_c alt_unit)) as [tmax ?]; [set_solver|].
  destruct (Hget va_pa) as [vp ?]; [set_solver|].
  destruct (Hget (srad_wm2 alt_unit)) as [srad ?]; [set_solver|].
  destruct (Hget dayl_s) as [dayl ?]; [set_solver|].
  by exists tmin, tmax, vp, srad, dayl.
Qed.
End PointFacts.

(** One statement of an engine: run it on the store at hand, then go on
    with what follows. *)
Ltac run_with lem :=
  erewrite bind_inr by (lem; try done);
  cbv beta zeta delta [with_vars computed];
  cbn [ds_time ds_y ds_x ds_vars ds_attrs da_values da_attrs df_index df_columns];
  rewrite ?insert_insert_eq.

(** Two names that differ. *)
Ltac names_ne := apply String.eqb_neq; reflexivity.

(** The object a reference names, after some assignments. *)
Ltac solve_lookup :=
  first [ eassumption | apply lookup_insert_eq ].

(** The value under a name, after some assignments. *)
Ltac solve_get :=
  cbn [df_columns];
  repeat first [ rewrite al_get_set_eq | rewrite al_get_set_ne by names_ne ];
  first [ reflexivity | eassumption ].

Section PointRun.
Context {F : Type} {num : Numeric F}.
Variable elevation_bycoords : list (F * F) -> string -> result (list F).
Implicit Types (h : gmap loc (DataFrame F)) (df : DataFrame F).

(** A successful call: what is returned and what the store holds. *)
Lemma pet_bycoords_run h l df coords crs alt_unit elevs elevation :
  h !! l = Some df ->
  _check_requirements
    (PyIter [tmin_c alt_unit; tmax_c alt_unit; va_pa; srad_wm2 alt_unit; dayl_s])
    (al_keys (df_columns df)) = inr tt ->
  elevation_bycoords [coords] crs = inr elevs ->
  item0 elevs = inr elevation ->
  pet_bycoords elevation_bycoords l coords crs alt_unit h
  = (inr (fresh (dom h)),
     <[fresh (dom h) := returned_table df coords alt_unit elevation]>
       (<[l := caller_table df coords alt_unit elevation]> h)).
Proof.
  intros Hl Hreq Hsvc Helev.
  destruct (required_columns h l df alt_unit Hl Hreq)
    as (tmin & tmax & vp & srad & dayl & Htmin & Htmax & Hvp & Hsrad & Hdayl).
  unfold pet_bycoords.
  run_with ltac:(eapply run_columns; exact Hl).
  run_with ltac:(unfold lift; rewrite Hreq).
  destruct alt_unit.
  all: run_with ltac:(eapply run_getitem; [solve_lookup | solve_get]).
  all: run_with ltac:(eapply run_getitem; [solve_lookup | solve_get]).
  all: run_with ltac:(eapply run_setitem; solve_lookup).
  all: run_with ltac:(eapply run_getitem; [solve_lookup | solve_get]).
  all: run_with ltac:(unfold lift; rewrite Hsvc).
  all: run_with ltac:(unfold lift; rewrite Helev).
  all: run_with ltac:(eapply run_getitem; [solve_lookup | solve_get]).
  all: run_with ltac:(eapply run_setitem; solve_lookup).
  all: run_with ltac:(eapply run_getitem; [solve_lookup | solve_get]).
  all: run_with ltac:(eapply run_getitem; [solve_lookup | solve_get]).
  all: run_with ltac:(eapply run_getitem; [solve_lookup | solve_get]).
  all: run_with ltac:(eapply run_index_dayofyear; solve_lookup).
  all: run_with ltac:(eapply run_getitem; [solve_lookup | solve_get]).
  all: run_with ltac:(eapply run_getitem; [solve_lookup | solve_get]).
  all: run_with ltac:(eapply run_getitem; [solve_lookup | solve_get]).
  all: run_with ltac:(eapply run_setitem; solve_lookup).
  all: run_with ltac:(eapply run_getitem; [solve_lookup | solve_get]).
  all: run_with ltac:(eapply run_setitem; solve_lookup).
  all: erewrite run_drop;
    [ | solve_lookup
      | cbn [df_columns]; apply al_get_keys;
        repeat first [ rewrite al_get_set_eq | rewrite al_get_set_ne by names_ne ];
        eauto ].
  all: cbn [df_index df_columns].
  all: rewrite ?insert_insert_eq, (fresh_insert _ _ _ _ Hl).
  all: unfold returned_table, caller_table, pet_column, col, jday;
    rewrite ?Htmin, ?Htmax, ?Hvp, ?Hsrad, ?Hdayl; reflexivity.
Qed.
End PointRun.

(** ** The grid engine, statement by statement *)

Section GridFacts.
Context {F : Type} {num : Numeric F}.
Implicit Types (h : gmap loc (Dataset F)) (ds : Dataset F).

Lemma run_keys h l ds :
  h !! l = Some ds -> keys l h = (inr (al_keys (ds_vars ds)), h).
Proof. intros Hl. unfold keys. by rewrite (bind_inr _ _ _ _ _ (deref_Some _ _ _ Hl)). Qed.

Lemma run_ds_getitem h l ds name da :
  h !! l = Some ds -> al_get name (ds_vars ds) = Some da ->
  ds_getitem l name h = (inr (da_values da), h).
Proof.
  intros Hl Hs. unfold ds_getitem.
  rewrite (bind_inr _ _ _ _ _ (deref_Some _ _ _ Hl)). by rewrite Hs.
Qed.

Lemma run_ds_getitem_var h l ds name da v :
  h !! l = Some ds -> al_get name (ds_vars ds) = Some da -> da_values da = v ->
  ds_getitem l name h = (inr v, h).
Proof. intros Hl Hs <-. by eapply run_ds_getitem. Qed.

Lemma run_ds_setitem h l ds name v :
  h !! l = Some ds ->
  ds_setitem l name v h
  = (inr tt, <[l := with_vars ds (al_set name (computed v) (ds_vars ds))]> h).
Proof.
  intros Hl. unfold ds_setitem.
  by rewrite (bind_inr _ _ _ _ _ (deref_Some _ _ _ Hl)).
Qed.

Lemma run_ds_imul h l ds name c da :
  h !! l = Some ds -> al_get name (ds_vars ds) = Some da ->
  ds_imul l name c h
  = (inr tt,
     <[l := with_vars ds (al_set name
              {| da_values := fun t y x => mul (da_values da t y x) c;
                 da_attrs := da_attrs da |} (ds_vars ds))]> h).
Proof.
  intros Hl Hs. unfold ds_imul.
  rewrite (bind_inr _ _ _ _ _ (deref_Some _ _ _ Hl)). by rewrite Hs.
Qed.

Lemma run_ds_imul_var h l ds name c da v a :
  h !! l = Some ds -> al_get name (ds_vars ds) = Some da ->
  da_values da = v -> da_attrs da = a ->
  ds_imul l name c h
  = (inr tt,
     <[l := with_vars ds (al_set name
              {| da_values := fun t y x => mul (v t y x) c;
                 da_attrs := a |} (ds_vars ds))]> h).
Proof. intros Hl Hs <- <-. by eapply run_ds_imul. Qed.

Lemma run_ds_set_var_attr h l ds name k v da :
  h !! l = Some ds -> al_get name (ds_vars ds) = Some da ->
  ds_set_var_attr l name k v h
  = (inr tt,
     <[l := with_vars ds (al_set name
              {| da_values := da_values da;
                 da_attrs := al_set k v (da_attrs da) |} (ds_vars ds))]> h).
Proof.
  intros Hl Hs. unfold ds_set_var_attr.
  rewrite (bind_inr _ _ _ _ _ (deref_Some _ _ _ Hl)). by rewrite Hs.
Qed.

Lemma run_ds_getattr h l ds name a :
  h !! l = Some ds -> al_get name (ds_attrs ds) = Some a ->
  ds_getattr l name h = (inr a, h).
Proof.
  intros Hl Hs. unfold ds_getattr.
  rewrite (bind_inr _ _ _ _ _ (deref_Some _ _ _ Hl)). by rewrite Hs.
Qed.

Lemma run_isel_time0 h l ds name da :
  h !! l = Some ds -> time_length (ds_time ds) <> 0%nat ->
  al_get name (ds_vars ds) = Some da ->
  isel_time0 l name h = (inr (fun _ y x => da_values da 0%nat y x), h).
Proof.
  intros Hl Hlen Hs. unfold isel_time0.
  rewrite (bind_inr _ _ _ _ _ (deref_Some _ _ _ Hl)).
  apply Nat.eqb_neq in Hlen. by rewrite Hlen, Hs.
Qed.

Lemma run_isel_time0_in h l ds name :
  h !! l = Some ds -> time_length (ds_time ds) <> 0%nat ->
  name ∈ al_keys (ds_vars ds) ->
  isel_time0 l name h = (inr (fun _ y x => var_in (ds_vars ds) name 0%nat y x), h).
Proof.
  intros Hl Hlen [da Hda]%al_get_keys.
  rewrite (run_isel_time0 _ _ _ _ _ Hl Hlen Hda). unfold var_in. by rewrite Hda.
Qed.

Lemma var_in_set_ne (vars : list (string * DataArray F)) name name' da :
  name <> name' -> var_in (al_set name' da vars) name = var_in vars name.
Proof. intros Hne. unfold var_in. by rewrite al_get_set_ne. Qed.

Lemma run_isel_time0_var h l ds name da v :
  h !! l = Some ds -> time_length (ds_time ds) <> 0%nat ->
  al_get name (ds_vars ds) = Some da -> da_values da = v ->
  isel_time0 l name h = (inr (fun _ y x => v 0%nat y x), h).
Proof. intros Hl Hlen Hs <-. by eapply run_isel_time0. Qed.

Lemma run_ds_gettime h l ds :
  h !! l = Some ds -> ds_gettime l h = (inr (ds_time ds), h).
Proof. intros Hl. unfold ds_gettime. by rewrite (bind_inr _ _ _ _ _ (deref_Some _ _ _ Hl)). Qed.

Lemma run_ds_settime h l ds ax :
  h !! l = Some ds ->
  ds_settime l ax h
  = (inr tt, <[l := {| ds_time := ax; ds_y := ds_y ds; ds_x := ds_x ds;
                       ds_vars := ds_vars ds; ds_attrs := ds_attrs ds |}]> h).
Proof. intros Hl. unfold ds_settime. by rewrite (bind_inr _ _ _ _ _ (deref_Some _ _ _ Hl)). Qed.

Lemma run_time_dayofyear h l ds ts :
  h !! l = Some ds -> ds_time ds = Dates ts ->
  time_dayofyear l h = (inr (doy_list ds), h).
Proof.
  intros Hl Hts. unfold time_dayofyear, doy_list.
  rewrite (bind_inr _ _ _ _ _ (deref_Some _ _ _ Hl)). by rewrite Hts.
Qed.

Lemma run_time_values h l ds vs :
  h !! l = Some ds -> ds_time ds = Numbers vs ->
  time_values l h
  = (inr (fun t _ _ => match vs !! t with Some v => v | None => nan end), h).
Proof.
  intros Hl Hts. unfold time_values.
  rewrite (bind_inr _ _ _ _ _ (deref_Some _ _ _ Hl)). by rewrite Hts.
Qed.

Lemma run_merge_elevation h l ds elev attrs :
  h !! l = Some ds -> "elevation" ∉ al_keys (ds_vars ds) ->
  merge_elevation l elev attrs h
  = (inr (fresh (dom h)),
     <[fresh (dom h) :=
        {| ds_time := ds_time ds; ds_y := ds_y ds; ds_x := ds_x ds;
           ds_vars := al_set "elevation" (computed (fun _ y x => elev y x)) (ds_vars ds);
           ds_attrs := attrs |}]> h).
Proof.
  intros Hl Hnin. unfold merge_elevation.
  rewrite (bind_inr _ _ _ _ _ (deref_Some _ _ _ Hl)).
  apply contains_false in Hnin. by rewrite Hnin.
Qed.

Lemma run_ds_drop_vars h l ds names :
  h !! l = Some ds -> (forall n, n ∈ names -> n ∈ al_keys (ds_vars ds)) ->
  ds_drop_vars l names h
  = (inr (fresh (dom h)),
     <[fresh (dom h) :=
        with_vars ds (fold_left (fun vars n => al_del n vars) names (ds_vars ds))]> h).
Proof.
  intros Hl Hall. unfold ds_drop_vars.
  rewrite (bind_inr _ _ _ _ _ (deref_Some _ _ _ Hl)).
  destruct (List.filter _ names) as [|n ns] eqn:E; [done|].
  assert (n ∈ List.filter (fun n => negb (contains (al_keys (ds_vars ds)) n)) names) as Hin
    by (rewrite E; left).
  apply elem_of_missing in Hin as [Hn Hnot]. by specialize (Hall _ Hn).
Qed.

(** The seven variables the engine requires. *)
Lemma required_variables ds :
  _check_requirements
    (PyIter ["tmin"; "tmax"; "lat"; "lon"; "vp"; "srad"; "dayl"])
    (al_keys (ds_vars ds)) = inr tt ->
  exists tmin tmax lat vp srad dayl,
    al_get "tmin" (ds_vars ds) = Some tmin
    /\ al_get "tmax" (ds_vars ds) = Some tmax
    /\ al_get "lat" (ds_vars ds) = Some lat
    /\ al_get "vp" (ds_vars ds) = Some vp
    /\ al_get "srad" (ds_vars ds) = Some srad
    /\ al_get "dayl" (ds_vars ds) = Some dayl.
Proof.
  intros Hreq. rewrite check_requirements_ok in Hreq.
  assert (forall r, r ∈ ["tmin"; "tmax"; "lat"; "lon"; "vp"; "srad"; "dayl"] ->
          exists s, al_get r (ds_vars ds) = Some s) as Hget.
  { intros r Hr. apply Hreq, al_get_keys in Hr. destruct Hr as [s Hs]. eauto. }
  destruct (Hget "tmin") as [tmin ?]; [set_solver|].
  destruct (Hget "tmax") as [tmax ?]; [set_solver|].
  destruct (Hget "lat") as [lat ?]; [set_solver|].
  destruct (Hget "vp") as [vp ?]; [set_solver|].
  destruct (Hget "srad") as [srad ?]; [set_solver|].
  destruct (Hget "dayl") as [dayl ?]; [set_solver|].
  by exists tmin, tmax, lat, vp, srad, dayl.
Qed.

(** A dataset that has the required variables has a first variable. *)
Lemma first_variable ds :
  _check_requirements
    (PyIter ["tmin"; "tmax"; "lat"; "lon"; "vp"; "srad"; "dayl"])
    (al_keys (ds_vars ds)) = inr tt ->
  exists key0 da0,
    item0 (al_keys (ds_vars ds)) = inr key0
    /\ al_get key0 (ds_vars ds) = Some da0.
Proof.
  intros Hreq. rewrite check_requirements_ok in Hreq.
  assert ("tmin" ∈ al_keys (ds_vars ds)) as Hin by (apply Hreq; set_solver).
  destruct (ds_vars ds) as [|[k0 d0] vars]; [inversion Hin|].
  exists k0, d0. simpl. by rewrite String.eqb_refl.
Qed.
End GridFacts.

(** A name no assignment has introduced. *)
Ltac solve_fresh :=
  cbn [ds_vars];
  rewrite al_get_keys; rewrite !al_get_set_ne by names_ne;
  rewrite <- al_get_keys; assumption.

(** The values of a variable that was looked up. *)
Ltac solve_val := first [ eassumption | reflexivity ].

Ltac solve_var :=
  cbn [ds_vars ds_attrs ds_time];
  repeat first [ rewrite al_get_set_eq | rewrite al_get_set_ne by names_ne ];
  first [ reflexivity | eassumption ].

Section GridRun.
Context {F : Type} {num : Numeric F}.
Variable elevation_bygrid : list F -> list F -> attr F -> F -> result (nat -> nat -> F).
Implicit Types (h : gmap loc (Dataset F)) (ds : Dataset F).

Lemma pet_bygrid_run h l ds key0 elev :
  h !! l = Some ds ->
  grid_ready elevation_bygrid ds key0 elev ->
  let h2 := <[fresh (dom h) := merged_dataset ds key0 elev]>
              (<[l := caller_dataset ds]> h) in
  pet_bygrid elevation_bygrid l h
  = (inr (fresh (dom h2)), <[fresh (dom h2) := returned_dataset ds key0 elev]> h2).
Proof.
  intros Hl [Hreq Hkey0 (ts & Hts & Hne) (res_attr & res & crs & Hres & Hres' & Hcrs & Hsvc) Hfresh].
  destruct (required_variables ds Hreq)
    as (tmin & tmax & lat & vp & srad & dayl & Htmin & Htmax & Hlat & Hvp & Hsrad & Hdayl).
  assert (time_length (ds_time ds) <> 0%nat) as Hlen.
  { rewrite Hts. simpl. by destruct ts. }
  assert (key0 ∈ al_keys (ds_vars ds)) as Hk0in.
  { destruct (al_keys (ds_vars ds)); simplify_eq/=. left. }
  assert (key0 <> "elevation") as Hk0ne by (intros ->; done).
  assert (da_values tmin = var ds "tmin") as Etmin by (unfold var, var_in; by rewrite Htmin).
  assert (da_values tmax = var ds "tmax") as Etmax by (unfold var, var_in; by rewrite Htmax).
  assert (da_values lat = var ds "lat") as Elat by (unfold var, var_in; by rewrite Hlat).
  assert (da_values vp = var ds "vp") as Evp by (unfold var, var_in; by rewrite Hvp).
  assert (da_values srad = var ds "srad") as Esrad by (unfold var, var_in; by rewrite Hsrad).
  assert (da_values dayl = var ds "dayl") as Edayl by (unfold var, var_in; by rewrite Hdayl).
  assert (da_attrs vp = var_attrs ds "vp") as Avp by (unfold var_attrs; by rewrite Hvp).
  intros h2. subst h2. unfold pet_bygrid.
  run_with ltac:(eapply run_keys; exact Hl).
  run_with ltac:(unfold lift; rewrite Hreq).
  run_with ltac:(eapply run_ds_gettime; exact Hl).
  run_with ltac:(eapply run_ds_getitem_var; [solve_lookup | solve_var | solve_val]).
  run_with ltac:(eapply run_ds_getitem_var; [solve_lookup | solve_var | solve_val]).
  run_with ltac:(eapply run_ds_setitem; solve_lookup).
  run_with ltac:(eapply run_ds_getitem_var; [solve_lookup | solve_var | solve_val]).
  run_with ltac:(eapply run_ds_setitem; solve_lookup).
  run_with ltac:(eapply run_ds_getattr; [solve_lookup | solve_var]).
  run_with ltac:(unfold lift; rewrite Hres').
  run_with ltac:(eapply deref_Some; solve_lookup).
  run_with ltac:(eapply run_ds_getattr; [solve_lookup | solve_var]).
  run_with ltac:(unfold lift; rewrite Hsvc).
  run_with ltac:(eapply run_merge_elevation; [solve_lookup | solve_fresh]).
  rewrite (fresh_insert _ _ _ _ Hl).
  run_with ltac:(eapply run_ds_getitem_var; [solve_lookup | solve_var | solve_val]).
  run_with ltac:(unfold lift; rewrite Hkey0).
  run_with ltac:(eapply run_isel_time0_in;
                 [solve_lookup | exact Hlen
                 | cbn [ds_vars with_vars]; repeat apply al_keys_set_mono; exact Hk0in]).
  rewrite (var_in_set_ne _ key0 "elevation") by done.
  run_with ltac:(eapply run_ds_setitem; solve_lookup).
  run_with ltac:(eapply run_ds_getitem_var; [solve_lookup | solve_var | solve_val]).
  run_with ltac:(eapply run_ds_setitem; solve_lookup).
  run_with ltac:(eapply run_ds_imul_var; [solve_lookup | solve_var | solve_val | solve_val]).
  run_with ltac:(eapply run_ds_getitem_var; [solve_lookup | solve_var | solve_val]).
  run_with ltac:(eapply run_ds_getitem_var; [solve_lookup | solve_var | solve_val]).
  run_with ltac:(eapply run_ds_getitem_var; [solve_lookup | solve_var | solve_val]).
  run_with ltac:(eapply run_ds_setitem; solve_lookup).
  run_with ltac:(eapply run_isel_time0_var; [solve_lookup | exact Hlen | solve_var | solve_val]).
  run_with ltac:(eapply run_time_dayofyear; [solve_lookup | exact Hts]).
  run_with ltac:(eapply run_ds_settime; solve_lookup).
  run_with ltac:(eapply run_ds_getitem_var; [solve_lookup | solve_var | solve_val]).
  run_with ltac:(eapply run_ds_getitem_var; [solve_lookup | solve_var | solve_val]).
  run_with ltac:(eapply run_time_values; [solve_lookup | reflexivity]).
  run_with ltac:(eapply run_ds_getitem_var; [solve_lookup | solve_var | solve_val]).
  run_with ltac:(eapply run_ds_getitem_var; [solve_lookup | solve_var | solve_val]).
  run_with ltac:(eapply run_ds_getitem_var; [solve_lookup | solve_var | solve_val]).
  run_with ltac:(eapply run_ds_getitem_var; [solve_lookup | solve_var | solve_val]).
  run_with ltac:(eapply run_ds_setitem; solve_lookup).
  run_with ltac:(eapply run_ds_getitem_var; [solve_lookup | solve_var | solve_val]).
  run_with ltac:(eapply run_ds_getitem_var; [solve_lookup | solve_var | solve_val]).
  run_with ltac:(eapply run_ds_getitem_var; [solve_lookup | solve_var | solve_val]).
  run_with ltac:(eapply run_ds_getitem_var; [solve_lookup | solve_var | solve_val]).
  run_with ltac:(eapply run_ds_getitem_var; [solve_lookup | solve_var | solve_val]).
  run_with ltac:(eapply run_ds_setitem; solve_lookup).
  run_with ltac:(eapply run_ds_set_var_attr; [solve_lookup | solve_var]).
  run_with ltac:(eapply run_ds_settime; solve_lookup).
  run_with ltac:(eapply run_ds_imul_var; [solve_lookup | solve_var | solve_val | solve_val]).
  erewrite run_ds_drop_vars; [ | solve_lookup | ].
  2:{ cbn [ds_vars with_vars]. intros n Hn.
      repeat (apply elem_of_cons in Hn as [-> | Hn];
              [ apply al_get_keys;
                repeat first [ rewrite al_get_set_eq | rewrite al_get_set_ne by names_ne ];
                eauto | ]).
      inversion Hn. }
  cbv beta zeta delta [with_vars computed].
  cbn [ds_time ds_x ds_y ds_vars ds_attrs da_values da_attrs].
  reflexivity.
Qed.
End GridRun.

Lemma al_get_del_eq {V : Type} (k : string) (l : list (string * V)) :
  al_get k (al_del k l) = None.
Proof.
  induction l as [|[k' v'] l IH]; [done|]. simpl.
  destruct (String.eqb k k') eqn:E; [done|]. simpl. by rewrite E.
Qed.

Lemma filter_keys_notin (k : string) (ks : list string) :
  k ∉ ks -> List.filter (fun k' => negb (String.eqb k k')) ks = ks.
Proof.
  induction ks as [|k' ks IH]; [done|].
  intros [Hne Hnin]%not_elem_of_cons. cbn [List.filter].
  apply String.eqb_neq in Hne. rewrite Hne. cbn [negb]. f_equal. by apply IH.
Qed.

(** ** The point engine *)

Section PointClaims.
Context {F : Type} {num : Numeric F}.
Variable elevation_bycoords : list (F * F) -> string -> result (list F).
Implicit Types (h : gmap loc (DataFrame F)) (df : DataFrame F).
Local Open Scope num_scope.

Lemma returned_pet df coords alt_unit elevation :
  al_get pet_mmday (df_columns (returned_table df coords alt_unit elevation))
  = Some (pet_column df coords alt_unit elevation).
Proof.
  unfold returned_table, caller_table. cbn [df_columns].
  rewrite al_get_del_ne by names_ne.
  rewrite al_get_set_ne by names_ne. apply al_get_set_eq.
Qed.

Lemma returned_vp df coords alt_unit elevation :
  al_get va_pa (df_columns (returned_table df coords alt_unit elevation))
  = Some (fun i => Row.vp_restored (col df va_pa i)).
Proof.
  unfold returned_table, caller_table. cbn [df_columns].
  rewrite al_get_del_ne by names_ne. apply al_get_set_eq.
Qed.

Lemma returned_other df coords alt_unit elevation name :
  name <> tmean_c -> name <> pet_mmday -> name <> va_pa ->
  al_get name (df_columns (returned_table df coords alt_unit elevation))
  = al_get name (df_columns df).
Proof.
  intros H1 H2 H3. unfold returned_table, caller_table. cbn [df_columns].
  rewrite al_get_del_ne by done. by rewrite !al_get_set_ne by done.
Qed.

Lemma returned_keys df coords alt_unit elevation :
  point_ready df alt_unit ->
  tmean_c ∉ al_keys (df_columns df) -> pet_mmday ∉ al_keys (df_columns df) ->
  al_keys (df_columns (returned_table df coords alt_unit elevation))
  = (al_keys (df_columns df) ++ [pet_mmday])%list.
Proof.
  intros Hreq Htm Hpet.
  assert (va_pa ∈ al_keys (df_columns df)) as Hvp.
  { unfold point_ready in Hreq. rewrite check_requirements_ok in Hreq.
    apply Hreq. set_solver. }
  unfold returned_table, caller_table. cbn [df_columns].
  rewrite al_keys_del_filter, !al_keys_set.
  apply contains_false in Htm. rewrite Htm.
  assert (contains (al_keys (df_columns df) ++ [tmean_c]) va_pa = true) as ->.
  { apply contains_true, elem_of_app. by left. }
  assert (contains (al_keys (df_columns df) ++ [tmean_c]) pet_mmday = false) as ->.
  { apply contains_false. rewrite elem_of_app, list_elem_of_singleton.
    intros [?|?]; [done|discriminate]. }
  assert (contains ((al_keys (df_columns df) ++ [tmean_c]) ++ [pet_mmday]) va_pa = true) as ->.
  { apply contains_true. rewrite !elem_of_app. by left; left. }
  rewrite !List.filter_app.
  rewrite (filter_keys_notin tmean_c) by (by apply contains_false).
  assert (List.filter (fun k' => negb (String.eqb tmean_c k')) [tmean_c] = []) as ->
    by reflexivity.
  assert (List.filter (fun k' => negb (String.eqb tmean_c k')) [pet_mmday] = [pet_mmday])
    as -> by reflexivity.
  by rewrite app_nil_r.
Qed.

(** The chain of the source is the formula of the specification. *)
Lemma row_pet_fao56 `{!NumericLaws F} tmax tmin vp srad dayl lat jday elevation :
  Row.pet tmax tmin vp srad dayl lat jday elevation
  = FAO56.PET (FAO56.Delta (FAO56.Tmean tmax tmin)) (FAO56.gamma elevation)
      (FAO56.Tmean tmax tmin)
      (Row.rad_n tmax tmin vp srad dayl lat jday elevation)
      (Row.e_def tmax tmin vp).
Proof.
  assert (Row.tmean tmax tmin = FAO56.Tmean tmax tmin) as Htm
    by apply mul_half.
  assert (Row.gamma elevation = FAO56.gamma elevation) as Hg.
  { unfold Row.gamma, Row.pa, FAO56.gamma.
    rewrite (lit_Qeq 293.0 293) by reflexivity. apply mul_comm. }
  unfold Row.pet, Row.pet_from, FAO56.PET, FAO56.windSpeed, FAO56.soilHeatFlux.
  rewrite Htm, Hg.
  rewrite (lit_Qeq 0.0 0), (lit_Qeq 900.0 900), (lit_Qeq 273.0 273) by reflexivity.
  reflexivity.
Qed.

(** C1.  On a table that passes the requirement check, at a point whose
    elevation the service gives, the engine returns a table with a column
    ["pet (mm/day)"] whose value at every row is the FAO-56 result: with
    [Tmean = (tmax+tmin)/2], the slope [Delta], the psychrometric constant
    [gamma] at the elevation, wind speed 2.0, soil heat flux 0, the net
    radiation and the vapour pressure deficit of the row.  The column is
    appended to the columns of the input when the input has no column of
    that name and no ["tmean (deg c)"]. *)
Theorem pet_bycoords_fao56 `{!NumericLaws F}
    h l df coords crs alt_unit elevs elevation :
  h !! l = Some df ->
  point_ready df alt_unit ->
  elevation_bycoords [coords] crs = inr elevs ->
  item0 elevs = inr elevation ->
  exists l' h' out pet,
    pet_bycoords elevation_bycoords l coords crs alt_unit h = (inr l', h')
    /\ h' !! l' = Some out
    /\ al_get pet_mmday (df_columns out) = Some pet
    /\ (forall i,
         let tmax := col df (tmax_c alt_unit) i in
         let tmin := col df (tmin_c alt_unit) i in
         let vp := col df va_pa i in
         let srad := col df (srad_wm2 alt_unit) i in
         let dayl := col df dayl_s i in
         pet i
         = FAO56.PET (FAO56.Delta (FAO56.Tmean tmax tmin)) (FAO56.gamma elevation)
             (FAO56.Tmean tmax tmin)
             (Row.rad_n tmax tmin vp srad dayl coords.2 (jday df i) elevation)
             (Row.e_def tmax tmin vp))
    /\ (tmean_c ∉ al_keys (df_columns df) ->
        pet_mmday ∉ al_keys (df_columns df) ->
        al_keys (df_columns out) = (al_keys (df_columns df) ++ [pet_mmday])%list).
Proof.
  intros Hl Hreq Hsvc Helev.
  eexists _, _, _, _. split.
  { by eapply pet_bycoords_run. }
  split; [apply lookup_insert_eq|].
  split; [apply returned_pet|].
  split.
  - intros i. cbv zeta. unfold pet_column. apply row_pet_fao56.
  - intros Htm Hpet. by apply returned_keys.
Qed.

(** C10.  After a successful call the table returned is another object
    than the table passed: it has no ["tmean (deg c)"] column, while the
    table passed, assigned to in place, has that column and the column
    ["pet (mm/day)"]. *)
Theorem pet_bycoords_aliasing h l df coords crs alt_unit elevs elevation :
  h !! l = Some df ->
  point_ready df alt_unit ->
  elevation_bycoords [coords] crs = inr elevs ->
  item0 elevs = inr elevation ->
  exists l' h' out df',
    pet_bycoords elevation_bycoords l coords crs alt_unit h = (inr l', h')
    /\ l' <> l
    /\ h' !! l' = Some out
    /\ h' !! l = Some df'
    /\ (tmean_c ∉ al_keys (df_columns out))
    /\ pet_mmday ∈ al_keys (df_columns out)
    /\ tmean_c ∈ al_keys (df_columns df')
    /\ pet_mmday ∈ al_keys (df_columns df').
Proof.
  intros Hl Hreq Hsvc Helev.
  eexists _, _, _, _. split.
  { by eapply pet_bycoords_run. }
  assert (fresh (dom h) <> l) as Hne by (by eapply fresh_ne).
  split; [done|].
  split; [apply lookup_insert_eq|].
  split; [rewrite lookup_insert_ne by done; apply lookup_insert_eq|].
  split; [|split; [|split]].
  - unfold returned_table. cbn [df_columns]. by intros [Hdiff _]%al_keys_del.
  - apply al_get_keys. rewrite returned_pet. eauto.
  - unfold caller_table. cbn [df_columns]. apply al_get_keys.
    rewrite !al_get_set_ne by names_ne. rewrite al_get_set_eq. eauto.
  - unfold caller_table. cbn [df_columns]. apply al_get_keys.
    rewrite al_get_set_ne by names_ne. rewrite al_get_set_eq. eauto.
Qed.

Lemma pet_bycoords_at_lookup h l df coords crs alt_unit (r : result (list F)) :
  h !! l = Some df ->
  point_ready df alt_unit ->
  elevation_bycoords [coords] crs = r ->
  (forall e, r = inl e ->
     pet_bycoords elevation_bycoords l coords crs alt_unit h
     = (inl e, <[l := table_at_lookup df alt_unit]> h))
  /\ (r = inr [] ->
      pet_bycoords elevation_bycoords l coords crs alt_unit h
      = (inl IndexError, <[l := table_at_lookup df alt_unit]> h)).
Proof.
  intros Hl Hreq Hsvc.
  destruct (required_columns h l df alt_unit Hl Hreq)
    as (tmin & tmax & vp & srad & dayl & Htmin & Htmax & Hvp & Hsrad & Hdayl).
  unfold pet_bycoords.
  run_with ltac:(eapply run_columns; exact Hl).
  run_with ltac:(unfold lift; rewrite Hreq).
  destruct alt_unit.
  all: run_with ltac:(eapply run_getitem; [solve_lookup | solve_get]).
  all: run_with ltac:(eapply run_getitem; [solve_lookup | solve_get]).
  all: run_with ltac:(eapply run_setitem; solve_lookup).
  all: run_with ltac:(eapply run_getitem; [solve_lookup | solve_get]).
  all: unfold table_at_lookup, col; rewrite Htmin, Htmax; cbn [default].
  all: split; [intros e ->|intros ->].
  all: try (erewrite bind_inl by (unfold lift; rewrite Hsvc; reflexivity); reflexivity).
  all: run_with ltac:(unfold lift; rewrite Hsvc).
  all: erewrite bind_inl by (unfold lift; reflexivity); reflexivity.
Qed.

Lemma pet_bycoords_dangling h l coords crs alt_unit :
  h !! l = None ->
  pet_bycoords elevation_bycoords l coords crs alt_unit h = (inl TypeError, h).
Proof.
  intros Hl. unfold pet_bycoords, columns.
  erewrite bind_inl; [done|]. erewrite bind_inl; [done|].
  unfold deref. by rewrite Hl.
Qed.

Lemma pet_bycoords_missing h l df coords crs alt_unit e :
  h !! l = Some df ->
  _check_requirements
    (PyIter [tmin_c alt_unit; tmax_c alt_unit; va_pa; srad_wm2 alt_unit; dayl_s])
    (al_keys (df_columns df)) = inl e ->
  pet_bycoords elevation_bycoords l coords crs alt_unit h = (inl e, h).
Proof.
  intros Hl Hreq. unfold pet_bycoords.
  run_with ltac:(eapply run_columns; exact Hl).
  erewrite bind_inl; [done|]. unfold lift. by rewrite Hreq.
Qed.

(** Whatever the input, a call that returns a table returns one with the
    column ["pet (mm/day)"] and without ["tmean (deg c)"]. *)
Lemma pet_bycoords_total h l coords crs alt_unit :
  match pet_bycoords elevation_bycoords l coords crs alt_unit h with
  | (inr l', h') =>
      exists out, h' !! l' = Some out
                  /\ pet_mmday ∈ al_keys (df_columns out)
                  /\ tmean_c ∉ al_keys (df_columns out)
  | (inl _, _) => True
  end.
Proof.
  destruct (h !! l) as [df|] eqn:Hl;
    [|by rewrite pet_bycoords_dangling].
  destruct (_check_requirements
    (PyIter [tmin_c alt_unit; tmax_c alt_unit; va_pa; srad_wm2 alt_unit; dayl_s])
    (al_keys (df_columns df))) as [e|[]] eqn:Hreq;
    [by erewrite pet_bycoords_missing|].
  destruct (pet_bycoords_at_lookup h l df coords crs alt_unit _ Hl Hreq eq_refl)
    as [Herr Hempty].
  destruct (elevation_bycoords [coords] crs) as [e|[|elevation elevs]] eqn:Hsvc.
  - by rewrite (Herr e).
  - by rewrite Hempty.
  - erewrite pet_bycoords_run by done.
    eexists. split; [apply lookup_insert_eq|]. split.
    + apply al_get_keys. rewrite returned_pet. eauto.
    + unfold returned_table. cbn [df_columns]. by intros [Hdiff _]%al_keys_del.
Qed.
End PointClaims.

(** ** The grid engine *)

(** A name that is one of a list of given names. *)
Ltac in_names := apply list_elem_of_In; simpl; tauto.

Section GridClaims.
Context {F : Type} {num : Numeric F}.
Variable elevation_bygrid : list F -> list F -> attr F -> F -> result (nat -> nat -> F).
Implicit Types (h : gmap loc (Dataset F)) (ds : Dataset F).
Local Open Scope num_scope.

Lemma returned_var ds key0 elev name :
  name ∉ drop_list ->
  al_get name (ds_vars (returned_dataset ds key0 elev))
  = al_get name (final_vars ds key0 elev).
Proof.
  intros Hnin. unfold returned_dataset, with_vars, drop_list in *.
  cbn [ds_vars fold_left].
  rewrite !al_get_del_ne; [done|intros ->; apply Hnin; set_solver..].
Qed.

Lemma returned_pet_var ds key0 elev :
  al_get "pet" (ds_vars (returned_dataset ds key0 elev))
  = Some {| da_values := pet_field ds key0 elev;
            da_attrs := [("units", "mm/day")] |}.
Proof.
  rewrite returned_var by (unfold drop_list; set_solver).
  unfold final_vars. rewrite al_get_set_ne by names_ne. apply al_get_set_eq.
Qed.

Lemma returned_vp_var ds key0 elev :
  al_get "vp" (ds_vars (returned_dataset ds key0 elev))
  = Some {| da_values := fun t y x => Row.vp_restored (var ds "vp" t y x);
            da_attrs := var_attrs ds "vp" |}.
Proof.
  rewrite returned_var by (unfold drop_list; set_solver).
  unfold final_vars. apply al_get_set_eq.
Qed.


Lemma reference_input ds key0 t y x :
  key0 <> "tmean" -> key0 <> "delta_r" ->
  reference ds key0 t y x = var ds key0 0%nat y x.
Proof.
  intros H1 H2. unfold reference, caller_vars, var.
  by rewrite !var_in_set_ne.
Qed.

(** C6.  The dataset a successful call returns has the time axis of the
    dataset passed: the time stamps, not the days of the year that stood
    in for them during the computation. *)
Theorem pet_bygrid_time_axis h l ds key0 elev :
  h !! l = Some ds ->
  grid_ready elevation_bygrid ds key0 elev ->
  exists l' h' out,
    pet_bygrid elevation_bygrid l h = (inr l', h')
    /\ h' !! l' = Some out
    /\ ds_time out = ds_time ds.
Proof.
  intros Hl Hready. eexists _, _, _. split.
  { by eapply pet_bygrid_run. }
  split; [apply lookup_insert_eq|]. reflexivity.
Qed.





Lemma final_keys ds key0 elev :
  "vp" ∈ al_keys (ds_vars ds) ->
  "elevation" ∉ al_keys (ds_vars ds) ->
  (forall n, n ∈ working_names -> n ∉ al_keys (ds_vars ds)) ->
  al_keys (final_vars ds key0 elev)
  = (al_keys (ds_vars ds)
     ++ ["tmean"; "delta_r"; "elevation"; "gamma"; "e_def"; "rad_n"; "pet"])%list.
Proof.
  intros Hvp Helev Hwork.
  assert (forall n, n ∈ working_names -> al_get n (ds_vars ds) = None) as Hnone.
  { intros n Hn. apply eq_None_not_Some. rewrite <- al_get_keys. by apply Hwork. }
  assert (al_get "elevation" (ds_vars ds) = None) as Hnone'.
  { apply eq_None_not_Some. by rewrite <- al_get_keys. }
  assert (forall k (v : DataArray F) l, al_get k l = None ->
            al_keys (al_set k v l) = (al_keys l ++ [k])%list) as Hnew.
  { intros k v l Hk. apply al_keys_set_notin. rewrite al_get_keys, Hk.
    by intros [? ?]. }
  assert (forall k (v : DataArray F) l, is_Some (al_get k l) ->
            al_keys (al_set k v l) = al_keys l) as Hold.
  { intros k v l Hk. apply al_keys_set_in. by rewrite al_get_keys. }
  unfold final_vars, caller_vars. cbv zeta.
  repeat first
    [ rewrite Hold
        by (repeat first [ rewrite al_get_set_eq | rewrite al_get_set_ne by names_ne ];
            first [ by eauto | by apply al_get_keys ])
    | rewrite Hnew
        by (rewrite ?al_get_set_ne by names_ne;
            first [ done | apply Hnone; in_names ]) ].
  by rewrite <- !app_assoc.
Qed.

Lemma returned_keys_grid ds key0 elev :
  "vp" ∈ al_keys (ds_vars ds) ->
  "elevation" ∉ al_keys (ds_vars ds) ->
  (forall n, n ∈ working_names -> n ∉ al_keys (ds_vars ds)) ->
  al_keys (ds_vars (returned_dataset ds key0 elev))
  = (al_keys (ds_vars ds) ++ ["elevation"; "pet"])%list.
Proof.
  intros Hvp Helev Hwork.
  unfold returned_dataset, with_vars, drop_list. cbn [ds_vars fold_left].
  rewrite !al_keys_del_filter, final_keys by done.
  rewrite !List.filter_app.
  rewrite (filter_keys_notin "delta_r") by (apply Hwork; in_names).
  rewrite (filter_keys_notin "gamma") by (apply Hwork; in_names).
  rewrite (filter_keys_notin "e_def") by (apply Hwork; in_names).
  rewrite (filter_keys_notin "rad_n") by (apply Hwork; in_names).
  rewrite (filter_keys_notin "tmean") by (apply Hwork; in_names).
  reflexivity.
Qed.

(** C2, as the code has it.  The dataset returned has the variables of
    the dataset passed followed by two new ones, ["elevation"] and
    ["pet"]: the variable that the merge of the elevation brought in is
    not among those the engine drops. *)
Theorem pet_bygrid_variables h l ds key0 elev :
  h !! l = Some ds ->
  grid_ready elevation_bygrid ds key0 elev ->
  (forall n, n ∈ working_names -> n ∉ al_keys (ds_vars ds)) ->
  exists l' h' out,
    pet_bygrid elevation_bygrid l h = (inr l', h')
    /\ h' !! l' = Some out
    /\ al_keys (ds_vars out) = (al_keys (ds_vars ds) ++ ["elevation"; "pet"])%list.
Proof.
  intros Hl Hready Hwork. eexists _, _, _. split.
  { by eapply pet_bygrid_run. }
  split; [apply lookup_insert_eq|].
  destruct Hready as [Hreq _ _ _ Hfresh].
  rewrite check_requirements_ok in Hreq.
  apply returned_keys_grid; [apply Hreq; in_names|done..].
Qed.

(** The steps of the engine before it reads the attribute [res]. *)
Ltac grid_start Hl Hreq :=
  unfold pet_bygrid;
  run_with ltac:(eapply run_keys; exact Hl);
  run_with ltac:(unfold lift; rewrite Hreq);
  run_with ltac:(eapply run_ds_gettime; exact Hl);
  run_with ltac:(eapply run_ds_getitem_var; [solve_lookup | solve_var | solve_val]);
  run_with ltac:(eapply run_ds_getitem_var; [solve_lookup | solve_var | solve_val]);
  run_with ltac:(eapply run_ds_setitem; solve_lookup);
  run_with ltac:(eapply run_ds_getitem_var; [solve_lookup | solve_var | solve_val]);
  run_with ltac:(eapply run_ds_setitem; solve_lookup).

(** The steps from there to the call of the elevation service. *)
Ltac grid_to_service Hres Hres' Hcrs :=
  run_with ltac:(eapply run_ds_getattr; [solve_lookup | solve_var]);
  run_with ltac:(unfold lift; rewrite Hres');
  run_with ltac:(eapply deref_Some; solve_lookup);
  run_with ltac:(eapply run_ds_getattr; [solve_lookup | solve_var]).

Lemma caller_dataset_eq ds tmin tmax :
  al_get "tmin" (ds_vars ds) = Some tmin ->
  al_get "tmax" (ds_vars ds) = Some tmax ->
  da_values tmin = var ds "tmin" /\ da_values tmax = var ds "tmax".
Proof. intros H1 H2. unfold var, var_in. by rewrite H1, H2. Qed.

(** When the elevation service raises, the call raises the same
    exception; the dataset passed has by then the mean temperature and
    the slope of the vapour pressure curve among its variables. *)
Lemma pet_bygrid_lookup_fails h l ds res_attr res crs e :
  h !! l = Some ds ->
  _check_requirements
    (PyIter ["tmin"; "tmax"; "lat"; "lon"; "vp"; "srad"; "dayl"])
    (al_keys (ds_vars ds)) = inr tt ->
  al_get "res" (ds_attrs ds) = Some res_attr ->
  resolution res_attr = inr res ->
  al_get "crs" (ds_attrs ds) = Some crs ->
  elevation_bygrid (ds_x ds) (ds_y ds) crs res = inl e ->
  pet_bygrid elevation_bygrid l h = (inl e, <[l := caller_dataset ds]> h).
Proof.
  intros Hl Hreq Hres Hres' Hcrs Hsvc.
  destruct (required_variables ds Hreq)
    as (tmin & tmax & lat & vp & srad & dayl & Htmin & Htmax & Hlat & Hvp & Hsrad & Hdayl).
  destruct (caller_dataset_eq ds tmin tmax Htmin Htmax) as [Etmin Etmax].
  grid_start Hl Hreq. grid_to_service Hres Hres' Hcrs.
  erewrite bind_inl by (unfold lift; rewrite Hsvc; reflexivity).
  reflexivity.
Qed.

Lemma run_ds_getattr_missing h l ds name :
  h !! l = Some ds -> al_get name (ds_attrs ds) = None ->
  ds_getattr l name h = (inl (AttributeError name), h).
Proof.
  intros Hl Hs. unfold ds_getattr.
  rewrite (bind_inr _ _ _ _ _ (deref_Some _ _ _ Hl)). by rewrite Hs.
Qed.

Lemma run_merge_elevation_clash h l ds elev attrs :
  h !! l = Some ds -> "elevation" ∈ al_keys (ds_vars ds) ->
  merge_elevation l elev attrs h = (inl (MergeError "elevation"), h).
Proof.
  intros Hl Hin. unfold merge_elevation.
  rewrite (bind_inr _ _ _ _ _ (deref_Some _ _ _ Hl)).
  apply contains_true in Hin. by rewrite Hin.
Qed.

Lemma run_isel_time0_empty h l ds name :
  h !! l = Some ds -> time_length (ds_time ds) = 0%nat ->
  isel_time0 l name h = (inl IndexError, h).
Proof.
  intros Hl Hlen. unfold isel_time0.
  rewrite (bind_inr _ _ _ _ _ (deref_Some _ _ _ Hl)). by rewrite Hlen.
Qed.

Lemma run_time_dayofyear_numbers h l ds vs :
  h !! l = Some ds -> ds_time ds = Numbers vs ->
  time_dayofyear l h = (inl TypeError, h).
Proof.
  intros Hl Hts. unfold time_dayofyear.
  rewrite (bind_inr _ _ _ _ _ (deref_Some _ _ _ Hl)). by rewrite Hts.
Qed.

(** The steps from the answer of the service to the reading of the first
    time slice. *)
Ltac grid_to_mask Hl Hsvc Hfresh Hkey0 :=
  run_with ltac:(unfold lift; rewrite Hsvc);
  run_with ltac:(eapply run_merge_elevation; [solve_lookup | solve_fresh]);
  rewrite (fresh_insert _ _ _ _ Hl);
  run_with ltac:(eapply run_ds_getitem_var; [solve_lookup | solve_var | solve_val]);
  run_with ltac:(unfold lift; rewrite Hkey0).

(** Whatever the input, a call that returns a dataset returns one with
    the variable ["pet"] and without the variables the engine drops. *)
Lemma pet_bygrid_total h l :
  match pet_bygrid elevation_bygrid l h with
  | (inr l', h') =>
      exists out, h' !! l' = Some out
                  /\ "pet" ∈ al_keys (ds_vars out)
                  /\ forall n, n ∈ drop_list -> n ∉ al_keys (ds_vars out)
  | (inl _, _) => True
  end.
Proof.
  destruct (h !! l) as [ds|] eqn:Hl.
  2:{ unfold pet_bygrid, keys.
      erewrite bind_inl; [done|]. erewrite bind_inl; [done|].
      unfold deref. by rewrite Hl. }
  destruct (_check_requirements
    (PyIter ["tmin"; "tmax"; "lat"; "lon"; "vp"; "srad"; "dayl"])
    (al_keys (ds_vars ds))) as [e|[]] eqn:Hreq.
  { unfold pet_bygrid.
    run_with ltac:(eapply run_keys; exact Hl).
    erewrite bind_inl; [done|]. unfold lift. by rewrite Hreq. }
  destruct (required_variables ds Hreq)
    as (tmin & tmax & lat & vp & srad & dayl & Htmin & Htmax & Hlat & Hvp & Hsrad & Hdayl).
  destruct (caller_dataset_eq ds tmin tmax Htmin Htmax) as [Etmin Etmax].
  destruct (first_variable ds Hreq) as (key0 & da0 & Hkey0 & Hda0).
  assert (key0 ∈ al_keys (ds_vars ds)) as Hk0in by (apply al_get_keys; eauto).
  destruct (al_get "res" (ds_attrs ds)) as [res_attr|] eqn:Hres.
  2:{ grid_start Hl Hreq.
      erewrite bind_inl; [done|].
      eapply run_ds_getattr_missing; [solve_lookup | solve_var]. }
  destruct (resolution res_attr) as [e|res] eqn:Hres'.
  { grid_start Hl Hreq.
    run_with ltac:(eapply run_ds_getattr; [solve_lookup | solve_var]).
    erewrite bind_inl; [done|]. unfold lift. by rewrite Hres'. }
  destruct (al_get "crs" (ds_attrs ds)) as [crs|] eqn:Hcrs.
  2:{ grid_start Hl Hreq.
      run_with ltac:(eapply run_ds_getattr; [solve_lookup | solve_var]).
      run_with ltac:(unfold lift; rewrite Hres').
      run_with ltac:(eapply deref_Some; solve_lookup).
      erewrite bind_inl; [done|].
      eapply run_ds_getattr_missing; [solve_lookup | solve_var]. }
  destruct (elevation_bygrid (ds_x ds) (ds_y ds) crs res) as [e|elev] eqn:Hsvc.
  { by erewrite pet_bygrid_lookup_fails. }
  destruct (decide ("elevation" ∈ al_keys (ds_vars ds))) as [Hclash|Hfresh].
  { grid_start Hl Hreq. grid_to_service Hres Hres' Hcrs.
    run_with ltac:(unfold lift; rewrite Hsvc).
    erewrite bind_inl; [done|].
    eapply run_merge_elevation_clash; [solve_lookup|].
    cbn [ds_vars]. by repeat apply al_keys_set_mono. }
  destruct (ds_time ds) as [[|t0 ts]|[|v0 vs]] eqn:Hts.
  - grid_start Hl Hreq. grid_to_service Hres Hres' Hcrs.
    grid_to_mask Hl Hsvc Hfresh Hkey0.
    erewrite bind_inl; [done|].
    eapply run_isel_time0_empty; [solve_lookup|]. cbn [ds_time]. by rewrite Hts.
  - erewrite pet_bygrid_run; [|done|].
    2:{ split; [done|done|by eexists; split|by eexists _, _, _|done]. }
    eexists. split; [apply lookup_insert_eq|]. split.
    + apply al_get_keys. rewrite returned_pet_var. eauto.
    + intros n Hn. unfold returned_dataset, with_vars, drop_list in *.
      cbn [ds_vars fold_left].
      repeat (apply elem_of_cons in Hn as [-> | Hn];
              [ rewrite al_get_keys;
                rewrite ?(al_get_del_ne (V:=DataArray F)) by names_ne;
                rewrite al_get_del_eq; by intros [? ?] | ]).
      inversion Hn.
  - grid_start Hl Hreq. grid_to_service Hres Hres' Hcrs.
    grid_to_mask Hl Hsvc Hfresh Hkey0.
    erewrite bind_inl; [done|].
    eapply run_isel_time0_empty; [solve_lookup|]. cbn [ds_time]. by rewrite Hts.
  - assert (time_length (ds_time ds) <> 0%nat) as Hlen by (by rewrite Hts).
    assert (da_values vp = var ds "vp") as Evp by (unfold var, var_in; by rewrite Hvp).
    assert (da_values lat = var ds "lat") as Elat by (unfold var, var_in; by rewrite Hlat).
    grid_start Hl Hreq. grid_to_service Hres Hres' Hcrs.
    grid_to_mask Hl Hsvc Hfresh Hkey0.
    run_with ltac:(eapply run_isel_time0_in;
                   [solve_lookup | exact Hlen
                   | cbn [ds_vars]; repeat apply al_keys_set_mono; exact Hk0in]).
    run_with ltac:(eapply run_ds_setitem; solve_lookup).
    run_with ltac:(eapply run_ds_getitem_var; [solve_lookup | solve_var | solve_val]).
    run_with ltac:(eapply run_ds_setitem; solve_lookup).
    run_with ltac:(eapply run_ds_imul_var;
                   [solve_lookup | solve_var | solve_val | reflexivity]).
    run_with ltac:(eapply run_ds_getitem_var; [solve_lookup | solve_var | solve_val]).
    run_with ltac:(eapply run_ds_getitem_var; [solve_lookup | solve_var | solve_val]).
    run_with ltac:(eapply run_ds_getitem_var; [solve_lookup | solve_var | solve_val]).
    run_with ltac:(eapply run_ds_setitem; solve_lookup).
    run_with ltac:(eapply run_isel_time0_var;
                   [solve_lookup | exact Hlen | solve_var | solve_val]).
    erewrite bind_inl; [done|].
    eapply run_time_dayofyear_numbers; [solve_lookup|]. cbn [ds_time]. exact Hts.
Qed.
(** X16.  A dataset that has the required variables and lacks the
    attribute [res], or has a [res] without a first element (the index
    error of an empty sequence or of the empty string) or with one that
    cannot be scaled (the type error of a character multiplied by a
    float), or lacks the attribute [crs], is refused with the error of
    that step, before the elevation service is asked; the dataset passed
    has by then the mean temperature and the slope of the vapour pressure
    curve among its variables.  (No variable is named after these
    attributes: xarray would read the variable.) *)
Theorem pet_bygrid_needs_attributes h l ds :
  h !! l = Some ds ->
  _check_requirements
    (PyIter ["tmin"; "tmax"; "lat"; "lon"; "vp"; "srad"; "dayl"])
    (al_keys (ds_vars ds)) = inr tt ->
  "res" ∉ al_keys (ds_vars ds) -> "crs" ∉ al_keys (ds_vars ds) ->
  (al_get "res" (ds_attrs ds) = None ->
   pet_bygrid elevation_bygrid l h
   = (inl (AttributeError "res"), <[l := caller_dataset ds]> h))
  /\ (forall res_attr e,
        al_get "res" (ds_attrs ds) = Some res_attr -> resolution res_attr = inl e ->
        pet_bygrid elevation_bygrid l h = (inl e, <[l := caller_dataset ds]> h)
        /\ e = match res_attr with
               | AttrStr (String _ _) => TypeError
               | _ => IndexError
               end)
  /\ (forall res_attr res,
        al_get "res" (ds_attrs ds) = Some res_attr -> resolution res_attr = inr res ->
        al_get "crs" (ds_attrs ds) = None ->
        pet_bygrid elevation_bygrid l h
        = (inl (AttributeError "crs"), <[l := caller_dataset ds]> h)).
Proof.
  intros Hl Hreq _ _.
  destruct (required_variables ds Hreq)
    as (tmin & tmax & lat & vp & srad & dayl & Htmin & Htmax & Hlat & Hvp & Hsrad & Hdayl).
  destruct (caller_dataset_eq ds tmin tmax Htmin Htmax) as [Etmin Etmax].
  split; [|split].
  - intros Hres. grid_start Hl Hreq.
    erewrite bind_inl; [reflexivity|].
    eapply run_ds_getattr_missing; [solve_lookup | solve_var].
  - intros res_attr e Hres Hres'. split.
    + grid_start Hl Hreq.
      run_with ltac:(eapply run_ds_getattr; [solve_lookup | solve_var]).
      erewrite bind_inl; [reflexivity|]. unfold lift. by rewrite Hres'.
    + destruct res_attr as [[|r vs]|[|c s]]; simpl in Hres'; congruence.
  - intros res_attr res Hres Hres' Hcrs. grid_start Hl Hreq.
    run_with ltac:(eapply run_ds_getattr; [solve_lookup | solve_var]).
    run_with ltac:(unfold lift; rewrite Hres').
    run_with ltac:(eapply deref_Some; solve_lookup).
    erewrite bind_inl; [reflexivity|].
    eapply run_ds_getattr_missing; [solve_lookup | solve_var].
Qed.

(** X17.  On a dataset with no time step the engine does not return a
    dataset with an empty PET: it asks the elevation service, merges the
    answer and raises the index error of the first time slice.  The dataset
    passed has by then the mean temperature and the slope of the vapour
    pressure curve among its variables. *)
Theorem pet_bygrid_empty_time h l ds res_attr res crs elev :
  h !! l = Some ds ->
  _check_requirements
    (PyIter ["tmin"; "tmax"; "lat"; "lon"; "vp"; "srad"; "dayl"])
    (al_keys (ds_vars ds)) = inr tt ->
  al_get "res" (ds_attrs ds) = Some res_attr ->
  resolution res_attr = inr res ->
  al_get "crs" (ds_attrs ds) = Some crs ->
  elevation_bygrid (ds_x ds) (ds_y ds) crs res = inr elev ->
  "elevation" ∉ al_keys (ds_vars ds) ->
  time_length (ds_time ds) = 0%nat ->
  exists h',
    pet_bygrid elevation_bygrid l h = (inl IndexError, h')
    /\ h' !! l = Some (caller_dataset ds).
Proof.
  intros Hl Hreq Hres Hres' Hcrs Hsvc Hfresh Hlen.
  destruct (required_variables ds Hreq)
    as (tmin & tmax & lat & vp & srad & dayl & Htmin & Htmax & Hlat & Hvp & Hsrad & Hdayl).
  destruct (caller_dataset_eq ds tmin tmax Htmin Htmax) as [Etmin Etmax].
  destruct (first_variable ds Hreq) as (key0 & da0 & Hkey0 & Hda0).
  eexists. split.
  - grid_start Hl Hreq. grid_to_service Hres Hres' Hcrs.
    grid_to_mask Hl Hsvc Hfresh Hkey0.
    erewrite bind_inl; [reflexivity|].
    eapply run_isel_time0_empty; [solve_lookup|]. cbn [ds_time]. exact Hlen.
  - rewrite lookup_insert_ne by (by apply fresh_ne with (o := ds)).
    apply lookup_insert_eq.
Qed.
End GridClaims.

(** ** Both engines *)

Section BothEngines.
Context {F : Type} {num : Numeric F}.
Variable elevation_bycoords : list (F * F) -> string -> result (list F).
Variable elevation_bygrid : list F -> list F -> attr F -> F -> result (nat -> nat -> F).
Local Open Scope num_scope.

(** C3, amended.  In the table and in the dataset returned, the vapour
    pressure is the input value multiplied by 1e-3 and then by 1e3 in the
    arithmetic of the engine: the rescaling is undone up to the rounding
    of these two products, not bit for bit. *)
Theorem vapor_pressure_restored :
  (forall h l df coords crs alt_unit elevs elevation,
      h !! l = Some df ->
      point_ready df alt_unit ->
      elevation_bycoords [coords] crs = inr elevs ->
      item0 elevs = inr elevation ->
      exists l' h' out vp,
        pet_bycoords elevation_bycoords l coords crs alt_unit h = (inr l', h')
        /\ h' !! l' = Some out
        /\ al_get va_pa (df_columns out) = Some vp
        /\ forall i, vp i = col df va_pa i * #1e-3 * #1.0e3)
  /\ (forall h l ds key0 elev,
      h !! l = Some ds ->
      grid_ready elevation_bygrid ds key0 elev ->
      exists l' h' out vp,
        pet_bygrid elevation_bygrid l h = (inr l', h')
        /\ h' !! l' = Some out
        /\ al_get "vp" (ds_vars out) = Some vp
        /\ forall t y x, da_values vp t y x = var ds "vp" t y x * #1e-3 * #1.0e3).
Proof.
  split.
  - intros h l df coords crs alt_unit elevs elevation Hl Hreq Hsvc Helev.
    eexists _, _, _, _. split; [by eapply pet_bycoords_run|].
    split; [apply lookup_insert_eq|].
    split; [apply returned_vp|]. done.
  - intros h l ds key0 elev Hl Hready.
    eexists _, _, _, _. split; [by eapply pet_bygrid_run|].
    split; [apply lookup_insert_eq|].
    split; [apply returned_vp_var|]. done.
Qed.



(** The net long-wave term of the source, with the ratio of surface to
    clear-sky radiation as it comes: the factor 1.35 multiplies the
    surface radiation, and the product is divided by the clear-sky
    radiation. *)
Lemma rad_nl_unclamped `{!NumericLaws F}
    tmax tmin vp srad dayl lat jday elevation :
  Row.rad_nl tmax tmin vp srad dayl lat jday elevation
  = FAO56.netLongwaveOf tmax tmin (Row.vp_kpa vp)
      (Row.r_surf srad dayl) (Row.rad_s lat jday elevation).
Proof.
  unfold Row.rad_nl, FAO56.netLongwaveOf, FAO56.mean.
  by rewrite (mul_comm _ #0.5), mul_half.
Qed.

(** Without rounding it is the term written with the ratio. *)
Lemma netLongwaveOf_ratio `{!ExactDivision F} (tmax tmin vp_kPa surface clearSky : F) :
  FAO56.netLongwaveOf tmax tmin vp_kPa surface clearSky
  = FAO56.netLongwave tmax tmin vp_kPa (surface / clearSky).
Proof. unfold FAO56.netLongwaveOf, FAO56.netLongwave. by rewrite mul_div_assoc. Qed.

(** C9, amended.  In both engines the PET is the FAO-56 combination of a
    net radiation whose long-wave term is
    [4.903e-9 * mean((tmax+273.16)^4, (tmin+273.16)^4)
     * (0.34 - 0.14 * sqrt(vp_kPa)) * (1.35 * surface / clear-sky - 0.35)],
    for every input: the surface and the clear-sky radiation enter as they
    are, whatever their ratio.  The product by 1.35 is formed before the
    division; in an arithmetic without rounding this is
    [1.35 * (surface / clear-sky)]. *)
Theorem net_longwave_unclamped `{!NumericLaws F} :
  (forall h l df coords crs alt_unit elevs elevation,
      h !! l = Some df ->
      point_ready df alt_unit ->
      elevation_bycoords [coords] crs = inr elevs ->
      item0 elevs = inr elevation ->
      exists l' h' out pet,
        pet_bycoords elevation_bycoords l coords crs alt_unit h = (inr l', h')
        /\ h' !! l' = Some out
        /\ al_get pet_mmday (df_columns out) = Some pet
        /\ forall i,
             let tmax := col df (tmax_c alt_unit) i in
             let tmin := col df (tmin_c alt_unit) i in
             let vp := col df va_pa i in
             let srad := col df (srad_wm2 alt_unit) i in
             let dayl := col df dayl_s i in
             let surface := Row.r_surf srad dayl in
             let clearSky := Row.rad_s coords.2 (jday df i) elevation in
             pet i
             = Row.pet_from
                 (Row.rad_ns srad dayl
                  - FAO56.netLongwaveOf tmax tmin (Row.vp_kpa vp) surface clearSky)
                 tmax tmin vp elevation)
  /\ (forall h l ds key0 elev,
      h !! l = Some ds ->
      grid_ready elevation_bygrid ds key0 elev ->
      exists l' h' out pet,
        pet_bygrid elevation_bygrid l h = (inr l', h')
        /\ h' !! l' = Some out
        /\ al_get "pet" (ds_vars out) = Some pet
        /\ forall t y x,
             let tmax := var ds "tmax" t y x in
             let tmin := var ds "tmin" t y x in
             let vp := var ds "vp" t y x in
             let srad := var ds "srad" t y x in
             let dayl := var ds "dayl" t y x in
             let elevation := masked_elevation ds key0 elev t y x in
             let surface := Row.r_surf srad dayl in
             let clearSky :=
               Row.rad_s (var ds "lat" 0%nat y x) (doy ds t) elevation in
             da_values pet t y x
             = Row.pet_from
                 (Row.rad_ns srad dayl
                  - FAO56.netLongwaveOf tmax tmin (Row.vp_kpa vp) surface clearSky)
                 tmax tmin vp elevation)
  /\ (ExactDivision F ->
      forall tmax tmin vp_kPa surface clearSky : F,
        FAO56.netLongwaveOf tmax tmin vp_kPa surface clearSky
        = FAO56.netLongwave tmax tmin vp_kPa (surface / clearSky)).
Proof.
  split; [|split].
  - intros h l df coords crs alt_unit elevs elevation Hl Hreq Hsvc Helev.
    eexists _, _, _, _. split; [by eapply pet_bycoords_run|].
    split; [apply lookup_insert_eq|].
    split; [apply returned_pet|].
    intros i. cbv zeta. unfold pet_column, Row.pet, Row.rad_n.
    by rewrite rad_nl_unclamped.
  - intros h l ds key0 elev Hl Hready.
    eexists _, _, _, _. split; [by eapply pet_bygrid_run|].
    split; [apply lookup_insert_eq|].
    split; [apply returned_pet_var|].
    intros t y x. cbv zeta. cbn [da_values]. unfold pet_field, Row.pet, Row.rad_n.
    by rewrite rad_nl_unclamped.
  - intros Hexact tmax tmin vp_kPa surface clearSky. apply netLongwaveOf_ratio.
Qed.

(** C8.  When the elevation service raises, each engine raises the same
    exception and returns no container; the table passed to the point
    engine has by then the mean temperature column, the dataset passed to
    the grid engine the two variables assigned before the call.  And a
    call of either engine that does return a container returns one that
    has the PET and none of the intermediate results the engine drops. *)
Theorem lookup_failure_propagates :
  (forall h l df coords crs alt_unit e,
      h !! l = Some df ->
      point_ready df alt_unit ->
      elevation_bycoords [coords] crs = inl e ->
      pet_bycoords elevation_bycoords l coords crs alt_unit h
      = (inl e, <[l := table_at_lookup df alt_unit]> h)
      /\ tmean_c ∈ al_keys (df_columns (table_at_lookup df alt_unit)))
  /\ (forall h l ds res_attr res crs e,
      h !! l = Some ds ->
      _check_requirements
        (PyIter ["tmin"; "tmax"; "lat"; "lon"; "vp"; "srad"; "dayl"])
        (al_keys (ds_vars ds)) = inr tt ->
      al_get "res" (ds_attrs ds) = Some res_attr ->
      resolution res_attr = inr res ->
      al_get "crs" (ds_attrs ds) = Some crs ->
      elevation_bygrid (ds_x ds) (ds_y ds) crs res = inl e ->
      pet_bygrid elevation_bygrid l h = (inl e, <[l := caller_dataset ds]> h))
  /\ (forall h l coords crs alt_unit,
      match pet_bycoords elevation_bycoords l coords crs alt_unit h with
      | (inr l', h') =>
          exists out, h' !! l' = Some out
                      /\ pet_mmday ∈ al_keys (df_columns out)
                      /\ tmean_c ∉ al_keys (df_columns out)
      | (inl _, _) => True
      end)
  /\ (forall h l,
      match pet_bygrid elevation_bygrid l h with
      | (inr l', h') =>
          exists out, h' !! l' = Some out
                      /\ "pet" ∈ al_keys (ds_vars out)
                      /\ forall n, n ∈ drop_list -> n ∉ al_keys (ds_vars out)
      | (inl _, _) => True
      end).
Proof.
  split; [|split; [|split]].
  - intros h l df coords crs alt_unit e Hl Hreq Hsvc. split.
    + by apply (pet_bycoords_at_lookup elevation_bycoords h l df coords crs alt_unit
                  (inl e) Hl Hreq Hsvc).
    + apply al_keys_set_same.
  - intros. by eapply pet_bygrid_lookup_fails.
  - intros. apply pet_bycoords_total.
  - intros. apply pet_bygrid_total.
Qed.
End BothEngines.

(** ** The exact arithmetic obeys the laws *)

#[export] Instance exact_laws : NumericLaws Rnan.
Proof.
  split.
  - intros [a|] [b|]; simpl; try done. f_equal. apply Rmult_comm.
  - intros [a|]; [|done]. cbv [mul div lit exact lift2 Q2R Qnum Qden]. f_equal. lra.
  - intros p q Hpq. simpl. f_equal. by apply Qreals.Qeq_eqR.
Qed.

#[export] Instance exact_division : ExactDivision Rnan.
Proof.
  intros [a|] [b|] [c|]; simpl; try done. f_equal. unfold Rdiv. apply Rmult_assoc.
Qed.

#[export] Instance exact_nan : NanLaws Rnan.
Proof.
  split; try done.
  - by intros [a|] [b|].
  - by intros [a|] [b|].
  - by intros [a|] [b|].
  - by intros [a|] [b|].
  - by intros [a|] [b|].
  - by intros [a|] [b|].
  - by intros [a|].
Qed.

(** In exact arithmetic the rescaling of the vapour pressure is undone. *)
Lemma vp_restored_exact (v : Rnan) : Row.vp_restored v = v.
Proof.
  destruct v as [r|]; [|done].
  cbv [Row.vp_restored Row.vp_kpa mul lit exact lift2]. f_equal.
  rewrite (Qreals.Qeq_eqR 1e-3 (Qmake 1 1000)), (Qreals.Qeq_eqR 1.0e3 (Qmake 1000 1))
    by reflexivity.
  cbv [Q2R Qnum Qden]. lra.
Qed.

Lemma sample_grid_ready tmin :
  grid_ready Sample.grid_service (Sample.dataset_of tmin) "tmin" Sample.elev.
Proof.
  split.
  - reflexivity.
  - reflexivity.
  - eexists. split; [reflexivity|done].
  - eexists _, _, _. repeat split; reflexivity.
  - intros Hin. apply list_elem_of_In in Hin. simpl in Hin.
    repeat destruct Hin as [Hin|Hin]; try discriminate. done.
Defined.

Lemma sample_store (df : DataFrame Rnan) :
  ({[1%nat := df]} : gmap loc (DataFrame Rnan)) !! 1%nat = Some df.
Proof. apply lookup_singleton_eq. Defined.

Lemma sample_grid_store (ds : Dataset Rnan) :
  ({[1%nat := ds]} : gmap loc (Dataset Rnan)) !! 1%nat = Some ds.
Proof. apply lookup_singleton_eq. Defined.

(** ** The theorems at the sample inputs *)

Lemma pet_bycoords_fao56_witness :
  exists l' h',
    pet_bycoords Sample.point_service 1%nat Sample.coords "epsg:4326" false
      {[1%nat := Sample.table]} = (inr l', h').
Proof.
  destruct (pet_bycoords_fao56 Sample.point_service {[1%nat := Sample.table]} 1%nat
              Sample.table Sample.coords "epsg:4326" false [lit 200] (lit 200))
    as (l' & h' & out & pet & Hrun & _).
  - apply sample_store.
  - reflexivity.
  - reflexivity.
  - reflexivity.
  - by exists l', h'.
Defined.

Lemma pet_bycoords_aliasing_witness :
  exists l' h',
    pet_bycoords Sample.point_service 1%nat Sample.coords "epsg:4326" false
      {[1%nat := Sample.table]} = (inr l', h')
    /\ l' <> 1%nat.
Proof.
  destruct (pet_bycoords_aliasing Sample.point_service {[1%nat := Sample.table]} 1%nat
              Sample.table Sample.coords "epsg:4326" false [lit 200] (lit 200))
    as (l' & h' & out & df' & Hrun & Hne & _).
  - apply sample_store.
  - reflexivity.
  - reflexivity.
  - reflexivity.
  - by exists l', h'.
Defined.

Lemma pet_bygrid_time_axis_witness :
  exists l' h' out,
    pet_bygrid Sample.grid_service 1%nat {[1%nat := Sample.dataset]} = (inr l', h')
    /\ h' !! l' = Some out
    /\ ds_time out = Dates [Sample.july1; Sample.july2].
Proof.
  apply (pet_bygrid_time_axis Sample.grid_service {[1%nat := Sample.dataset]} 1%nat
           Sample.dataset "tmin" Sample.elev).
  - apply sample_grid_store.
  - apply sample_grid_ready.
Defined.


Lemma pet_bygrid_variables_witness :
  exists l' h' out,
    pet_bygrid Sample.grid_service 1%nat {[1%nat := Sample.dataset]} = (inr l', h')
    /\ h' !! l' = Some out
    /\ al_keys (ds_vars out)
       = ["tmin"; "tmax"; "lat"; "lon"; "vp"; "srad"; "dayl"; "elevation"; "pet"].
Proof.
  apply (pet_bygrid_variables Sample.grid_service {[1%nat := Sample.dataset]} 1%nat
           Sample.dataset "tmin" Sample.elev).
  - apply sample_grid_store.
  - apply sample_grid_ready.
  - intros n Hn Hin.
    apply list_elem_of_In in Hn. apply list_elem_of_In in Hin.
    simpl in Hn, Hin.
    repeat destruct Hn as [Hn|Hn]; try done; subst n;
      repeat destruct Hin as [Hin|Hin]; try done; discriminate.
Defined.

Lemma vapor_pressure_restored_witness :
  exists l' h' out vp,
    pet_bycoords Sample.point_service 1%nat Sample.coords "epsg:4326" false
      {[1%nat := Sample.table]} = (inr l', h')
    /\ h' !! l' = Some out
    /\ al_get va_pa (df_columns out) = Some vp
    /\ vp 0%nat = mul (mul (lit 1500) (lit 1e-3)) (lit 1.0e3).
Proof.
  destruct (vapor_pressure_restored Sample.point_service Sample.grid_service)
    as [Hpoint _].
  destruct (Hpoint {[1%nat := Sample.table]} 1%nat Sample.table Sample.coords
              "epsg:4326" false [lit 200] (lit 200))
    as (l' & h' & out & vp & Hrun & Hout & Hvp & Hval).
  - apply sample_store.
  - reflexivity.
  - reflexivity.
  - reflexivity.
  - exists l', h', out, vp. repeat split; [done..|]. apply Hval.
Defined.



Lemma lookup_failure_propagates_witness :
  pet_bycoords Sample.point_service_down 1%nat Sample.coords "epsg:4326" false
    {[1%nat := Sample.table]}
  = (inl (ServiceError "no elevation"),
     <[1%nat := table_at_lookup Sample.table false]> {[1%nat := Sample.table]})
  /\ pet_bygrid Sample.grid_service_down 1%nat {[1%nat := Sample.dataset]}
     = (inl (ServiceError "no elevation"),
        <[1%nat := caller_dataset Sample.dataset]> {[1%nat := Sample.dataset]}).
Proof.
  destruct (lookup_failure_propagates Sample.point_service_down Sample.grid_service_down)
    as (Hpoint & Hgrid & _).
  split.
  - apply (Hpoint {[1%nat := Sample.table]} 1%nat Sample.table Sample.coords
             "epsg:4326" false (ServiceError "no elevation")).
    + apply sample_store.
    + reflexivity.
    + reflexivity.
  - apply (Hgrid {[1%nat := Sample.dataset]} 1%nat Sample.dataset
             (AttrNums [lit 1]) (mul (lit 1) (lit 1.0e3)) (AttrStr "epsg:4326")).
    + apply sample_grid_store.
    + reflexivity.
    + reflexivity.
    + reflexivity.
    + reflexivity.
    + reflexivity.
Defined.

Lemma net_longwave_unclamped_witness :
  (exists l' h' out pet,
      pet_bygrid Sample.grid_service 1%nat {[1%nat := Sample.dataset]} = (inr l', h')
      /\ h' !! l' = Some out
      /\ al_get "pet" (ds_vars out) = Some pet)
  /\ (forall tmax tmin vp_kPa surface clearSky : Rnan,
        FAO56.netLongwaveOf tmax tmin vp_kPa surface clearSky
        = FAO56.netLongwave tmax tmin vp_kPa (div surface clearSky)).
Proof.
  destruct (net_longwave_unclamped Sample.point_service Sample.grid_service)
    as (_ & Hgrid & Hexact).
  split; [|exact (Hexact exact_division)].
  destruct (Hgrid {[1%nat := Sample.dataset]} 1%nat Sample.dataset "tmin" Sample.elev)
    as (l' & h' & out & pet & Hrun & Hout & Hpet & _).
  - apply sample_grid_store.
  - apply sample_grid_ready.
  - exists l', h', out, pet. split; [exact Hrun|split; [exact Hout|exact Hpet]].
Defined.

(** ** Where the specification says more than the code does *)

(** C3, as stated, fails in binary64: a vapour pressure of 346 Pa comes
    back as 346.00000000000006. *)
Lemma vapor_pressure_not_restored :
  exists l' h' out vp,
    @pet_bycoords float (binary64 libm_absent) Sample.point_service64 1%nat
      (float_lit (-100), float_lit 40) "epsg:4326" false {[1%nat := Sample.table64]}
    = (inr l', h')
    /\ h' !! l' = Some out
    /\ al_get va_pa (df_columns out) = Some vp
    /\ vp 0%nat <> @col float (binary64 libm_absent) Sample.table64 va_pa 0%nat.
Proof.
  eexists _, _, _, _. split.
  { eapply (@pet_bycoords_run float (binary64 libm_absent));
      [apply lookup_singleton_eq|reflexivity..]. }
  split; [apply lookup_insert_eq|].
  split; [apply (@returned_vp float (binary64 libm_absent))|].
  intros Heq.
  apply (f_equal (PrimFloat.eqb (float_lit 346))) in Heq.
  vm_compute in Heq. discriminate.
Qed.



(** C9, as stated, fails in binary64.  On April 27, 2000, at 40 degrees
    north and 200 m, a surface radiation of 6 MJ/m2/day is 0.214 of the
    clear-sky radiation: the ratio is below 0.3 and enters the term as it
    is.  But the term of the source, -0.38753730115211166, is not the
    expression of the claim, -0.38753730115211205: [1.35 * 6 / 28.04...]
    and [1.35 * (6 / 28.04...)] differ in the last place. *)
Lemma net_longwave_ratio_rounded :
  let F64 := binary64 Sample.libm_april in
  let value := fun name => @col float F64 Sample.table_april64 name 0%nat in
  let tmax := value (tmax_c false) in
  let tmin := value (tmin_c false) in
  let vp := value va_pa in
  let srad := value (srad_wm2 false) in
  let dayl := value dayl_s in
  let lat := Sample.coords64.2 in
  let elevation := float_lit 200 in
  let day := @jday float F64 Sample.table_april64 0%nat in
  let surface := @Row.r_surf float F64 srad dayl in
  let clearSky := @Row.rad_s float F64 lat day elevation in
  let term := @Row.rad_nl float F64 tmax tmin vp srad dayl lat day elevation in
  exists l' h' out pet,
    @pet_bycoords float F64 Sample.point_service64 1%nat Sample.coords64 "epsg:4326"
      false {[1%nat := Sample.table_april64]} = (inr l', h')
    /\ h' !! l' = Some out
    /\ al_get pet_mmday (df_columns out) = Some pet
    /\ pet 0%nat
       = @Row.pet_from float F64 (PrimFloat.sub (@Row.rad_ns float F64 srad dayl) term)
           tmax tmin vp elevation
    /\ PrimFloat.ltb (PrimFloat.div surface clearSky) (float_lit 0.3) = true
    /\ term
       <> @FAO56.netLongwave float F64 tmax tmin (@Row.vp_kpa float F64 vp)
            (PrimFloat.div surface clearSky).
Proof.
  cbv zeta. eexists _, _, _, _. split.
  { eapply (@pet_bycoords_run float (binary64 Sample.libm_april));
      [apply lookup_singleton_eq|reflexivity..]. }
  split; [apply lookup_insert_eq|].
  split; [apply (@returned_pet float (binary64 Sample.libm_april))|].
  split; [reflexivity|]. split; [by vm_compute|].
  intros Heq.
  apply (f_equal (PrimFloat.eqb (-0x1.8cd69409b6b47p-2)%float)) in Heq.
  vm_compute in Heq. discriminate.
Qed.


(** * The other functions of the module *)

(** ** Checking dates *)

(** [check_dates] accepts an integer, a list whatever its length and
    its elements, and a tuple of exactly two elements whatever they are;
    a tuple of another length and every other value are refused, with two
    different errors. *)
Lemma check_dates_spec (dates : pyval) :
  match dates with
  | VInt _ | VList _ | VTuple [_; _] => check_dates dates = inr tt
  | VTuple _ =>
      check_dates dates
      = inl (Raised (InvalidInputType "dates"
               "Start and end should be passed as a tuple of length 2."))
  | _ =>
      check_dates dates
      = inl (InvalidInputType3 "dates" "tuple, list, or int"
               "(start, end), year, or [years, ...]")
  end.
Proof.
  destruct dates as [n|s|items|items|]; try reflexivity.
  destruct items as [|a [|b [|c items]]]; reflexivity.
Qed.

Section DatesFacts.
Variable to_datetime : pyval -> raised + Timestamp.

Lemma ts_ltb_1980 (ts : Timestamp) :
  (1 <= month ts)%Z -> (1 <= day ts)%Z ->
  ts_ltb ts jan_1_1980 = true <-> (year ts < 1980)%Z.
Proof.
  intros Hm Hd. unfold ts_ltb, jan_1_1980. cbn [year month day].
  rewrite orb_true_iff, !andb_true_iff, orb_true_iff, andb_true_iff.
  rewrite !Z.ltb_lt, !Z.eqb_eq. lia.
Qed.

(** X1.  [dates_todict] takes a pair of values that pandas reads as days:
    it refuses a start before 1980 and otherwise returns the two days
    printed as year-month-day.  The end is not compared with anything:
    it may precede the start or lie outside the range the error message
    names. *)
Theorem dates_todict_range (d0 d1 : pyval) (start end_ : Timestamp) :
  to_datetime d0 = inr start ->
  to_datetime d1 = inr end_ ->
  to_datetime (VStr "1980-01-01") = inr jan_1_1980 ->
  (1 <= month start)%Z -> (1 <= day start)%Z ->
  dates_todict to_datetime (VTuple [d0; d1])
  = if (year start <? 1980)%Z
    then inl (InvalidInputRange "Daymet database ranges from 1980 to 2019.")
    else inr [("start", strftime start); ("end", strftime end_)].
Proof.
  intros H0 H1 Hfirst Hm Hd. unfold dates_todict. cbn [is_tuple len length negb orb Nat.eqb].
  rewrite H0, H1, Hfirst.
  destruct (ts_ltb start jan_1_1980) eqn:Hlt.
  - apply ts_ltb_1980 in Hlt; [|done..]. apply Z.ltb_lt in Hlt. by rewrite Hlt.
  - destruct (year start <? 1980)%Z eqn:Hy; [|done].
    apply Z.ltb_lt, ts_ltb_1980 in Hy; [|done..]. congruence.
Qed.

(** X2.  A list of two dates passes [check_dates] and is refused by
    [dates_todict], which wants a tuple: so is every value that is not a
    tuple of two elements, before pandas is asked to read anything. *)
Theorem dates_todict_wants_a_pair (dates : pyval) :
  (forall a b, dates <> VTuple [a; b]) ->
  dates_todict to_datetime dates = inl (InvalidInputType3 "dates" "tuple" "(start, end)")
  /\ ((exists items, dates = VList items) -> check_dates dates = inr tt).
Proof.
  intros Hne. split.
  - destruct dates as [n|s|items|items|]; try reflexivity.
    destruct items as [|a [|b [|c items]]]; try reflexivity.
    by destruct (Hne a b).
  - by intros [items ->].
Qed.
End DatesFacts.

(** ** Years *)

Lemma comma_free_uint (d : Decimal.uint) : comma_free (NilEmpty.string_of_uint d) = true.
Proof. induction d; simpl; auto. Qed.

Lemma comma_free_str (n : Z) : comma_free (str n) = true.
Proof.
  unfold str, NilZero.string_of_int, NilZero.string_of_uint.
  destruct (Z.to_int n) as [d|d]; destruct d; try reflexivity;
    try apply (comma_free_uint (_ d)); simpl; apply comma_free_uint.
Qed.

Lemma str_split_comma_free (s : string) :
  comma_free s = true -> str_split "," s = [s].
Proof.
  induction s as [|c s IH]; [done|]. simpl.
  intros [Hc Hs]%andb_true_iff. apply negb_true_iff in Hc.
  rewrite Hc, IH by done. done.
Qed.

Lemma str_split_append (s rest : string) :
  comma_free s = true ->
  str_split "," (s ++ String "," rest) = s :: str_split "," rest.
Proof.
  induction s as [|c s IH]; [done|]. simpl.
  intros [Hc Hs]%andb_true_iff. apply negb_true_iff in Hc.
  rewrite Hc, IH by done. done.
Qed.

Lemma str_split_concat (l : list string) :
  l <> [] -> Forall (fun s => comma_free s = true) l ->
  str_split "," (String.concat "," l) = l.
Proof.
  induction l as [|s [|s' l] IH]; [done| |].
  - intros _ Hall. apply Forall_cons in Hall as [Hs _].
    simpl. by apply str_split_comma_free.
  - intros _ Hall. apply Forall_cons in Hall as [Hs Hall].
    change (String.concat "," (s :: s' :: l))
      with (s ++ String "," (String.concat "," (s' :: l))).
    rewrite str_split_append by done. f_equal. by apply IH.
Qed.

Lemma to_int_nonnil (n : Z) : Z.to_int n <> Decimal.Pos Decimal.Nil /\ Z.to_int n <> Decimal.Neg Decimal.Nil.
Proof.
  destruct n as [|p|p]; simpl; split; try discriminate.
  - intros [= H]. by apply Unsigned.to_uint_nonnil in H.
  - intros [= H]. by apply Unsigned.to_uint_nonnil in H.
Qed.

(** [int] reads back what [str] prints. *)
Lemma int_str (n : Z) : int (str n) = inr n.
Proof.
  unfold int, str. destruct (to_int_nonnil n) as [H1 H2].
  rewrite NilZero.isi by done. by rewrite DecimalZ.of_to.
Qed.

(** X3.  The string [years_todict] builds from a list of years that is not
    empty can be taken apart again: splitting it at the commas and reading
    the pieces with [int], as [years_tolist] does, gives the years back. *)
Theorem years_todict_round_trip (ys : list Z) :
  ys <> [] ->
  exists names,
    al_get "years" (years_todict (inr ys)) = Some names
    /\ names = String.concat "," (map str ys)
    /\ map int (str_split "," names) = map inr ys.
Proof.
  intros Hne. eexists. split; [reflexivity|]. split; [reflexivity|].
  rewrite str_split_concat.
  - rewrite map_map. apply map_ext. intros y. apply int_str.
  - by destruct ys.
  - apply Forall_forall. intros s Hs. apply list_elem_of_In, in_map_iff in Hs.
    destruct Hs as [y [<- _]]. apply comma_free_str.
Qed.

Section YearsFacts.
Variable to_datetime : pyval -> raised + Timestamp.

Lemma years_loop_periods (ys : list Z) :
  (forall y, y ∈ ys -> reads_year to_datetime y) ->
  years_loop to_datetime (map str ys) = inr (map period ys).
Proof.
  induction ys as [|y ys IH]; [done|].
  intros Hread. destruct (Hread y) as (H1 & H30 & H31); [left|].
  cbn [map years_loop]. rewrite H1, int_str.
  rewrite IH by (intros y' Hy'; apply Hread; by right).
  unfold period. by destruct (is_leap_year y); rewrite ?H30, ?H31.
Qed.

Lemma years_tolist_run (ys : list Z) :
  ys <> [] ->
  (forall y, y ∈ ys -> reads_year to_datetime y) ->
  years_tolist to_datetime (inr ys) = inr (map period ys).
Proof.
  intros Hne Hread. unfold years_tolist, years_todict. cbn [al_get String.eqb Ascii.eqb Bool.eqb].
  rewrite str_split_concat.
  - by apply years_loop_periods.
  - by destruct ys.
  - apply Forall_forall. intros s Hs. apply list_elem_of_In, in_map_iff in Hs.
    destruct Hs as [y [<- _]]. apply comma_free_str.
Qed.

(** X4.  For years that pandas reads, [years_tolist] returns one period
    per year in the order given, from January 1 at noon to December 31 at
    noon, or to December 30 at noon when the year is a leap year. *)
Theorem years_tolist_periods (ys : list Z) :
  ys <> [] ->
  (forall y, y ∈ ys -> reads_year to_datetime y) ->
  years_tolist to_datetime (inr ys) = inr (map period ys).
Proof. apply years_tolist_run. Qed.

Lemma period_days (y : Z) :
  dayofyear (dt_day (period y).1) = 1%Z /\ dayofyear (dt_day (period y).2) = 365%Z.
Proof.
  unfold period, dayofyear. cbn [fst snd noon dt_day january_1 december year month day].
  split.
  - by destruct (is_leap_year y).
  - by destruct (is_leap_year y).
Qed.

(** X5.  Every period [years_tolist] returns starts on the first and ends
    on the 365th day of one year, at noon on both days: a leap year is cut
    by its last day. *)
Theorem years_tolist_365_days (ys : list Z) periods :
  ys <> [] ->
  (forall y, y ∈ ys -> reads_year to_datetime y) ->
  years_tolist to_datetime (inr ys) = inr periods ->
  length periods = length ys
  /\ forall s e, (s, e) ∈ periods ->
       dayofyear (dt_day s) = 1%Z
       /\ dayofyear (dt_day e) = 365%Z
       /\ year (dt_day s) = year (dt_day e)
       /\ dt_hour s = 12%Z /\ dt_hour e = 12%Z.
Proof.
  intros Hne Hread Hrun. rewrite years_tolist_run in Hrun by done.
  injection Hrun as <-. split; [apply length_map|].
  intros s e Hin. apply list_elem_of_In, in_map_iff in Hin.
  destruct Hin as (y & Heq & _).
  destruct (period_days y) as [H1 H365]. rewrite Heq in H1, H365.
  cbn [fst snd] in H1, H365. split; [done|]. split; [done|].
  unfold period in Heq. injection Heq as <- <-. done.
Qed.

(** X6.  An empty list of years does not give an empty list of periods:
    the loop runs once on the empty name, and raises, whatever pandas makes
    of the string ["0101"]. *)
Theorem years_tolist_empty :
  years_tolist to_datetime (inr [])
  = match to_datetime (VStr "0101") with
    | inl e => inl e
    | inr _ => inl (ValueError EmptyString)
    end.
Proof. cbv. by destruct (to_datetime _). Qed.
End YearsFacts.

(** ** The constructor *)

Lemma check_input_validity_inr inp valid r :
  check_input_validity inp valid = inr r <-> r = inp /\ inp ∈ valid.
Proof.
  unfold check_input_validity. destruct (contains valid inp) eqn:E; simpl.
  - apply contains_true in E. split; [intros [= <-]|intros [-> _]]; done.
  - apply contains_false in E. split; [done|]. by intros [_ ?].
Qed.

Lemma issubset_spec a b : issubset a b = true <-> forall x, x ∈ a -> x ∈ b.
Proof.
  unfold issubset. rewrite forallb_forall. split.
  - intros H x Hx. apply contains_true, H. by apply list_elem_of_In.
  - intros H x Hx. apply contains_true, H. by apply list_elem_of_In.
Qed.

Lemma Daymet_init_inr_iff vars pet time_scale_ region_ :
  (exists d, Daymet_init vars pet time_scale_ region_ = inr d)
  <-> region_ ∈ valid_regions
      /\ time_scale_ ∈ ["daily"; "monthly"; "annual"]
      /\ (vars = NoVariables
          \/ ((forall v, v ∈ names_of vars -> v ∈ valid_variables)
              /\ (pet = true -> time_scale_ = "daily"))).
Proof.
  unfold Daymet_init.
  destruct (check_input_validity region_ valid_regions) as [e|r] eqn:Hr.
  { split; [by intros [d ?]|]. intros (Hreg & _).
    assert (check_input_validity region_ valid_regions = inr region_) as Hok
      by (by apply check_input_validity_inr).
    congruence. }
  apply check_input_validity_inr in Hr as [-> Hreg].
  destruct (check_input_validity time_scale_ (al_keys time_codes)) as [e|ts] eqn:Hts.
  { split; [by intros [d ?]|]. intros (_ & Hscale & _).
    assert (check_input_validity time_scale_ (al_keys time_codes) = inr time_scale_) as Hok
      by (by apply check_input_validity_inr).
    congruence. }
  apply check_input_validity_inr in Hts as [-> Hscale].
  destruct vars as [|name|names].
  - split; [|by eauto]. intros _. split; [done|]. split; [done|]. by left.
  - cbn [names_of].
    destruct (issubset [name] valid_variables) eqn:Hsub; cbn [negb].
    + pose proof (proj1 (issubset_spec _ _) Hsub) as Hall.
      destruct pet; [destruct (String.eqb_spec time_scale_ "daily") as [->|Hne]|];
        cbn [negb].
      * split; [|by eauto]. intros _. repeat split; try done. by right.
      * split; [by intros [d ?]|]. intros (_ & _ & [?|[_ Hd]]); [done|]. by destruct Hne; apply Hd.
      * split; [|by eauto]. intros _. repeat split; try done. by right.
    + split; [by intros [d ?]|]. intros (_ & _ & [?|[Hv _]]); [done|].
      apply (proj2 (issubset_spec _ _)) in Hv. congruence.
  - cbn [names_of].
    destruct (issubset names valid_variables) eqn:Hsub; cbn [negb].
    + pose proof (proj1 (issubset_spec _ _) Hsub) as Hall.
      destruct pet; [destruct (String.eqb_spec time_scale_ "daily") as [->|Hne]|];
        cbn [negb].
      * split; [|by eauto]. intros _. repeat split; try done. by right.
      * split; [by intros [d ?]|]. intros (_ & _ & [?|[_ Hd]]); [done|]. by destruct Hne; apply Hd.
      * split; [|by eauto]. intros _. repeat split; try done. by right.
    + split; [by intros [d ?]|]. intros (_ & _ & [?|[Hv _]]); [done|].
      apply (proj2 (issubset_spec _ _)) in Hv. congruence.
Qed.

(** X7.  The constructor succeeds exactly when the region is one of na, hi
    and pr, the time scale one of daily, monthly and annual, and, if
    variables are given, all of them are valid variables and PET is asked
    for at the daily scale only.  When no variables are given the time
    scale is not checked against PET. *)
Theorem Daymet_init_accepts vars pet time_scale_ region_ :
  (exists d, Daymet_init vars pet time_scale_ region_ = inr d)
  <-> region_ ∈ valid_regions
      /\ time_scale_ ∈ ["daily"; "monthly"; "annual"]
      /\ (vars = NoVariables
          \/ ((forall v, v ∈ names_of vars -> v ∈ valid_variables)
              /\ (pet = true -> time_scale_ = "daily"))).
Proof.
  apply Daymet_init_inr_iff.
Qed.

(** X8.  The constructor checks its arguments in a fixed order and the
    first failure decides the error: the region, then the time scale, then
    the variables, then the time scale against PET. *)
Theorem Daymet_init_errors vars pet time_scale_ region_ :
  (region_ ∉ valid_regions ->
     Daymet_init vars pet time_scale_ region_
     = inl (InvalidInputValue region_ valid_regions))
  /\ (region_ ∈ valid_regions ->
      time_scale_ ∉ ["daily"; "monthly"; "annual"] ->
      Daymet_init vars pet time_scale_ region_
      = inl (InvalidInputValue time_scale_ ["daily"; "monthly"; "annual"]))
  /\ (region_ ∈ valid_regions ->
      time_scale_ ∈ ["daily"; "monthly"; "annual"] ->
      vars <> NoVariables ->
      ~ (forall v, v ∈ names_of vars -> v ∈ valid_variables) ->
      Daymet_init vars pet time_scale_ region_
      = inl (InvalidInputValue "variables" valid_variables))
  /\ (region_ ∈ valid_regions ->
      time_scale_ ∈ ["daily"; "monthly"; "annual"] ->
      vars <> NoVariables ->
      (forall v, v ∈ names_of vars -> v ∈ valid_variables) ->
      pet = true -> time_scale_ <> "daily" ->
      Daymet_init vars pet time_scale_ region_
      = inl (InvalidInputRange
               "PET can only be computed at daily scale i.e., time_scale must be daily.")).
Proof.
  assert (forall inp valid, inp ∈ valid -> check_input_validity inp valid = inr inp) as Hok.
  { intros inp valid Hin. by apply check_input_validity_inr. }
  assert (forall inp valid, inp ∉ valid ->
            check_input_validity inp valid = inl (InvalidInputValue inp valid)) as Hbad.
  { intros inp valid Hin. unfold check_input_validity.
    apply contains_false in Hin. by rewrite Hin. }
  unfold Daymet_init. split; [|split; [|split]].
  - intros Hreg. by rewrite Hbad.
  - intros Hreg Hscale. rewrite Hok by done. by rewrite Hbad.
  - intros Hreg Hscale Hvars Hinvalid. rewrite !Hok by done.
    assert (issubset (names_of vars) valid_variables = false) as Hsub.
    { apply not_true_is_false. by rewrite issubset_spec. }
    destruct vars; [done|..]; cbn [names_of] in *; by rewrite Hsub.
  - intros Hreg Hscale Hvars Hvalid -> Hdaily. rewrite !Hok by done.
    apply issubset_spec in Hvalid. apply String.eqb_neq in Hdaily.
    destruct vars; [done|..]; cbn [names_of] in *; by rewrite Hvalid, Hdaily.
Qed.


(** X10.  Without variables the object has the seven variables of the
    table, hence those PET needs, at any of the three time scales: asking
    for PET at the monthly or annual scale is not refused there. *)
Theorem Daymet_init_default pet time_scale_ region_ :
  region_ ∈ valid_regions ->
  time_scale_ ∈ ["daily"; "monthly"; "annual"] ->
  Daymet_init NoVariables pet time_scale_ region_
  = inr {| region := region_; time_scale := time_scale_;
           variables := ["dayl"; "prcp"; "srad"; "swe"; "tmax"; "tmin"; "vp"] |}.
Proof.
  intros Hreg Hscale. unfold Daymet_init.
  rewrite (proj2 (check_input_validity_inr region_ valid_regions region_)) by done.
  by rewrite (proj2 (check_input_validity_inr time_scale_ (al_keys time_codes) time_scale_)).
Qed.

(** Without PET the variables given are kept as they are, in their
    order and with their repetitions. *)
Lemma Daymet_init_keeps_variables names time_scale_ region_ d :
  Daymet_init (Variables names) false time_scale_ region_ = inr d ->
  variables d = names /\ region d = region_ /\ time_scale d = time_scale_.
Proof.
  intros Hrun.
  destruct (proj1 (Daymet_init_inr_iff (Variables names) false time_scale_ region_))
    as (Hreg & Hscale & [?|[Hvalid _]]); [by eauto|done|].
  unfold Daymet_init in Hrun.
  rewrite (proj2 (check_input_validity_inr region_ valid_regions region_)) in Hrun by done.
  rewrite (proj2 (check_input_validity_inr time_scale_ (al_keys time_codes) time_scale_))
    in Hrun by done.
  apply issubset_spec in Hvalid. cbn [names_of] in Hvalid, Hrun. rewrite Hvalid in Hrun.
  by injection Hrun as <-.
Qed.

(** ** More on the two engines *)

Section EngineFacts.
Context {F : Type} {num : Numeric F}.
Variable elevation_bycoords : list (F * F) -> string -> result (list F).
Variable elevation_bygrid : list F -> list F -> attr F -> F -> result (nat -> nat -> F).

(** X11.  The point engine leaves the index and every column other than
    the vapour pressure, the PET and the mean temperature as they were in
    the table passed. *)
Theorem pet_bycoords_frame h l df coords crs alt_unit elevs elevation :
  h !! l = Some df ->
  point_ready df alt_unit ->
  elevation_bycoords [coords] crs = inr elevs ->
  item0 elevs = inr elevation ->
  exists l' h' out,
    pet_bycoords elevation_bycoords l coords crs alt_unit h = (inr l', h')
    /\ h' !! l' = Some out
    /\ df_index out = df_index df
    /\ (forall name, name <> tmean_c -> name <> pet_mmday -> name <> va_pa ->
          al_get name (df_columns out) = al_get name (df_columns df))
    /\ (forall l0, l0 <> l -> l0 <> l' -> h' !! l0 = h !! l0).
Proof.
  intros Hl Hreq Hsvc Helev. eexists _, _, _. split.
  { by eapply pet_bycoords_run. }
  split; [apply lookup_insert_eq|]. split; [done|]. split.
  - intros name H1 H2 H3. by apply returned_other.
  - intros l0 H1 H2. by rewrite !lookup_insert_ne.
Qed.

Lemma returned_other_var (ds : Dataset F) key0 elev name :
  name ∉ working_names -> name <> "elevation" -> name <> "vp" ->
  al_get name (ds_vars (returned_dataset ds key0 elev)) = al_get name (ds_vars ds).
Proof.
  intros Hwork He Hvp.
  assert (forall n, n ∈ working_names -> name <> n) as Hne
    by (intros n Hn ->; done).
  rewrite returned_var.
  - unfold final_vars, caller_vars. cbv zeta.
    rewrite !al_get_set_ne; [done|first [done|apply Hne; in_names]..].
  - unfold drop_list. intros Hin. apply Hwork.
    apply list_elem_of_In in Hin. apply list_elem_of_In. simpl in *. tauto.
Qed.

(** X12.  The grid engine leaves the coordinates, the attributes of the
    dataset and every variable that is neither the vapour pressure nor one
    of the names it uses as they were; the vapour pressure keeps its
    attributes, and the PET carries the unit attribute mm/day. *)
Theorem pet_bygrid_frame h l ds key0 elev :
  h !! l = Some ds ->
  grid_ready elevation_bygrid ds key0 elev ->
  exists l' h' out vp pet,
    pet_bygrid elevation_bygrid l h = (inr l', h')
    /\ h' !! l' = Some out
    /\ ds_x out = ds_x ds /\ ds_y out = ds_y ds /\ ds_attrs out = ds_attrs ds
    /\ (forall name, name ∉ working_names -> name <> "elevation" -> name <> "vp" ->
          al_get name (ds_vars out) = al_get name (ds_vars ds))
    /\ al_get "vp" (ds_vars out) = Some vp
    /\ da_attrs vp = var_attrs ds "vp"
    /\ al_get "pet" (ds_vars out) = Some pet
    /\ da_attrs pet = [("units", "mm/day")].
Proof.
  intros Hl Hready. eexists _, _, _, _, _. split.
  { by eapply pet_bygrid_run. }
  split; [apply lookup_insert_eq|]. do 3 (split; [done|]).
  split; [intros name H1 H2 H3; by apply returned_other_var|].
  split; [apply returned_vp_var|]. split; [done|].
  split; [apply returned_pet_var|]. done.
Qed.

Lemma check_requirements_missing reqs cols :
  missing_from reqs cols <> [] ->
  _check_requirements (PyIter reqs) cols = inl (MissingItems (missing_from reqs cols)).
Proof.
  unfold _check_requirements, missing_from. cbn [isinstance_Iterable negb iterate].
  by destruct (List.filter _ reqs).
Qed.

Lemma pet_bygrid_missing h l (ds : Dataset F) e :
  h !! l = Some ds ->
  _check_requirements
    (PyIter ["tmin"; "tmax"; "lat"; "lon"; "vp"; "srad"; "dayl"])
    (al_keys (ds_vars ds)) = inl e ->
  pet_bygrid elevation_bygrid l h = (inl e, h).
Proof.
  intros Hl Hreq. unfold pet_bygrid.
  run_with ltac:(eapply run_keys; exact Hl).
  erewrite bind_inl; [done|]. unfold lift. by rewrite Hreq.
Qed.

(** X13.  When a required column or variable is absent, each engine raises
    the missing-items error with exactly the absent names, in the order the
    engine requires them, before it assigns anything: the store is as it
    was, and the elevation service has not been asked. *)
Theorem engines_require h_p l_p df coords crs alt_unit h_g l_g ds :
  (h_p !! l_p = Some df ->
   missing_from [tmin_c alt_unit; tmax_c alt_unit; va_pa; srad_wm2 alt_unit; dayl_s]
     (al_keys (df_columns df)) <> [] ->
   pet_bycoords elevation_bycoords l_p coords crs alt_unit h_p
   = (inl (MissingItems
             (missing_from
                [tmin_c alt_unit; tmax_c alt_unit; va_pa; srad_wm2 alt_unit; dayl_s]
                (al_keys (df_columns df)))), h_p))
  /\ (h_g !! l_g = Some ds ->
      missing_from ["tmin"; "tmax"; "lat"; "lon"; "vp"; "srad"; "dayl"]
        (al_keys (ds_vars ds)) <> [] ->
      pet_bygrid elevation_bygrid l_g h_g
      = (inl (MissingItems
                (missing_from ["tmin"; "tmax"; "lat"; "lon"; "vp"; "srad"; "dayl"]
                   (al_keys (ds_vars ds)))), h_g)).
Proof.
  split.
  - intros Hl Hmiss. eapply pet_bycoords_missing; [done|].
    by apply check_requirements_missing.
  - intros Hl Hmiss. eapply pet_bygrid_missing; [done|].
    by apply check_requirements_missing.
Qed.

(** X14.  The two conventions of unit labels agree on the vapour pressure
    and the day length and differ on the three other columns: a table
    labelled the official way and asked for the alternative way is refused
    with these three names missing. *)
Theorem pet_bycoords_labels h l df coords crs :
  h !! l = Some df ->
  point_ready df false ->
  "tmin (deg c)" ∉ al_keys (df_columns df) ->
  "tmax (deg c)" ∉ al_keys (df_columns df) ->
  "srad (W/m^2)" ∉ al_keys (df_columns df) ->
  pet_bycoords elevation_bycoords l coords crs true h
  = (inl (MissingItems ["tmin (deg c)"; "tmax (deg c)"; "srad (W/m^2)"]), h).
Proof.
  intros Hl Hreq H1 H2 H3.
  unfold point_ready in Hreq. rewrite check_requirements_ok in Hreq.
  assert ("vp (Pa)" ∈ al_keys (df_columns df)) as Hvp by (apply Hreq; in_names).
  assert ("dayl (s)" ∈ al_keys (df_columns df)) as Hdayl by (apply Hreq; in_names).
  eapply pet_bycoords_missing; [done|].
  unfold _check_requirements. cbn [isinstance_Iterable negb iterate].
  change (tmin_c true) with "tmin (deg c)". change (tmax_c true) with "tmax (deg c)".
  change (srad_wm2 true) with "srad (W/m^2)". change va_pa with "vp (Pa)".
  change dayl_s with "dayl (s)".
  apply contains_false in H1, H2, H3. apply contains_true in Hvp, Hdayl.
  cbn [List.filter]. by rewrite H1, H2, H3, Hvp, Hdayl.
Qed.

(** X15.  When the elevation service answers with an empty list, the point
    engine raises the index error of the subscript, after it has added the
    mean temperature to the table passed. *)
Theorem pet_bycoords_empty_answer h l df coords crs alt_unit :
  h !! l = Some df ->
  point_ready df alt_unit ->
  elevation_bycoords [coords] crs = inr [] ->
  pet_bycoords elevation_bycoords l coords crs alt_unit h
  = (inl IndexError, <[l := table_at_lookup df alt_unit]> h).
Proof.
  intros Hl Hreq Hsvc.
  by apply (pet_bycoords_at_lookup elevation_bycoords h l df coords crs alt_unit
              (inr []) Hl Hreq Hsvc).
Qed.
Lemma returned_ready (df : DataFrame F) coords alt_unit elevation :
  point_ready df alt_unit ->
  point_ready (returned_table df coords alt_unit elevation) alt_unit.
Proof.
  unfold point_ready. rewrite !check_requirements_ok. intros Hreq r Hr.
  apply al_get_keys.
  destruct (decide (r = va_pa)) as [->|Hvp]; [rewrite returned_vp; eauto|].
  rewrite returned_other; [by apply al_get_keys, Hreq| |  |done].
  - apply list_elem_of_In in Hr. destruct alt_unit; simpl in Hr;
      repeat destruct Hr as [<-|Hr]; try done.
  - apply list_elem_of_In in Hr. destruct alt_unit; simpl in Hr;
      repeat destruct Hr as [<-|Hr]; try done.
Qed.

Lemma col_returned_vp (df : DataFrame F) coords alt_unit elevation i :
  col (returned_table df coords alt_unit elevation) va_pa i
  = Row.vp_restored (col df va_pa i).
Proof. unfold col at 1. by rewrite returned_vp. Qed.

Lemma col_returned_pet (df : DataFrame F) coords alt_unit elevation i :
  col (returned_table df coords alt_unit elevation) pet_mmday i
  = pet_column df coords alt_unit elevation i.
Proof. unfold col. by rewrite returned_pet. Qed.

Lemma col_returned_other (df : DataFrame F) coords alt_unit elevation name i :
  name <> tmean_c -> name <> pet_mmday -> name <> va_pa ->
  col (returned_table df coords alt_unit elevation) name i = col df name i.
Proof. intros H1 H2 H3. unfold col. by rewrite returned_other. Qed.

Lemma pet_column_returned (df : DataFrame F) coords alt_unit elevation i :
  Row.vp_restored (col df va_pa i) = col df va_pa i ->
  pet_column (returned_table df coords alt_unit elevation) coords alt_unit elevation i
  = pet_column df coords alt_unit elevation i.
Proof.
  intros Hrest. unfold pet_column, jday.
  rewrite col_returned_vp, Hrest.
  rewrite !col_returned_other by (try done; destruct alt_unit; done).
  done.
Qed.

Lemma returned_keys_same (df : DataFrame F) coords alt_unit elevation :
  va_pa ∈ al_keys (df_columns df) ->
  pet_mmday ∈ al_keys (df_columns df) ->
  tmean_c ∉ al_keys (df_columns df) ->
  al_keys (df_columns (returned_table df coords alt_unit elevation))
  = al_keys (df_columns df).
Proof.
  intros Hvp Hpet Htm.
  unfold returned_table, caller_table. cbn [df_columns].
  rewrite al_keys_del_filter, !al_keys_set.
  apply contains_false in Htm. rewrite Htm.
  assert (contains (al_keys (df_columns df) ++ [tmean_c]) va_pa = true) as ->.
  { apply contains_true, elem_of_app. by left. }
  assert (contains (al_keys (df_columns df) ++ [tmean_c]) pet_mmday = true) as ->.
  { apply contains_true, elem_of_app. by left. }
  assert (contains (al_keys (df_columns df) ++ [tmean_c]) va_pa = true) as ->.
  { apply contains_true, elem_of_app. by left. }
  rewrite List.filter_app.
  rewrite (filter_keys_notin tmean_c) by (by apply contains_false).
  assert (List.filter (fun k' => negb (String.eqb tmean_c k')) [tmean_c] = []) as ->
    by reflexivity.
  by rewrite app_nil_r.
Qed.

(** X18.  On a table whose vapour pressures are given back by the
    scaling to kilopascals and back (in binary64 1500 Pa is, 346 Pa is
    not; in exact arithmetic every value is), the point engine can be
    applied to the table it returns and changes nothing: the second table
    has the index, the column names in their order and, at every row, the
    values of the first. *)
Theorem pet_bycoords_idempotent h l df coords crs alt_unit elevs elevation :
  h !! l = Some df ->
  point_ready df alt_unit ->
  elevation_bycoords [coords] crs = inr elevs ->
  item0 elevs = inr elevation ->
  (forall i, (i < length (df_index df))%nat ->
     Row.vp_restored (col df va_pa i) = col df va_pa i) ->
  exists l1 h1 out1 l2 h2 out2,
    pet_bycoords elevation_bycoords l coords crs alt_unit h = (inr l1, h1)
    /\ h1 !! l1 = Some out1
    /\ pet_bycoords elevation_bycoords l1 coords crs alt_unit h1 = (inr l2, h2)
    /\ h2 !! l2 = Some out2
    /\ df_index out2 = df_index out1
    /\ al_keys (df_columns out2) = al_keys (df_columns out1)
    /\ forall name i, (i < length (df_index df))%nat ->
         col out2 name i = col out1 name i.
Proof.
  intros Hl Hreq Hsvc Helev Hrest.
  eexists _, _, _, _, _, _. split.
  { by eapply pet_bycoords_run. }
  split; [apply lookup_insert_eq|]. split.
  { eapply pet_bycoords_run; [apply lookup_insert_eq| |done..].
    by apply returned_ready. }
  split; [apply lookup_insert_eq|]. split; [done|]. split.
  - apply returned_keys_same.
    + apply al_get_keys. rewrite returned_vp. eauto.
    + apply al_get_keys. rewrite returned_pet. eauto.
    + intros Hin. by apply al_keys_del in Hin as [? _].
  - intros name i Hi. specialize (Hrest i Hi).
    destruct (decide (name = tmean_c)) as [->|Htm].
    { unfold col, returned_table at 1 3. cbn [df_columns]. by rewrite !al_get_del_eq. }
    destruct (decide (name = pet_mmday)) as [->|Hpet].
    { rewrite !col_returned_pet. by apply pet_column_returned. }
    destruct (decide (name = va_pa)) as [->|Hvp].
    { rewrite !col_returned_vp. by rewrite Hrest. }
    by rewrite col_returned_other.
Qed.
End EngineFacts.


(** ** The further properties at sample inputs *)

Ltac not_in_names :=
  let Hin := fresh "Hin" in
  intros Hin; apply list_elem_of_In in Hin; simpl in Hin;
  repeat destruct Hin as [Hin|Hin]; first [discriminate Hin | destruct Hin].

Lemma dates_todict_range_witness :
  dates_todict Edge.to_datetime (VTuple [VStr "2000-01-01"; VStr "2000-12-31"])
  = inr [("start", "2000-01-01"); ("end", "2000-12-31")].
Proof.
  apply (dates_todict_range Edge.to_datetime (VStr "2000-01-01") (VStr "2000-12-31")
           {| year := 2000; month := 1; day := 1 |}
           {| year := 2000; month := 12; day := 31 |}).
  - reflexivity.
  - reflexivity.
  - reflexivity.
  - simpl. lia.
  - simpl. lia.
Defined.

Lemma dates_todict_wants_a_pair_witness :
  dates_todict Edge.to_datetime (VList [VStr "2000-01-01"; VStr "2000-12-31"])
  = inl (InvalidInputType3 "dates" "tuple" "(start, end)")
  /\ check_dates (VList [VStr "2000-01-01"; VStr "2000-12-31"]) = inr tt.
Proof.
  destruct (dates_todict_wants_a_pair Edge.to_datetime
              (VList [VStr "2000-01-01"; VStr "2000-12-31"])) as [Hdict Hcheck].
  - intros a b. discriminate.
  - split; [exact Hdict|]. apply Hcheck. by eexists.
Defined.

Lemma years_todict_round_trip_witness :
  exists names,
    al_get "years" (years_todict (inr [2019; 2020]%Z)) = Some names
    /\ names = "2019,2020"
    /\ map int (str_split "," names) = [inr 2019%Z; inr 2020%Z].
Proof. apply (years_todict_round_trip [2019; 2020]%Z). discriminate. Defined.

Lemma edge_reads_year (y : Z) :
  y ∈ [2019; 2020]%Z -> reads_year Edge.to_datetime y.
Proof.
  intros Hy. apply list_elem_of_In in Hy. simpl in Hy.
  destruct Hy as [<-|[<-|[]]]; repeat split.
Defined.

Lemma years_tolist_periods_witness :
  years_tolist Edge.to_datetime (inr [2019; 2020]%Z)
  = inr [(noon (january_1 2019), noon (december 31 2019));
         (noon (january_1 2020), noon (december 30 2020))].
Proof.
  apply (years_tolist_periods Edge.to_datetime [2019; 2020]%Z).
  - discriminate.
  - apply edge_reads_year.
Defined.

Lemma years_tolist_365_days_witness :
  exists periods,
    years_tolist Edge.to_datetime (inr [2019; 2020]%Z) = inr periods
    /\ length periods = 2%nat.
Proof.
  destruct (years_tolist_365_days Edge.to_datetime [2019; 2020]%Z
              (map period [2019; 2020]%Z)) as [Hlen _].
  - discriminate.
  - apply edge_reads_year.
  - reflexivity.
  - eexists. split; [reflexivity|exact Hlen].
Defined.

Lemma Daymet_init_errors_witness :
  Daymet_init (Variables ["wind"]) true "monthly" "na"
  = inl (InvalidInputValue "variables" valid_variables)
  /\ Daymet_init (Variables ["tmin"]) true "monthly" "na"
     = inl (InvalidInputRange
              "PET can only be computed at daily scale i.e., time_scale must be daily.").
Proof.
  split.
  - destruct (Daymet_init_errors (Variables ["wind"]) true "monthly" "na")
      as (_ & _ & Hvars & _).
    apply Hvars; [in_names|in_names|discriminate|].
    intros Hall. specialize (Hall "wind" ltac:(in_names)). revert Hall. not_in_names.
  - destruct (Daymet_init_errors (Variables ["tmin"]) true "monthly" "na")
      as (_ & _ & _ & Hpet).
    apply Hpet; [in_names|in_names|discriminate| |reflexivity|discriminate].
    intros v Hv. apply list_elem_of_In in Hv. simpl in Hv.
    destruct Hv as [<-|[]]. in_names.
Defined.


Lemma Daymet_init_default_witness :
  Daymet_init NoVariables true "monthly" "hi"
  = inr {| region := "hi"; time_scale := "monthly";
           variables := ["dayl"; "prcp"; "srad"; "swe"; "tmax"; "tmin"; "vp"] |}.
Proof. apply Daymet_init_default; in_names. Defined.

Lemma Daymet_init_keeps_variables_witness :
  exists d,
    Daymet_init (Variables ["tmin"; "tmin"]) false "annual" "pr" = inr d
    /\ variables d = ["tmin"; "tmin"].
Proof.
  assert (Daymet_init (Variables ["tmin"; "tmin"]) false "annual" "pr"
          = inr {| region := "pr"; time_scale := "annual";
                   variables := ["tmin"; "tmin"] |}) as Hd by reflexivity.
  destruct (Daymet_init_keeps_variables ["tmin"; "tmin"] "annual" "pr" _ Hd) as [Hvars _].
  eexists. split; [exact Hd|exact Hvars].
Defined.

Lemma pet_bycoords_frame_witness :
  exists l' h' out,
    pet_bycoords Sample.point_service 1%nat Sample.coords "epsg:4326" false
      {[1%nat := Sample.table]} = (inr l', h')
    /\ h' !! l' = Some out
    /\ al_get "srad (W/m2)" (df_columns out)
       = al_get "srad (W/m2)" (df_columns Sample.table).
Proof.
  destruct (pet_bycoords_frame Sample.point_service {[1%nat := Sample.table]} 1%nat
              Sample.table Sample.coords "epsg:4326" false [lit 200] (lit 200))
    as (l' & h' & out & Hrun & Hout & _ & Hcols & _).
  - apply sample_store.
  - reflexivity.
  - reflexivity.
  - reflexivity.
  - exists l', h', out. split; [exact Hrun|]. split; [exact Hout|].
    apply Hcols; discriminate.
Defined.

Lemma pet_bygrid_frame_witness :
  exists l' h' out,
    pet_bygrid Sample.grid_service 1%nat {[1%nat := Sample.dataset]} = (inr l', h')
    /\ h' !! l' = Some out
    /\ al_get "lat" (ds_vars out) = al_get "lat" (ds_vars Sample.dataset).
Proof.
  destruct (pet_bygrid_frame Sample.grid_service {[1%nat := Sample.dataset]} 1%nat
              Sample.dataset "tmin" Sample.elev)
    as (l' & h' & out & vp & pet & Hrun & Hout & _ & _ & _ & Hvars & _).
  - apply sample_grid_store.
  - apply sample_grid_ready.
  - exists l', h', out. split; [exact Hrun|]. split; [exact Hout|].
    apply Hvars; [not_in_names|discriminate|discriminate].
Defined.

Lemma engines_require_witness :
  pet_bycoords Sample.point_service 1%nat Sample.coords "epsg:4326" false
    {[1%nat := Edge.table_short]}
  = (inl (MissingItems ["tmax (degrees C)"; "srad (W/m2)"; "dayl (s)"]),
     {[1%nat := Edge.table_short]})
  /\ pet_bygrid Sample.grid_service 1%nat {[1%nat := Edge.dataset_short]}
     = (inl (MissingItems ["lat"; "lon"]), {[1%nat := Edge.dataset_short]}).
Proof.
  destruct (engines_require Sample.point_service Sample.grid_service
              {[1%nat := Edge.table_short]} 1%nat Edge.table_short Sample.coords
              "epsg:4326" false
              {[1%nat := Edge.dataset_short]} 1%nat Edge.dataset_short)
    as [Hpoint Hgrid].
  split.
  - apply Hpoint; [apply sample_store|]. vm_compute. discriminate.
  - apply Hgrid; [apply sample_grid_store|]. vm_compute. discriminate.
Defined.

Lemma pet_bycoords_labels_witness :
  pet_bycoords Sample.point_service 1%nat Sample.coords "epsg:4326" true
    {[1%nat := Sample.table]}
  = (inl (MissingItems ["tmin (deg c)"; "tmax (deg c)"; "srad (W/m^2)"]),
     {[1%nat := Sample.table]}).
Proof.
  apply (pet_bycoords_labels Sample.point_service {[1%nat := Sample.table]} 1%nat
           Sample.table Sample.coords "epsg:4326").
  - apply sample_store.
  - reflexivity.
  - not_in_names.
  - not_in_names.
  - not_in_names.
Defined.

Lemma pet_bycoords_empty_answer_witness :
  pet_bycoords Edge.point_service_empty 1%nat Sample.coords "epsg:4326" false
    {[1%nat := Sample.table]}
  = (inl IndexError,
     <[1%nat := table_at_lookup Sample.table false]> {[1%nat := Sample.table]}).
Proof.
  apply (pet_bycoords_empty_answer Edge.point_service_empty {[1%nat := Sample.table]}
           1%nat Sample.table Sample.coords "epsg:4326" false).
  - apply sample_store.
  - reflexivity.
  - reflexivity.
Defined.

Lemma pet_bycoords_idempotent_witness :
  exists l1 h1 l2 h2,
    @pet_bycoords float (binary64 Sample.libm_april) Sample.point_service64 1%nat
      Sample.coords64 "epsg:4326" false {[1%nat := Sample.table_april64]} = (inr l1, h1)
    /\ @pet_bycoords float (binary64 Sample.libm_april) Sample.point_service64 l1
         Sample.coords64 "epsg:4326" false h1 = (inr l2, h2).
Proof.
  destruct (@pet_bycoords_idempotent float (binary64 Sample.libm_april)
              Sample.point_service64 {[1%nat := Sample.table_april64]}
              1%nat Sample.table_april64 Sample.coords64 "epsg:4326" false
              [float_lit 200] (float_lit 200))
    as (l1 & h1 & out1 & l2 & h2 & out2 & Hrun1 & _ & Hrun2 & _).
  - apply lookup_singleton_eq.
  - reflexivity.
  - reflexivity.
  - reflexivity.
  - intros i _. vm_compute. reflexivity.
  - exists l1, h1, l2, h2. split; [exact Hrun1|exact Hrun2].
Defined.

Lemma pet_bygrid_needs_attributes_witness :
  pet_bygrid Sample.grid_service 1%nat
    {[1%nat := Edge.dataset_with [("crs", AttrStr "epsg:4326")]]}
  = (inl (AttributeError "res"),
     <[1%nat := caller_dataset (Edge.dataset_with [("crs", AttrStr "epsg:4326")])]>
       {[1%nat := Edge.dataset_with [("crs", AttrStr "epsg:4326")]]})
  /\ pet_bygrid Sample.grid_service 1%nat
       {[1%nat := Edge.dataset_with [("res", AttrNums [lit 1])]]}
     = (inl (AttributeError "crs"),
        <[1%nat := caller_dataset (Edge.dataset_with [("res", AttrNums [lit 1])])]>
          {[1%nat := Edge.dataset_with [("res", AttrNums [lit 1])]]})
  /\ pet_bygrid Sample.grid_service 1%nat
       {[1%nat := Edge.dataset_with [("res", AttrStr EmptyString)]]}
     = (inl IndexError,
        <[1%nat := caller_dataset (Edge.dataset_with [("res", AttrStr EmptyString)])]>
          {[1%nat := Edge.dataset_with [("res", AttrStr EmptyString)]]}).
Proof.
  split; [|split].
  - destruct (pet_bygrid_needs_attributes Sample.grid_service
                {[1%nat := Edge.dataset_with [("crs", AttrStr "epsg:4326")]]} 1%nat
                (Edge.dataset_with [("crs", AttrStr "epsg:4326")]))
      as (Hres & _).
    + apply sample_grid_store.
    + reflexivity.
    + not_in_names.
    + not_in_names.
    + apply Hres. reflexivity.
  - destruct (pet_bygrid_needs_attributes Sample.grid_service
                {[1%nat := Edge.dataset_with [("res", AttrNums [lit 1])]]} 1%nat
                (Edge.dataset_with [("res", AttrNums [lit 1])]))
      as (_ & _ & Hcrs).
    + apply sample_grid_store.
    + reflexivity.
    + not_in_names.
    + not_in_names.
    + apply (Hcrs (AttrNums [lit 1]) (mul (lit 1) (lit 1.0e3))); reflexivity.
  - destruct (pet_bygrid_needs_attributes Sample.grid_service
                {[1%nat := Edge.dataset_with [("res", AttrStr EmptyString)]]} 1%nat
                (Edge.dataset_with [("res", AttrStr EmptyString)]))
      as (_ & Hbad & _).
    + apply sample_grid_store.
    + reflexivity.
    + not_in_names.
    + not_in_names.
    + apply (Hbad (AttrStr EmptyString) IndexError); reflexivity.
Defined.

Lemma pet_bygrid_empty_time_witness :
  exists h',
    pet_bygrid Sample.grid_service 1%nat {[1%nat := Edge.dataset_no_time]}
    = (inl IndexError, h').
Proof.
  destruct (pet_bygrid_empty_time Sample.grid_service {[1%nat := Edge.dataset_no_time]}
              1%nat Edge.dataset_no_time (AttrNums [lit 1]) (mul (lit 1) (lit 1.0e3))
              (AttrStr "epsg:4326") Sample.elev)
    as (h' & Hrun & _).
  - apply sample_grid_store.
  - reflexivity.
  - reflexivity.
  - reflexivity.
  - reflexivity.
  - reflexivity.
  - not_in_names.
  - reflexivity.
  - by exists h'.
Defined.
